(* ===== verification/_CoqProject ===== *)
-Q . S2P
Prelude.v
GoLib.v
GoJson.v
Markdown.v
Os.v
Config.v
Hook.v
Linters.v
Staging.v
Validator.v
ErrGroup.v
Response.v
SimpleUI.v
Styles.v
Tui.v
Main.v
