(* ===== verification/Prelude.v ===== *)
(** * qxgo: a verification development of the PostToolUse validation hook

    The program (src/qxgo) is a Go hook run after an agent edits or writes a
    file.  [run] (main.go) reads the tool invocation from stdin
    (hook/hook.go) and builds a [ValidationInput]; off a terminal it runs
    [Validator.Validate] (validator/validator.go), prints the JSON response
    of [BuildJSONResponse] (hook/response.go) on stdout and the plain report
    of [SimpleUI.DisplayResult] (ui/simple.go) on stderr; on a terminal, for
    a write with linters, it runs the Bubble Tea TUI (ui/tui.go), whose
    command calls the same [Validate].  [Validate] checks bold markup in the
    changed text (validator/markdown.go) and, for whole-file writes, stages
    a temp copy ([createTempFile]), runs the formatters in registry order,
    the linters concurrently under an errgroup (validator/linters.go),
    reads the staged file back, and removes it in a [defer].
    Configuration is four environment variables (config/config.go).

    ** Files (in dependency order) and what they model

    - [Prelude] (this file): the result type [res]; the state-and-error
      monad [ST] ([let*], [;;;] in [go_scope], [st_catch], [st_wrap],
      [st_try], [st_for]); totality ([st_total], tactic [solve_total]),
      postconditions ([st_post]) and frame conditions ([st_preserves],
      tactic [solve_frame], hint database [frame]); the byte view of strings
      ([bytes]) with the rewrite database [go_db].
    - [GoLib]: Go's [strings] ([Split], [Join], [TrimSpace], affixes),
      [path/filepath] ([Ext], [Base], [Dir] with [Clean]) and [strconv.Itoa];
      library code, written from the Go library, with the Split/Join round
      trip and the [Ext] lemmas the components use.
    - [GoJson]: Go's [encoding/json] string encoding ([appendString] with
      HTML escaping, UTF-8 validation, U+2028/9) and [MarshalIndent] of a
      struct of strings with [omitempty]; library code.
    - [Markdown] (Module [Markdown]): [CheckMarkdownBold].  The two regular
      expressions are one pattern [DD[^D]+DD]; the executable scanner
      [FindAllStringIndex] is proved to compute Go's leftmost-first,
      non-overlapping matches, stated as the inductive [FindAll].
    - [Os]: the world (file system as a [gmap], random stream, stdout and
      stderr writes) and the environment ([Env]: temp dir, random values,
      injected I/O faults, the behaviour of external processes); [os]
      functions ([CreateTemp] with its 10000-try loop, [Rename],
      [WriteFile], [ReadFile], [Remove]) with their Go error texts and their
      frame lemmas ([fs_except], [stdout_same]).
    - [Config]: [Config] and [Load] over an environment lookup.
    - [Hook]: [HookData] and its accessors; [ParseHookData]'s error
      wrapping over the results of reading stdin and decoding.
    - [Linters] (Module [Linters]): [LintResult], the [Linter] and
      [Formatter] implementations as constructors, one definition per Go
      method (command lines), [runCommand]'s classification, the registry;
      the Go [Linter] interface as the class [LinterInterface] with its
      laws [LinterLaws], against which the linter group is written.
    - [Staging]: [createTempFile]; its outcome on every branch.
    - [Validator]: [Validate] and its parts ([markdown_step],
      [run_formatter], [run_linters], [read_back], [after_staging]).  The
      errgroup is a schedule of [Start i]/[Finish i] events on [LintState]
      ([lint_step], [run_group]), written against [LinterInterface]; the
      schedules of the Go program are those after which every task is
      [Done] ([complete]).
    - [ErrGroup]: the [phases] of the goroutines (pending, running, done)
      depend on the schedule alone, so [schedule_completes] decides whether
      [g.Wait()] returns after a schedule.
    - [Response]: [contextParts], [buildResponse], [marshalResponse],
      [BuildJSONResponse].
    - [SimpleUI]: [DisplayResult] as writes through the writer.
    - [Styles]: the colours, styles (as the attributes their lipgloss
      builder chains set) and status icons of ui/styles.go.
    - [Tui]: [Model], [Update], [View] (lipgloss rendering and the
      spinner's picture are parameters) and [Run], the program's event
      loop: key presses, spinner ticks, the two steps of the validation
      command, cut at [createTempFile] so that quitting in between is a
      state, the renderer's writes of the current [View] to stdout
      ([EvRender]), and a terminal failure ([EvFail]) that ends [p.Run()]
      with an error.
    - [Main]: [run] with both modes and its exit codes; the process's
      inputs (stdin, environment, terminal test, the schedule of the
      group, the TUI's events and rendering) are the record [Process].

    ** What is proved (claims C1-C26 in PROJECT.json)

    - Errors and cleanup of a pass: the only error is a staging failure
      (C1); every run leaves the file system as it was except the staged
      path (C2, C18); [HasErrors] is exactly "there is a finding" (C5);
      [WasFormatted] reports whether the content left in the staged file
      by the formatters and the linter group differs from the input, so
      that a linter's [--fix] counts as formatting (C11).
    - The linter group: for every interleaving after which [g.Wait()]
      returns, the results are in registry order (C3), and with read-only
      linters they are those of sequential runs (C4).
    - End to end: what [run] writes on stdout is at most one "approve"
      response, or, on a terminal, frames of the TUI's view (C6); its hook
      mode is characterised exactly (C7); every linter that fails in a
      pass is named in the report with its error (C25); an edit leaves
      every file as it was, in either mode (C26); the TUI refines
      [Validate] (C9) but leaks the staged file when quit in the middle
      (C10).
    - Components: [createTempFile] on every branch (C8); the markdown
      matcher is Go's leftmost-first matching and the checker is sound and
      complete (C12-C14); the two renderings agree (C15); the response
      (C16, C17); [runCommand] and the registry (C20, C21), every tool
      running on the staged file (C23); the TUI's [Update] on the linter
      statuses (C19), their well-formedness (C22) and the truncation of a
      failed linter's output (C24).

    ** Bounds and fuel

    - [os.CreateTemp] tries at most [createTempTries] = 10000 names, as
      Go does; the loop is structural on that count.  Every other loop is
      structural on its input ([TrimSpace] uses the string's length as fuel,
      which suffices since each step removes a byte).
    - A run of the linter group is a finite schedule; [g.Wait()] returning
      is the hypothesis that the schedule completes every task, decided by
      [ErrGroup.schedule_completes].
    - Line numbers, columns and offsets are [nat]: Go's [int] cannot
      overflow on inputs that fit in memory.

    ** Not modelled

    - Reading stdin and [json.Unmarshal] of the payload (inputs of [run]);
      the processes themselves (an oracle of [Env]); the wall-clock deadline
      of the context, which appears only as a process that ends with a
      signal; what lipgloss does with a style on a terminal, the spinner's
      picture and the renderer's cursor-control sequences (parameters of
      the views, or left out of the frames); a failing [os.Remove], whose
      error the code ignores and which the model takes to succeed. *)

From stdpp Require Export base list strings pretty sets gmap.
From Stdlib Require Export Ascii.
From Stdlib Require String.

Declare Scope go_scope.
Delimit Scope go_scope with go.
Open Scope go_scope.

(** ** Results of fallible functions: Go's [(value, error)] pairs *)

Inductive res (A : Type) : Type :=
| Ok (a : A)
| Err (e : string).
Arguments Ok {A} a.
Arguments Err {A} e.

Definition res_bind {A B} (r : res A) (f : A -> res B) : res B :=
  match r with Ok a => f a | Err e => Err e end.

Definition is_ok {A} (r : res A) : bool :=
  match r with Ok _ => true | Err _ => false end.

(** ** A state-and-error monad for code that threads a world *)

Definition ST (S A : Type) : Type := S -> S * res A.

Definition st_ret {S A} (a : A) : ST S A := fun s => (s, Ok a).
Definition st_throw {S A} (e : string) : ST S A := fun s => (s, Err e).
Definition st_bind {S A B} (m : ST S A) (f : A -> ST S B) : ST S B :=
  fun s => match m s with
           | (s', Ok a) => f a s'
           | (s', Err e) => (s', Err e)
           end.
Definition st_get {S} : ST S S := fun s => (s, Ok s).
Definition st_modify {S} (f : S -> S) : ST S unit := fun s => (f s, Ok tt).

Notation "'let*' x ':=' c1 'in' c2" := (st_bind c1 (fun x => c2))
  (at level 61, x pattern, c1 at next level, c2 at level 200) : go_scope.
Notation "c1 ;;; c2" := (st_bind c1 (fun _ => c2))
  (at level 61, c2 at level 200) : go_scope.

(** [m] with its error handled by [h]. *)
Definition st_catch {S A} (m : ST S A) (h : string -> ST S A) : ST S A :=
  fun s => match m s with
           | (s', Ok a) => (s', Ok a)
           | (s', Err e) => h e s'
           end.

(** [v, err := m; if err != nil { h(err) } else { k(v) }] *)
Definition st_try {S A B} (m : ST S A) (h : string -> ST S B) (k : A -> ST S B) : ST S B :=
  fun s => match m s with
           | (s', Ok a) => k a s'
           | (s', Err e) => h e s'
           end.

(** [fmt.Errorf(msg + "%w", err)] on the error of [m]. *)
Definition st_wrap {S A} (msg : string) (m : ST S A) : ST S A :=
  st_catch m (fun e => st_throw (msg +:+ e)).

(** [for _, x := range l { f(x) }] *)
Fixpoint st_for {S A} (l : list A) (f : A -> ST S unit) : ST S unit :=
  match l with
  | [] => st_ret tt
  | x :: t => st_bind (f x) (fun _ => st_for t f)
  end.

Definition st_total {S A} (m : ST S A) : Prop := forall s, exists s' a, m s = (s', Ok a).

(** Every value [m] returns satisfies [P]. *)
Definition st_post {S A} (P : A -> Prop) (m : ST S A) : Prop :=
  forall s s' a, m s = (s', Ok a) -> P a.

(** [m] relates every state to the one it leaves by [R], whatever its
    outcome: a frame condition when [R] says what [m] may change. *)
Definition st_preserves {S A} (R : relation S) (m : ST S A) : Prop := forall s, R s (m s).1.


(** ** Generic list helpers *)

Fixpoint drop_while {A} (p : A -> bool) (l : list A) : list A :=
  match l with
  | [] => []
  | x :: t => if p x then drop_while p t else l
  end.

Fixpoint take_while {A} (p : A -> bool) (l : list A) : list A :=
  match l with
  | [] => []
  | x :: t => if p x then x :: take_while p t else []
  end.

Lemma st_bind_ret_l {S A B} (a : A) (f : A -> ST S B) s :
  st_bind (st_ret a) f s = f a s.
Proof. reflexivity. Qed.

Lemma st_bind_assoc {S A B C} (m : ST S A) (f : A -> ST S B) (g : B -> ST S C) s :
  st_bind (st_bind m f) g s = st_bind m (fun a => st_bind (f a) g) s.
Proof. unfold st_bind. by destruct (m s) as [? []]. Qed.

Lemma st_bind_ok {S A B} (m : ST S A) (f : A -> ST S B) s s' a :
  m s = (s', Ok a) -> st_bind m f s = f a s'.
Proof. unfold st_bind. by intros ->. Qed.

Lemma st_bind_err {S A B} (m : ST S A) (f : A -> ST S B) s s' e :
  m s = (s', Err e) -> st_bind m f s = (s', Err e).
Proof. unfold st_bind. by intros ->. Qed.

(** ** Byte view of strings *)

Abbreviation bytes := String.list_ascii_of_string.
Abbreviation of_bytes := String.string_of_list_ascii.

Lemma bytes_app (s1 s2 : string) : bytes (s1 +:+ s2) = bytes s1 ++ bytes s2.
Proof. induction s1; simpl; [done | by f_equal]. Qed.

Lemma of_bytes_app (l1 l2 : list ascii) : of_bytes (l1 ++ l2) = of_bytes l1 +:+ of_bytes l2.
Proof. induction l1; simpl; [done | by rewrite IHl1]. Qed.

Lemma bytes_of_bytes (l : list ascii) : bytes (of_bytes l) = l.
Proof. apply String.list_ascii_of_string_of_list_ascii. Qed.

Lemma of_bytes_bytes (s : string) : of_bytes (bytes s) = s.
Proof. apply String.string_of_list_ascii_of_string. Qed.

Lemma bytes_inj (s1 s2 : string) : bytes s1 = bytes s2 -> s1 = s2.
Proof. intros H. by rewrite <- (of_bytes_bytes s1), H, of_bytes_bytes. Qed.

Lemma bytes_length (s : string) : length (bytes s) = String.length s.
Proof. induction s; simpl; [done | by f_equal]. Qed.

Lemma string_app_assoc (s1 s2 s3 : string) : (s1 +:+ s2) +:+ s3 = s1 +:+ (s2 +:+ s3).
Proof. apply bytes_inj. by rewrite !bytes_app, app_assoc. Qed.

Lemma string_app_nil_r (s : string) : s +:+ "" = s.
Proof. apply bytes_inj. by rewrite bytes_app, app_nil_r. Qed.

Lemma string_app_nil_l (s : string) : "" +:+ s = s.
Proof. reflexivity. Qed.

Lemma string_app_eq_nil (s1 s2 : string) : s1 +:+ s2 = "" -> s1 = "" /\ s2 = "".
Proof. destruct s1; simpl; [done|discriminate]. Qed.

(** ** Automation shared by the components *)

Create Rewrite HintDb go_db.
#[export] Hint Rewrite @st_bind_ret_l @st_bind_assoc : go_db.
#[export] Hint Rewrite bytes_app of_bytes_app bytes_of_bytes of_bytes_bytes : go_db.
#[export] Hint Rewrite string_app_assoc string_app_nil_r : go_db.

Create HintDb go_hints discriminated.
#[export] Hint Resolve bytes_inj : go_hints.

(** [go_step] unfolds one monadic bind whose first computation is known. *)
Ltac go_step :=
  match goal with
  | H : ?m ?s = (?s', Ok ?a) |- context [st_bind ?m ?f ?s] =>
      rewrite (st_bind_ok m f s s' a H)
  | H : ?m ?s = (?s', Err ?e) |- context [st_bind ?m ?f ?s] =>
      rewrite (st_bind_err m f s s' e H)
  end.

(** [case_if] splits the first boolean test of the goal, keeping its equation. *)
Ltac case_if :=
  match goal with
  | |- context [if ?b then _ else _] =>
      let E := fresh "E" in destruct b eqn:E
  end.

Lemma map_mjoin {A B} (f : A -> B) (ls : list (list A)) :
  map f (mjoin ls) = mjoin (map (map f) ls).
Proof. induction ls as [|l ls IH]; simpl; [done|]. by rewrite map_app, IH. Qed.

Lemma take_while_drop_while {A} (p : A -> bool) (l : list A) :
  take_while p l ++ drop_while p l = l.
Proof. induction l as [|x t IH]; simpl; [done|]. destruct (p x); simpl; by rewrite ?IH. Qed.

(** ** Computations that never fail *)

Lemma st_total_ret {S A} (a : A) : st_total (S:=S) (st_ret a).
Proof. intros s. by exists s, a. Qed.

Lemma st_total_modify {S} (f : S -> S) : st_total (st_modify f).
Proof. intros s. by exists (f s), tt. Qed.

Lemma st_total_bind {S A B} (m : ST S A) (f : A -> ST S B) :
  st_total m -> (forall a, st_total (f a)) -> st_total (st_bind m f).
Proof.
  intros Hm Hf s. destruct (Hm s) as (s1 & a & E). destruct (Hf a s1) as (s2 & b & E2).
  exists s2, b. unfold st_bind. by rewrite E.
Qed.

Lemma st_total_for {S A} (l : list A) (f : A -> ST S unit) :
  (forall x, st_total (f x)) -> st_total (st_for l f).
Proof.
  intros Hf. induction l as [|x t IH]; simpl; [apply st_total_ret|].
  by apply st_total_bind.
Qed.

#[export] Hint Resolve st_total_ret st_total_modify st_total_for : go_hints.

(** ** Postconditions *)

Lemma st_post_ret {S A} (P : A -> Prop) (a : A) : P a -> st_post (S:=S) P (st_ret a).
Proof. by intros Ha s s' a' [= _ <-]. Qed.

Lemma st_post_throw {S A} (P : A -> Prop) e : st_post (S:=S) P (st_throw e).
Proof. by intros s s' a [=]. Qed.

Lemma st_post_bind {S A B} (Q : A -> Prop) (P : B -> Prop) (m : ST S A) (f : A -> ST S B) :
  st_post Q m -> (forall a, Q a -> st_post P (f a)) -> st_post P (st_bind m f).
Proof.
  intros Hm Hf s s' b. unfold st_bind. destruct (m s) as [s1 [a|e]] eqn:E; [|done].
  apply (Hf a (Hm _ _ _ E)).
Qed.

Lemma st_post_bind_any {S A B} (P : B -> Prop) (m : ST S A) (f : A -> ST S B) :
  (forall a, st_post P (f a)) -> st_post P (st_bind m f).
Proof. intros Hf. apply (st_post_bind (fun _ => True)); [done|]. intros a _. apply Hf. Qed.

Lemma st_post_wrap {S A} (P : A -> Prop) msg (m : ST S A) :
  st_post P m -> st_post P (st_wrap msg m).
Proof.
  intros Hm s s' a. unfold st_wrap, st_catch. destruct (m s) as [s1 [a'|e]] eqn:E; [|done].
  intros [= _ <-]. by apply (Hm s s1).
Qed.

(** ** Frame conditions *)

Section Preserves.
Context {S : Type} (R : relation S) `{!PreOrder R}.

Lemma st_preserves_ret {A} (a : A) : st_preserves R (st_ret a).
Proof. intros s. simpl. reflexivity. Qed.

Lemma st_preserves_throw {A} e : st_preserves (A:=A) R (st_throw e).
Proof. intros s. simpl. reflexivity. Qed.

Lemma st_preserves_modify (f : S -> S) : (forall s, R s (f s)) -> st_preserves R (st_modify f).
Proof. intros Hf s. apply Hf. Qed.

Lemma st_preserves_bind {A B} (m : ST S A) (f : A -> ST S B) :
  st_preserves R m -> (forall a, st_preserves R (f a)) -> st_preserves R (st_bind m f).
Proof.
  intros Hm Hf s. unfold st_bind. specialize (Hm s).
  destruct (m s) as [s1 [a|e]]; simpl in *; [|done]. etrans; [apply Hm|apply Hf].
Qed.

Lemma st_preserves_catch {A} (m : ST S A) (h : string -> ST S A) :
  st_preserves R m -> (forall e, st_preserves R (h e)) -> st_preserves R (st_catch m h).
Proof.
  intros Hm Hh s. unfold st_catch. specialize (Hm s).
  destruct (m s) as [s1 [a|e]]; simpl in *; [done|]. etrans; [apply Hm|apply Hh].
Qed.

Lemma st_preserves_wrap {A} msg (m : ST S A) :
  st_preserves R m -> st_preserves R (st_wrap msg m).
Proof. intros Hm. apply st_preserves_catch; [done|]. intros e. apply st_preserves_throw. Qed.

Lemma st_preserves_for {A} (l : list A) (f : A -> ST S unit) :
  (forall x, st_preserves R (f x)) -> st_preserves R (st_for l f).
Proof.
  intros Hf. induction l as [|x t IH]; simpl; [apply st_preserves_ret|].
  by apply st_preserves_bind.
Qed.
End Preserves.

Create HintDb frame discriminated.

(** [solve_frame] proves a frame condition of a composition from those of
    its steps. *)
Ltac solve_frame :=
  repeat match goal with
  | |- PreOrder _ => typeclasses eauto
  | |- forall _, st_preserves _ _ => intros
  | |- st_preserves _ (st_ret _) => apply st_preserves_ret
  | |- st_preserves _ (st_throw _) => apply st_preserves_throw
  | |- st_preserves _ (st_bind _ _) => apply st_preserves_bind
  | |- st_preserves _ (st_catch _ _) => apply st_preserves_catch
  | |- st_preserves _ (st_wrap _ _) => apply st_preserves_wrap
  | |- st_preserves _ (st_for _ _) => apply st_preserves_for
  | |- st_preserves _ (if ?b then _ else _) => destruct b
  | |- st_preserves _ (match ?x with _ => _ end) => destruct x
  | |- _ => solve [eauto with frame]
  end.

(** [solve_total] proves that a composition of total steps is total. *)
Ltac solve_total :=
  repeat match goal with
  | |- st_total (st_bind _ _) => apply st_total_bind; [|intros]
  | |- st_total (if ?b then _ else _) => destruct b
  | |- st_total (st_for _ _) => apply st_total_for; intros
  | |- _ => solve [eauto with go_hints]
  end.
