(* ===== verification/GoLib.v ===== *)
(** * GoLib: the Go standard-library functions the hook calls

    [strings.Split] (on a one-byte separator, the only use in the code is
    ["\n"]), [strings.Join], [strings.HasPrefix]/[HasSuffix],
    [strings.TrimPrefix]/[TrimSuffix], [strings.TrimSpace],
    [path/filepath.Ext], [Base], [Dir] and [Clean] (Unix separators), and
    the decimal formatting of [%d]/[strconv.Itoa].  Each is written on the
    byte view of the string, following the Go sources' loops. *)

From S2P Require Import Prelude.

Module Strings.

(** [strings.Split(s, sep)] for a one-byte [sep]: the pieces between
    separators, [[""]] for the empty string. *)
Fixpoint split_bytes (c : ascii) (l : list ascii) : list (list ascii) :=
  match l with
  | [] => [[]]
  | x :: t =>
      let r := split_bytes c t in
      if decide (x = c) then [] :: r
      else match r with
           | p :: ps => (x :: p) :: ps
           | [] => [[x]]
           end
  end.

Definition Split (s : string) (sep : ascii) : list string :=
  map of_bytes (split_bytes sep (bytes s)).

(** [strings.Join(elems, sep)]. *)
Fixpoint Join (elems : list string) (sep : string) : string :=
  match elems with
  | [] => ""
  | [e] => e
  | e :: rest => e +:+ sep +:+ Join rest sep
  end.

Fixpoint join_bytes (sep : list ascii) (ps : list (list ascii)) : list ascii :=
  match ps with
  | [] => []
  | [p] => p
  | p :: rest => p ++ sep ++ join_bytes sep rest
  end.

Definition HasPrefix (s prefix : string) : bool :=
  bool_decide (take (length (bytes prefix)) (bytes s) = bytes prefix).

Definition HasSuffix (s suffix : string) : bool :=
  bool_decide (drop (length (bytes s) - length (bytes suffix)) (bytes s) = bytes suffix
               /\ length (bytes suffix) <= length (bytes s)).

(** [strings.TrimPrefix] and [strings.TrimSuffix]: remove the affix only
    when it is there. *)
Definition TrimPrefix (s prefix : string) : string :=
  if HasPrefix s prefix then of_bytes (drop (length (bytes prefix)) (bytes s)) else s.

Definition TrimSuffix (s suffix : string) : string :=
  if HasSuffix s suffix
  then of_bytes (take (length (bytes s) - length (bytes suffix)) (bytes s)) else s.

(** [strings.TrimSpace]: removes leading and trailing white-space runes
    ([unicode.IsSpace]), decoded from UTF-8.  The ASCII spaces are
    [\t \n \v \f \r] and space; the others are U+0085, U+00A0, U+1680,
    U+2000..U+200A, U+2028, U+2029, U+202F, U+205F and U+3000, listed by
    their UTF-8 encodings (a prefix-free set, so at most one matches). *)
Definition ascii_spaces : list ascii :=
  ["009"; "010"; "011"; "012"; "013"; " "]%char.

Definition unicode_space_encodings : list (list ascii) :=
  [["194"; "133"]; ["194"; "160"]; ["225"; "154"; "128"];
   ["226"; "128"; "168"]; ["226"; "128"; "169"]; ["226"; "128"; "175"];
   ["226"; "129"; "159"]; ["227"; "128"; "128"]]%char
  ++ map (fun c => ["226"; "128"; c]%char)
         ["128"; "129"; "130"; "131"; "132"; "133"; "134"; "135"; "136"; "137"; "138"]%char.

Definition space_encodings : list (list ascii) :=
  map (fun c => [c]) ascii_spaces ++ unicode_space_encodings.

Fixpoint find_enc (encs : list (list ascii)) (l : list ascii) : option (list ascii) :=
  match encs with
  | [] => None
  | e :: es => if bool_decide (take (length e) l = e) then Some e else find_enc es l
  end.

(** Strip encodings from the front; [fuel] bounds the number of runes,
    and [length l] is enough since every encoding is non-empty. *)
Fixpoint trim_left_go (fuel : nat) (encs : list (list ascii)) (l : list ascii) : list ascii :=
  match fuel with
  | 0 => l
  | S f =>
      match find_enc encs l with
      | Some e => trim_left_go f encs (drop (length e) l)
      | None => l
      end
  end.

Definition trim_left_bytes (l : list ascii) : list ascii :=
  trim_left_go (length l) space_encodings l.

(** Trailing runes: the same on the reversed bytes, with reversed encodings. *)
Definition trim_right_bytes (l : list ascii) : list ascii :=
  rev (trim_left_go (length l) (map (@rev ascii) space_encodings) (rev l)).

Definition TrimSpace (s : string) : string :=
  of_bytes (trim_right_bytes (trim_left_bytes (bytes s))).

End Strings.

Module Filepath.
Import Strings.

(** [filepath.Ext]: the suffix from the final dot of the final element. *)
Fixpoint ext_rev (r acc : list ascii) : list ascii :=
  match r with
  | [] => []
  | x :: t =>
      if decide (x = "/"%char) then []
      else if decide (x = "."%char) then "."%char :: acc
      else ext_rev t (x :: acc)
  end.

Definition Ext (path : string) : string := of_bytes (ext_rev (rev (bytes path)) []).

(** [filepath.Base]: the last element, trailing slashes removed first;
    ["."] for the empty path and ["/"] for a path of slashes. *)
Definition Base (path : string) : string :=
  let l := bytes path in
  if decide (l = []) then "."
  else
    let l' := rev (drop_while (fun c => bool_decide (c = "/"%char)) (rev l)) in
    if decide (l' = []) then "/"
    else of_bytes (rev (take_while (fun c => bool_decide (c <> "/"%char)) (rev l'))).

(** [filepath.Clean], element by element: empty and ["."] elements are
    dropped, [".."] removes the previous element when there is one that
    is not [".."], is dropped at the root, and is kept otherwise. *)
Definition clean_push (rooted : bool) (stack : list (list ascii)) (comp : list ascii)
    : list (list ascii) :=
  if decide (comp = []) then stack
  else if decide (comp = ["."%char]) then stack
  else if decide (comp = ["."; "."]%char) then
    match stack with
    | top :: rest => if decide (top = ["."; "."]%char) then comp :: stack else rest
    | [] => if rooted then [] else [comp]
    end
  else comp :: stack.

Definition clean_bytes (l : list ascii) : list ascii :=
  match l with
  | [] => ["."%char]
  | c :: _ =>
      let rooted := bool_decide (c = "/"%char) in
      let stack := foldl (clean_push rooted) [] (split_bytes "/"%char l) in
      let body := join_bytes ["/"%char] (rev stack) in
      let r := if rooted then "/"%char :: body else body in
      if decide (r = []) then ["."%char] else r
  end.

Definition Clean (path : string) : string := of_bytes (clean_bytes (bytes path)).

(** [filepath.Dir]: [Clean] of everything up to the last separator. *)
Definition Dir (path : string) : string :=
  Clean (of_bytes (rev (drop_while (fun c => bool_decide (c <> "/"%char)) (rev (bytes path))))).

End Filepath.

(** [%d] of an [int] and [strconv.Itoa]: decimal, with a leading ['-']. *)
Definition Itoa (z : Z) : string := pretty z.

(** Bytes that end neither a path element nor an extension. *)
Definition path_plain (x : ascii) : Prop := x <> "/"%char /\ x <> "."%char.

(** ** Lemmas *)

Section SplitJoin.
Import Strings.
Context (c : ascii).

Lemma split_bytes_cons_ne x l :
  x <> c ->
  split_bytes c (x :: l) =
    match split_bytes c l with p :: ps => (x :: p) :: ps | [] => [[x]] end.
Proof. intros Hx. simpl. by rewrite decide_False. Qed.

Lemma split_bytes_not_nil l : split_bytes c l <> [].
Proof.
  destruct l as [|x t]; simpl; [done|].
  case_decide; [done|]. by destruct (split_bytes c t).
Qed.

Lemma join_bytes_cons_hd sep x p ps :
  join_bytes sep ((x :: p) :: ps) = x :: join_bytes sep (p :: ps).
Proof. by destruct ps. Qed.

(** Joining the pieces of a split gives the string back. *)
Lemma join_split_bytes l : join_bytes [c] (split_bytes c l) = l.
Proof.
  induction l as [|x t IH]; [done|]. simpl.
  pose proof (split_bytes_not_nil t) as Hne.
  case_decide; subst; revert IH Hne; destruct (split_bytes c t) as [|p ps]; try done.
  - intros <- _. by destruct ps.
  - intros IH _. by rewrite join_bytes_cons_hd, IH.
Qed.

Lemma split_bytes_no_sep l : Forall (fun p => c ∉ p) (split_bytes c l).
Proof.
  induction l as [|x t IH]; simpl; [repeat constructor; set_solver|].
  case_decide; [constructor; [set_solver|done]|].
  destruct (split_bytes c t) as [|p ps]; [repeat constructor; set_solver|].
  apply Forall_cons in IH as [Hp Hps]. constructor; [set_solver|done].
Qed.

Lemma split_bytes_app_nosep p l :
  c ∉ p ->
  split_bytes c (p ++ l) =
    match split_bytes c l with q :: qs => (p ++ q) :: qs | [] => [p] end.
Proof.
  induction p as [|x p IH]; intros Hp.
  - pose proof (split_bytes_not_nil l). revert H. simpl. by destruct (split_bytes c l).
  - change ((x :: p) ++ l) with (x :: (p ++ l)).
    rewrite split_bytes_cons_ne by set_solver. rewrite IH by set_solver.
    pose proof (split_bytes_not_nil l). by destruct (split_bytes c l).
Qed.

(** Splitting a join of separator-free pieces gives the pieces back. *)
Lemma split_join_bytes ps :
  ps <> [] -> Forall (fun p => c ∉ p) ps -> split_bytes c (join_bytes [c] ps) = ps.
Proof.
  induction ps as [|p ps IH]; intros Hne Hall; [done|].
  apply Forall_cons in Hall as [Hp Hps].
  destruct ps as [|q qs].
  - simpl. rewrite <- (app_nil_r p) at 1. rewrite split_bytes_app_nosep by done.
    simpl. by rewrite app_nil_r.
  - change (join_bytes [c] (p :: q :: qs)) with (p ++ [c] ++ join_bytes [c] (q :: qs)).
    rewrite split_bytes_app_nosep by done.
    change ([c] ++ ?l) with (c :: l). cbn [split_bytes].
    rewrite decide_True by done. rewrite IH by done. by rewrite app_nil_r.
Qed.

Lemma Join_bytes elems sep :
  bytes (Join elems sep) = join_bytes (bytes sep) (map bytes elems).
Proof.
  induction elems as [|e [|e' es] IH]; [done|done|].
  change (Join (e :: e' :: es) sep) with (e +:+ sep +:+ Join (e' :: es) sep).
  by rewrite !bytes_app, IH.
Qed.

(** [strings.Join(strings.Split(s, sep), sep) = s]. *)
Lemma Join_Split s : Join (Split s c) (String c EmptyString) = s.
Proof.
  apply bytes_inj. rewrite Join_bytes. unfold Split.
  rewrite map_map, (map_ext _ id) by (intros; apply bytes_of_bytes).
  rewrite map_id. apply join_split_bytes.
Qed.
End SplitJoin.

(** Writing each element followed by [sep] writes their join and one more
    [sep]. *)
Lemma concat_map_sep (ps : list string) (sep : string) :
  ps <> [] -> foldr String.append "" (map (fun p => p +:+ sep) ps) = Strings.Join ps sep +:+ sep.
Proof.
  induction ps as [|p ps IH]; intros Hne; [done|]. destruct ps as [|p' ps'].
  - simpl. by rewrite string_app_nil_r.
  - change (Strings.Join (p :: p' :: ps') sep) with (p +:+ sep +:+ Strings.Join (p' :: ps') sep).
    simpl. simpl in IH. rewrite IH by done. by rewrite !string_app_assoc.
Qed.

Lemma HasPrefix_app s x p :
  Strings.HasPrefix s p = true -> Strings.HasPrefix (s +:+ x) p = true.
Proof.
  unfold Strings.HasPrefix. rewrite !bool_decide_eq_true, bytes_app. intros H.
  assert (Hle : length (bytes p) <= length (bytes s)).
  { rewrite <- H, length_take. lia. }
  by rewrite take_app_le.
Qed.

Lemma HasSuffix_refl s : Strings.HasSuffix s s = true.
Proof. unfold Strings.HasSuffix. rewrite bool_decide_eq_true, Nat.sub_diag. by split. Qed.

Lemma HasSuffix_app_r p s x :
  Strings.HasSuffix s x = true -> Strings.HasSuffix (p +:+ s) x = true.
Proof.
  unfold Strings.HasSuffix. rewrite !bool_decide_eq_true, bytes_app, length_app.
  intros [H Hle]. split; [|lia].
  replace (length (bytes p) + length (bytes s) - length (bytes x))
    with (length (bytes p) + (length (bytes s) - length (bytes x))) by lia.
  by rewrite drop_app_add.
Qed.

Section PathLemmas.
Import Strings Filepath.

Lemma ext_rev_app_plain r1 r2 acc :
  Forall path_plain r1 -> ext_rev (r1 ++ r2) acc = ext_rev r2 (rev r1 ++ acc).
Proof.
  revert acc. induction r1 as [|x r1 IH]; intros acc Hp; [done|].
  apply Forall_cons in Hp as [[Hs Hd] Hp]. simpl.
  rewrite decide_False, decide_False by done. rewrite IH by done.
  by rewrite <- app_assoc.
Qed.

(** [filepath.Ext] of a path ending in a dot and plain bytes. *)
Lemma Ext_dot_suffix pre e :
  Forall path_plain (bytes e) -> Ext (pre +:+ String "." e) = String "." e.
Proof.
  intros Hp. apply bytes_inj. unfold Ext. rewrite bytes_of_bytes, bytes_app.
  simpl. rewrite rev_app_distr. simpl. rewrite <- app_assoc.
  rewrite ext_rev_app_plain by (by apply Forall_rev).
  simpl. by rewrite rev_involutive, app_nil_r.
Qed.

Lemma ext_rev_shape r acc :
  ext_rev r acc = [] \/
  exists r1 r2, r = r1 ++ "."%char :: r2 /\ Forall path_plain r1 /\
                ext_rev r acc = "."%char :: rev r1 ++ acc.
Proof.
  revert acc. induction r as [|x t IH]; intros acc; simpl; [by left|].
  case_decide; [by left|]. case_decide.
  - right. subst. exists [], t. split; [done|]. split; [constructor|done].
  - destruct (IH (x :: acc)) as [?|(r1 & r2 & -> & Hp & ->)]; [by left|].
    right. exists (x :: r1), r2. split; [done|]. split; [by constructor|].
    simpl. by rewrite <- app_assoc.
Qed.

(** A non-empty extension is a dot followed by plain bytes. *)
Lemma Ext_shape path :
  Ext path = "" \/ exists e, Ext path = String "." e /\ Forall path_plain (bytes e).
Proof.
  unfold Ext. destruct (ext_rev_shape (rev (bytes path)) []) as [->|(r1 & r2 & _ & Hp & ->)];
    [by left|].
  right. exists (of_bytes (rev r1 ++ [])). split; [done|].
  rewrite bytes_of_bytes, app_nil_r. by apply Forall_rev.
Qed.

(** The extension of a name ending in an extension is that extension. *)
Lemma Ext_app_Ext pre path : Ext path <> "" -> Ext (pre +:+ Ext path) = Ext path.
Proof.
  intros Hne. destruct (Ext_shape path) as [?|(e & He & Hp)]; [done|].
  rewrite He. by apply Ext_dot_suffix.
Qed.

Lemma HasSuffix_app s x : HasSuffix (s +:+ x) x = true.
Proof.
  unfold HasSuffix. apply bool_decide_eq_true. rewrite bytes_app, length_app.
  replace (length (bytes s) + length (bytes x) - length (bytes x)) with (length (bytes s)) by lia.
  rewrite drop_app_length. split; [done|lia].
Qed.

Lemma TrimSuffix_app s x : TrimSuffix (s +:+ x) x = s.
Proof.
  unfold TrimSuffix. rewrite HasSuffix_app. rewrite bytes_app, length_app.
  replace (length (bytes s) + length (bytes x) - length (bytes x)) with (length (bytes s)) by lia.
  by rewrite take_app_length, of_bytes_bytes.
Qed.
End PathLemmas.

#[export] Hint Rewrite TrimSuffix_app HasSuffix_app : go_db.

(** Decimal numbers are non-empty and made of plain bytes (no dot, no
    separator). *)
Section Decimal.

Lemma pretty_N_char_plain x : path_plain (pretty_N_char x).
Proof. unfold pretty_N_char. repeat case_match; split; discriminate. Qed.

Lemma pretty_N_go_plain x s :
  Forall path_plain (bytes s) -> Forall path_plain (bytes (pretty_N_go x s)).
Proof.
  revert s. induction (N.lt_wf_0 x) as [x _ IH]; intros s Hs.
  destruct (decide (x = 0)%N) as [->|Hx]; [by rewrite pretty_N_go_0|].
  rewrite pretty_N_go_step by lia. apply IH.
  - apply N.div_lt; lia.
  - simpl. constructor; [apply pretty_N_char_plain|done].
Qed.

Lemma pretty_N_go_suffix x s : exists t, pretty_N_go x s = t +:+ s.
Proof.
  revert s. induction (N.lt_wf_0 x) as [x _ IH]; intros s.
  destruct (decide (x = 0)%N) as [->|Hx]; [exists ""; by rewrite pretty_N_go_0|].
  rewrite pretty_N_go_step by lia.
  destruct (IH (x `div` 10)%N ltac:(apply N.div_lt; lia)
               (String (pretty_N_char (x `mod` 10)) s)) as [t ->].
  exists (t +:+ String (pretty_N_char (x `mod` 10)) ""). by rewrite string_app_assoc.
Qed.

Lemma pretty_N_plain (n : N) : Forall path_plain (bytes (pretty n)).
Proof.
  unfold pretty, pretty_N. case_decide.
  - repeat constructor; discriminate.
  - by apply pretty_N_go_plain.
Qed.

Lemma pretty_N_not_empty (n : N) : pretty n <> "".
Proof.
  unfold pretty, pretty_N. case_decide; [discriminate|].
  rewrite pretty_N_go_step by lia.
  destruct (pretty_N_go_suffix (n `div` 10)%N (String (pretty_N_char (n `mod` 10)) ""))
    as [t ->].
  by intros [_ ?]%string_app_eq_nil.
Qed.
End Decimal.
