(* ===== verification/GoJson.v ===== *)
(** * GoJson: the parts of Go's [encoding/json] the hook's response uses

    [json.MarshalIndent(v, "", "  ")] of a struct whose fields are strings:
    each string is encoded by [appendString] of encoding/json/encode.go
    (with [escapeHTML], as [Marshal] sets it, and the short escapes
    [\b] and [\f] of Go 1.22 and later), the fields appear in declaration
    order under their tags, a field tagged [omitempty] is left out when it
    is [""], and the indented layout puts each field on a line of its own.

    The encoder works on bytes.  An ASCII byte is copied when it is in
    [htmlSafeSet] and escaped otherwise; a non-ASCII byte starts a UTF-8
    sequence, which [utf8_seq_len] validates as [utf8.DecodeRuneInString]
    does: a valid sequence is copied (U+2028 and U+2029 are escaped), an
    invalid byte becomes [\ufffd].  [quote_go] is a byte automaton whose
    state says how many bytes of the current sequence are still to copy
    or to skip, so that it is structural on the input. *)

From S2P Require Import Prelude GoLib.

Module json.

(** ** Bytes *)

Definition byte_of (c : ascii) : N := N_of_ascii c.

(** The quotation mark, byte 34. *)
Definition dquote : ascii := ascii_of_N 34.

Definition in_range (lo hi : N) (c : ascii) : bool :=
  bool_decide (lo <= byte_of c <= hi)%N.

Definition cont (c : ascii) : bool := in_range 0x80 0xBF c.

(** [htmlSafeSet]: printable ASCII other than the quote, the backslash and
    the three HTML characters; DEL is safe. *)
Definition html_safe (c : ascii) : bool :=
  bool_decide (0x20 <= byte_of c < 0x80)%N &&
  negb (bool_decide (c ∈ [dquote ; "\"; "<"; ">"; "&"]%char)).

Definition hex_digit (n : N) : ascii :=
  match nth_error (bytes "0123456789abcdef") (N.to_nat n) with
  | Some c => c
  | None => "0"%char
  end.

(** The escape of an ASCII byte outside [htmlSafeSet]. *)
Definition escape_ascii (c : ascii) : list ascii :=
  if decide (c = dquote) then ["\"%char; dquote]
  else if decide (c = "\"%char) then ["\"; "\"]%char
  else if decide (byte_of c = 8%N) then ["\"; "b"]%char
  else if decide (byte_of c = 12%N) then ["\"; "f"]%char
  else if decide (byte_of c = 10%N) then ["\"; "n"]%char
  else if decide (byte_of c = 13%N) then ["\"; "r"]%char
  else if decide (byte_of c = 9%N) then ["\"; "t"]%char
  else ["\"; "u"; "0"; "0"; hex_digit (byte_of c / 16); hex_digit (byte_of c mod 16)]%char.

(** The length of the UTF-8 sequence at the head of [l] when it is valid:
    the first-byte table and accept ranges of unicode/utf8. *)
Definition utf8_seq_len (l : list ascii) : option nat :=
  match l with
  | x :: b1 :: t =>
      if in_range 0xC2 0xDF x then (if cont b1 then Some 2 else None)
      else
        let second_ok :=
          if in_range 0xE0 0xE0 x then in_range 0xA0 0xBF b1
          else if in_range 0xED 0xED x then in_range 0x80 0x9F b1
          else if in_range 0xF0 0xF0 x then in_range 0x90 0xBF b1
          else if in_range 0xF4 0xF4 x then in_range 0x80 0x8F b1
          else cont b1 in
        if in_range 0xE0 0xEF x then
          match t with
          | b2 :: _ => if second_ok && cont b2 then Some 3 else None
          | [] => None
          end
        else if in_range 0xF0 0xF4 x then
          match t with
          | b2 :: b3 :: _ => if second_ok && cont b2 && cont b3 then Some 4 else None
          | _ => None
          end
        else None
  | _ => None
  end.

(** U+2028 and U+2029 are [E2 80 A8] and [E2 80 A9]. *)
Definition line_sep_escape (l : list ascii) : option (list ascii) :=
  match l with
  | x :: y :: z :: _ =>
      if decide (byte_of x = 0xE2 /\ byte_of y = 0x80)%N then
        if decide (byte_of z = 0xA8)%N then Some (bytes "\u2028")
        else if decide (byte_of z = 0xA9)%N then Some (bytes "\u2029")
        else None
      else None
  | _ => None
  end.

(** The automaton's state: the bytes of the current sequence still to be
    copied, or skipped because an escape replaced the sequence. *)
Inductive QState := Copy (k : nat) | Skip (k : nat).

Fixpoint quote_go (st : QState) (l : list ascii) : list ascii :=
  match l with
  | [] => []
  | c :: t =>
      match st with
      | Copy (S k) => c :: quote_go (Copy k) t
      | Skip (S k) => quote_go (Skip k) t
      | _ =>
          if bool_decide (byte_of c < 0x80)%N then
            (if html_safe c then [c] else escape_ascii c) ++ quote_go (Copy 0) t
          else
            match utf8_seq_len l with
            | None => bytes "\ufffd" ++ quote_go (Copy 0) t
            | Some n =>
                match line_sep_escape l with
                | Some e => e ++ quote_go (Skip (n - 1)) t
                | None => c :: quote_go (Copy (n - 1)) t
                end
            end
      end
  end.

(** The encoding of a Go string, quotes included. *)
Definition quote (s : string) : string :=
  of_bytes (dquote :: quote_go (Copy 0) (bytes s) ++ [dquote]).

(** ** [MarshalIndent] of a struct of strings *)

(** A field: its JSON name, whether it is [omitempty], its value. *)
Record Field := { fname : string; omitempty : bool; fvalue : string }.

Definition nl : string := String "010" "".

Definition indent (depth : nat) : string := foldr String.append "" (replicate depth "  ").


(** The members of an object at [depth], one per line. *)
Definition members (depth : nat) (fs : list (string * string)) : string :=
  Strings.Join (map (fun '(k, v) => indent depth +:+ quote k +:+ ": " +:+ v) fs) ("," +:+ nl).

Definition object (depth : nat) (fs : list (string * string)) : string :=
  match fs with
  | [] => "{}"
  | _ => "{" +:+ nl +:+ members (S depth) fs +:+ nl +:+ indent depth +:+ "}"
  end.

(** The encoded fields of a struct of strings: an [omitempty] field
    holding [""] is left out. *)
Fixpoint struct_fields (fs : list Field) : list (string * string) :=
  match fs with
  | [] => []
  | f :: fs' =>
      if omitempty f && bool_decide (fvalue f = "") then struct_fields fs'
      else (fname f, quote (fvalue f)) :: struct_fields fs'
  end.

End json.
