(* ===== verification/Markdown.v ===== *)
(** * Markdown: the bold-markup check of validator/markdown.go

    [CheckMarkdownBold] splits the changed text into lines and reports every
    match of the two regular expressions [\*\*[^*]+\*\*] and [__[^_]+__],
    asterisk matches of a line before underscore matches.  Both expressions
    are the pattern [DD[^D]+DD] for a delimiter byte [D]; [match_at] is an
    executable matcher for it at the head of a byte list, and
    [FindAllStringIndex] the scanner of [regexp.FindAllStringIndex(line, -1)].

    The reference semantics is [FindAll]: Go's leftmost-first,
    non-overlapping search, stated over the pattern's language
    [bold_word].  [FindAllStringIndex_refines] proves the scanner computes
    it and [FindAll_deterministic] that it has one answer.  Positions are
    byte offsets, as in Go. *)

From S2P Require Import Prelude GoLib.

Module Markdown.

(** [type MarkdownIssue struct { Line, Column int; Message string }] *)
Record MarkdownIssue := {
  Line : nat;
  Column : nat;
  Message : string
}.

#[export] Instance MarkdownIssue_eq_dec : EqDecision MarkdownIssue.
Proof. solve_decision. Defined.

(** The two compiled patterns, each given by its delimiter byte. *)
Definition boldAsteriskPattern : ascii := "*"%char.
Definition boldUnderscorePattern : ascii := "_"%char.

(** ** The pattern [DD[^D]+DD] *)

(** Its language: two delimiters, a non-empty body without the
    delimiter, two delimiters. *)
Definition bold_word (d : ascii) (w : list ascii) : Prop :=
  exists body, w = [d; d] ++ body ++ [d; d] /\ body <> [] /\ d ∉ body.

(** [close_after d t]: the length of the delimiter-free run at the head
    of [t], when two delimiters follow it.  Greedy [[^D]+] must stop at
    the first [D], so no backtracking is needed. *)
Fixpoint close_after (d : ascii) (t : list ascii) : option nat :=
  match t with
  | [] => None
  | x :: t' =>
      if decide (x = d) then
        match t' with
        | y :: _ => if decide (y = d) then Some 0 else None
        | [] => None
        end
      else S <$> close_after d t'
  end.

(** The length of the match starting at the head of [l], if any. *)
Definition match_at (d : ascii) (l : list ascii) : option nat :=
  match l with
  | a :: b :: t =>
      if decide (a = d /\ b = d) then
        match close_after d t with
        | Some (S k) => Some (S k + 4)
        | _ => None
        end
      else None
  | _ => None
  end.

(** The scan: at each position not inside the previous match ([skip]
    counts the bytes still covered by it), try [match_at]; a match
    [(pos, pos+n)] restarts the search at its end. *)
Fixpoint find_all_go (d : ascii) (l : list ascii) (pos skip : nat) : list (nat * nat) :=
  match l with
  | [] => []
  | _ :: t =>
      match skip with
      | S k => find_all_go d t (S pos) k
      | 0 =>
          match match_at d l with
          | Some n => (pos, pos + n) :: find_all_go d t (S pos) (n - 1)
          | None => find_all_go d t (S pos) 0
          end
      end
  end.

(** [pattern.FindAllStringIndex(line, -1)]. *)
Definition FindAllStringIndex (d : ascii) (line : string) : list (nat * nat) :=
  find_all_go d (bytes line) 0 0.

(** [line[s:e]] *)
Definition slice (line : string) (s e : nat) : string :=
  of_bytes (take (e - s) (drop s (bytes line))).

(** The delimiter as written in the message. *)
Definition delim_text (d : ascii) : string := String d (String d EmptyString).

(** One issue per match, [Line: lineNum + 1], [Column: match[0] + 1]. *)
Definition issue_of (d : ascii) (lineNum : nat) (line : string) (m : nat * nat)
    : MarkdownIssue :=
  {| Line := lineNum + 1;
     Column := m.1 + 1;
     Message := "Bold text using " +:+ delim_text d +:+ " is not allowed: "
                +:+ slice line m.1 m.2 |}.

Definition line_issues (lineNum : nat) (line : string) : list MarkdownIssue :=
  map (issue_of boldAsteriskPattern lineNum line)
      (FindAllStringIndex boldAsteriskPattern line)
  ++ map (issue_of boldUnderscorePattern lineNum line)
         (FindAllStringIndex boldUnderscorePattern line).

(** [CheckMarkdownBold(content)]: the issues of every line of
    [strings.Split(content, "\n")], in line order. *)
Definition CheckMarkdownBold (content : string) : list MarkdownIssue :=
  mjoin (imap line_issues (Strings.Split content "010"%char)).

(** ** Reference semantics: leftmost-first, non-overlapping matches *)

(** [span d l s e]: [l[s:e]] is a word of the pattern. *)
Definition span (d : ascii) (l : list ascii) (s e : nat) : Prop :=
  s < e /\ e <= length l /\ bold_word d (take (e - s) (drop s l)).

(** Go's [allMatches] loop for a pattern without empty matches: from
    [pos], the leftmost match [(s, e)] is reported and the search
    resumes at [e]; when no match starts at or after [pos] it stops. *)
Inductive FindAll (d : ascii) (l : list ascii) : nat -> list (nat * nat) -> Prop :=
| FindAll_done pos :
    (forall s e, pos <= s -> ~ span d l s e) -> FindAll d l pos []
| FindAll_next pos s e ms :
    pos <= s -> span d l s e ->
    (forall s' e', pos <= s' < s -> ~ span d l s' e') ->
    FindAll d l e ms -> FindAll d l pos ((s, e) :: ms).

Section Matcher.
Context (d : ascii).

Lemma close_after_sound t k :
  close_after d t = Some k ->
  exists body rest, t = body ++ d :: d :: rest /\ length body = k /\ d ∉ body.
Proof.
  revert k. induction t as [|x t IH]; intros k; simpl; [done|].
  case_decide; subst.
  - destruct t as [|y rest]; [done|]. case_decide; [|done].
    intros [= <-]. subst. exists [], rest. split; [done|]. split; [done|set_solver].
  - destruct (close_after d t) as [k'|] eqn:E; [|done]. intros [= <-].
    destruct (IH k' eq_refl) as (body & rest & -> & Hl & Hn).
    exists (x :: body), rest. split; [done|]. split; [simpl; lia|set_solver].
Qed.

Lemma close_after_complete body rest :
  d ∉ body -> close_after d (body ++ d :: d :: rest) = Some (length body).
Proof.
  induction body as [|x body IH]; intros Hn; simpl.
  - by rewrite !decide_True.
  - rewrite decide_False by set_solver. rewrite IH by set_solver. done.
Qed.

(** [match_at] recognises exactly the pattern's words at the head. *)
Lemma match_at_sound l n :
  match_at d l = Some n ->
  exists w rest, l = w ++ rest /\ length w = n /\ bold_word d w.
Proof.
  destruct l as [|a [|b t]]; simpl; try done.
  case_decide as Hab; [destruct Hab as [-> ->]|done].
  destruct (close_after d t) as [[|k]|] eqn:E; try done. intros [= <-].
  destruct (close_after_sound t (S k) E) as (body & rest & -> & Hl & Hn).
  exists ([d; d] ++ body ++ [d; d]), rest.
  split; [by rewrite <- !app_assoc|]. split.
  - rewrite !length_app. simpl. lia.
  - exists body. split; [done|]. split; [by destruct body|done].
Qed.

Lemma match_at_complete w rest :
  bold_word d w -> match_at d (w ++ rest) = Some (length w).
Proof.
  intros (body & -> & Hne & Hn). simpl.
  rewrite decide_True by done. rewrite <- app_assoc. simpl.
  rewrite close_after_complete by done.
  destruct body as [|x body]; [done|]. rewrite !length_app. simpl. f_equal. lia.
Qed.

Lemma match_at_length l n : match_at d l = Some n -> 4 < n.
Proof.
  destruct l as [|a [|b t]]; simpl; try done. case_decide; [|done].
  destruct (close_after d t) as [[|k]|]; intros; simplify_eq; lia.
Qed.

(** A span starting at [s] is what [match_at] finds at [s]. *)
Lemma span_match_at l s e :
  s < e -> span d l s e <-> match_at d (drop s l) = Some (e - s).
Proof.
  intros Hlt. split.
  - intros (_ & Hle & Hw).
    rewrite <- (take_drop (e - s) (drop s l)).
    rewrite match_at_complete by done. f_equal.
    rewrite length_take, length_drop. lia.
  - intros Hm. destruct (match_at_sound _ _ Hm) as (w & rest & Hl & Hlen & Hw).
    assert (e <= length l).
    { pose proof (f_equal length Hl) as HL. rewrite length_drop, length_app in HL. lia. }
    split; [done|]. split; [done|].
    rewrite Hl, <- Hlen, take_app_length. done.
Qed.

Lemma span_unique l s e1 e2 : span d l s e1 -> span d l s e2 -> e1 = e2.
Proof.
  intros H1 H2. pose proof H1 as [Hlt1 _]. pose proof H2 as [Hlt2 _].
  apply span_match_at in H1, H2; [|done|done]. rewrite H1 in H2. injection H2. lia.
Qed.

Lemma span_starts_with_delim l s e : span d l s e -> l !! s = Some d.
Proof.
  intros (Hlt & Hle & body & Hw & _).
  assert (Hs : take (e - s) (drop s l) !! 0 = Some d) by (rewrite Hw; done).
  rewrite lookup_take_lt in Hs by lia. by rewrite lookup_drop, Nat.add_0_r in Hs.
Qed.

Lemma FindAll_spans l pos ms :
  FindAll d l pos ms -> Forall (fun m => span d l m.1 m.2) ms.
Proof. induction 1; by constructor. Qed.

(** Moving the start of the search over a position where no match starts. *)
Lemma FindAll_lift l p ms :
  (forall e, ~ span d l p e) -> FindAll d l (S p) ms -> FindAll d l p ms.
Proof.
  intros Hp Hf. inversion Hf as [? Hnone|? s e ms' Hle Hs Hleft Hrest]; subst.
  - constructor. intros s e Hle. destruct (decide (s = p)) as [->|]; [apply Hp|].
    apply Hnone. lia.
  - econstructor; [lia|done| |done].
    intros s' e' Hs'. destruct (decide (s' = p)) as [->|]; [apply Hp|].
    apply Hleft. lia.
Qed.

Lemma find_all_go_skip l p k :
  p + k <= length l ->
  find_all_go d (drop p l) p k = find_all_go d (drop (p + k) l) (p + k) 0.
Proof.
  revert p. induction k as [|k IH]; intros p Hk; [by rewrite Nat.add_0_r|].
  destruct (lookup_lt_is_Some_2 l p) as [x Hx]; [lia|].
  rewrite (drop_S _ _ _ Hx). simpl. rewrite IH by lia. by rewrite Nat.add_succ_r.
Qed.

(** The scanner computes the reference semantics from every position. *)
Lemma find_all_go_FindAll l p :
  p <= length l -> FindAll d l p (find_all_go d (drop p l) p 0).
Proof.
  remember (length l - p) as n eqn:Hn. revert p Hn.
  induction n as [n IH] using lt_wf_ind. intros p Hn Hp.
  destruct (decide (p = length l)) as [->|Hlt].
  - rewrite drop_all. constructor. intros s e Hs (? & ? & _). lia.
  - destruct (lookup_lt_is_Some_2 l p) as [x Hx]; [lia|].
    pose proof (drop_S _ _ _ Hx) as Hd.
    destruct (match_at d (drop p l)) as [m|] eqn:Hm.
    + pose proof (match_at_length _ _ Hm) as Hm4.
      assert (Hsp : span d l p (p + m)).
      { apply span_match_at; [lia|]. by rewrite Hm, Nat.add_comm, Nat.add_sub. }
      destruct Hsp as (Hlt' & Hle & Hw) eqn:Hsp'.
      rewrite Hd. cbn [find_all_go]. rewrite <- Hd, Hm.
      rewrite find_all_go_skip by lia.
      replace (S p + (m - 1)) with (p + m) by lia.
      econstructor; [done|done| |].
      * intros s' e' ?. lia.
      * apply (IH (length l - (p + m))); lia.
    + rewrite Hd. cbn [find_all_go]. rewrite <- Hd, Hm.
      apply FindAll_lift.
      * intros e Hs. pose proof Hs as [Hlt' _].
        apply span_match_at in Hs; [|done]. congruence.
      * apply (IH (length l - S p)); lia.
Qed.

Lemma FindAll_deterministic l p ms1 ms2 :
  FindAll d l p ms1 -> FindAll d l p ms2 -> ms1 = ms2.
Proof.
  intros H1. revert ms2.
  induction H1 as [p Hnone|p s e ms Hle Hs Hleft Hrest IH]; intros ms2 H2.
  - inversion H2 as [|? s e ? Hle Hs]; subst; [done|]. by destruct (Hnone s e).
  - inversion H2 as [? Hnone|? s2 e2 ms2' Hle2 Hs2 Hleft2 Hrest2]; subst.
    + by destruct (Hnone s e).
    + assert (s = s2) as <-.
      { destruct (decide (s < s2)); [exfalso; apply (Hleft2 s e); [lia|done]|].
        destruct (decide (s2 < s)); [exfalso; apply (Hleft s2 e2); [lia|done]|]. lia. }
      assert (e = e2) as <- by (eapply span_unique; eauto).
      f_equal. by apply IH.
Qed.
End Matcher.

(** ** Properties of the checker *)

(** C12: [FindAllStringIndex] is exactly Go's leftmost-first,
    non-overlapping match list of the pattern [DD[^D]+DD]: it satisfies
    the reference semantics [FindAll], and it is the only list that does. *)
Theorem FindAllStringIndex_refines d line ms :
  FindAll d (bytes line) 0 ms <-> ms = FindAllStringIndex d line.
Proof.
  assert (Hf : FindAll d (bytes line) 0 (FindAllStringIndex d line)).
  { apply (find_all_go_FindAll d (bytes line) 0). lia. }
  split; [|by intros ->]. intros H. by eapply FindAll_deterministic.
Qed.

Lemma FindAllStringIndex_FindAll d line : FindAll d (bytes line) 0 (FindAllStringIndex d line).
Proof. apply (find_all_go_FindAll d (bytes line) 0). lia. Qed.

(** The issues of a content are those of its lines. *)
Lemma elem_of_CheckMarkdownBold content x :
  x ∈ CheckMarkdownBold content <->
  exists k line, Strings.Split content "010"%char !! k = Some line /\ x ∈ line_issues k line.
Proof.
  unfold CheckMarkdownBold. rewrite list_elem_of_join. split.
  - intros (l & Hx & Hl). apply elem_of_lookup_imap_1 in Hl as (k & line & -> & Hk).
    eauto.
  - intros (k & line & Hk & Hx). exists (line_issues k line).
    split; [done|]. by apply elem_of_lookup_imap_2.
Qed.

Lemma elem_of_line_issues k line x :
  x ∈ line_issues k line <->
  exists d m, (d = boldAsteriskPattern \/ d = boldUnderscorePattern) /\
              m ∈ FindAllStringIndex d line /\ x = issue_of d k line m.
Proof.
  unfold line_issues. rewrite elem_of_app, !list_elem_of_fmap. naive_solver.
Qed.

Lemma FindAllStringIndex_spans d line m :
  m ∈ FindAllStringIndex d line -> span d (bytes line) m.1 m.2.
Proof.
  intros Hm. pose proof (FindAllStringIndex_FindAll d line) as Hf.
  apply FindAll_spans in Hf. rewrite Forall_forall in Hf. by apply Hf.
Qed.

(** The first match is the leftmost span. *)
Lemma FindAll_first d l ms s e :
  FindAll d l 0 ms -> span d l s e ->
  (forall s' e', s' < s -> ~ span d l s' e') -> exists ms', ms = (s, e) :: ms'.
Proof.
  intros Hf Hs Hbefore. inversion Hf as [? Hnone|? s1 e1 ms' _ Hs1 Hleft _]; subst.
  - by destruct (Hnone s e); [lia|].
  - assert (s1 = s) as ->.
    { destruct (decide (s < s1)); [exfalso; apply (Hleft s e); [lia|done]|].
      destruct (decide (s1 < s)); [exfalso; apply (Hbefore s1 e1); [lia|done]|]. lia. }
    assert (e1 = e) as -> by (eapply span_unique; eauto). eauto.
Qed.

(** C13: no false positives.  Every reported issue names a line of the
    content, its column is one plus the byte offset where a word of one
    of the two patterns starts on that line, and its message names the
    delimiter and quotes exactly that word. *)
Theorem CheckMarkdownBold_sound content x :
  x ∈ CheckMarkdownBold content ->
  exists line d e,
    Strings.Split content "010"%char !! (Line x - 1) = Some line /\ 1 <= Line x /\
    (d = boldAsteriskPattern \/ d = boldUnderscorePattern) /\
    1 <= Column x /\ span d (bytes line) (Column x - 1) e /\
    Message x = "Bold text using " +:+ delim_text d +:+ " is not allowed: "
                +:+ slice line (Column x - 1) e.
Proof.
  intros (k & line & Hk & Hx)%elem_of_CheckMarkdownBold.
  apply elem_of_line_issues in Hx as (d & [s e] & Hd & Hm & ->).
  apply FindAllStringIndex_spans in Hm. simpl in *.
  exists line, d, e. rewrite !Nat.add_sub.
  split; [done|]. split; [lia|]. split; [done|]. split; [lia|]. done.
Qed.

(** C14: every bold word is reported.  If line [k] of the content is
    [pre ++ DD ++ w ++ DD ++ post] for a delimiter [D] of the two
    patterns, with no [D] in [pre] and a non-empty [w] without [D], the
    result has the issue at line [k + 1], column [length pre + 1], whose
    message names the delimiter style and quotes [DD w DD]. *)
Theorem CheckMarkdownBold_detects content k line d pre w post :
  Strings.Split content "010"%char !! k = Some line ->
  d = boldAsteriskPattern \/ d = boldUnderscorePattern ->
  bytes line = bytes pre ++ [d; d] ++ bytes w ++ [d; d] ++ bytes post ->
  d ∉ bytes pre -> w <> "" -> d ∉ bytes w ->
  {| Line := k + 1; Column := String.length pre + 1;
     Message := "Bold text using " +:+ delim_text d +:+ " is not allowed: "
                +:+ delim_text d +:+ w +:+ delim_text d |}
    ∈ CheckMarkdownBold content.
Proof.
  intros Hk Hd Hline Hpre Hw Hnw.
  set (s := length (bytes pre)). set (e := s + (length (bytes w) + 4)).
  assert (Hdrop : drop s (bytes line) = [d; d] ++ bytes w ++ [d; d] ++ bytes post).
  { rewrite Hline. unfold s. by rewrite drop_app_length. }
  assert (Hword : take (e - s) (drop s (bytes line)) = [d; d] ++ bytes w ++ [d; d]).
  { rewrite Hdrop. replace (e - s) with (length ([d; d] ++ bytes w ++ [d; d]))
      by (rewrite !length_app; simpl; lia).
    replace ([d; d] ++ bytes w ++ [d; d] ++ bytes post)
      with (([d; d] ++ bytes w ++ [d; d]) ++ bytes post) by (by rewrite <- !app_assoc).
    apply take_app_length. }
  assert (Hspan : span d (bytes line) s e).
  { split; [lia|]. split.
    - rewrite Hline, !length_app. simpl. lia.
    - rewrite Hword. exists (bytes w). split; [done|]. split; [|done].
      by destruct w. }
  destruct (FindAll_first d (bytes line) _ s e
              (FindAllStringIndex_FindAll d line) Hspan)
    as [ms' Hms].
  { intros s' e' Hs' Hsp. apply span_starts_with_delim in Hsp.
    rewrite Hline, lookup_app_l in Hsp by lia. apply Hpre.
    by eapply list_elem_of_lookup_2. }
  apply elem_of_CheckMarkdownBold. exists k, line. split; [done|].
  apply elem_of_line_issues. exists d, (s, e). split; [done|]. split.
  - rewrite Hms. by left.
  - unfold issue_of, slice. simpl. rewrite Hword, <- bytes_length.
    f_equal. f_equal. f_equal. apply bytes_inj.
    rewrite !bytes_app, bytes_of_bytes. done.
Qed.

(** ** Concrete runs *)

Lemma CheckMarkdownBold_sound_witness :
  exists line d e,
    Strings.Split "This is **bold**" "010"%char !! 0 = Some line /\
    (d = boldAsteriskPattern \/ d = boldUnderscorePattern) /\
    span d (bytes line) 8 e.
Proof.
  destruct (CheckMarkdownBold_sound "This is **bold**"
    {| Line := 1; Column := 9;
       Message := "Bold text using ** is not allowed: **bold**" |})
    as (line & d & e & Hl & _ & Hd & _ & Hs & _).
  - apply (bool_decide_unpack _). vm_compute. reflexivity.
  - exists line, d, e. split; [exact Hl|]. split; [exact Hd|exact Hs].
Defined.

Lemma CheckMarkdownBold_detects_witness :
  {| Line := 1; Column := 9;
     Message := "Bold text using ** is not allowed: **bold**" |}
    ∈ CheckMarkdownBold "This is **bold**".
Proof.
  apply (CheckMarkdownBold_detects "This is **bold**" 0 "This is **bold**"
           boldAsteriskPattern "This is " "bold" "").
  - reflexivity.
  - by left.
  - reflexivity.
  - apply (bool_decide_unpack _). vm_compute. reflexivity.
  - discriminate.
  - apply (bool_decide_unpack _). vm_compute. reflexivity.
Defined.

End Markdown.
