(* ===== verification/Os.v ===== *)
(** * Os: the operating system the hook runs against

    The world is the file system (a [gmap] from path to contents), the
    position in the runtime's random stream, and the texts written to
    standard output and standard error.  The environment [Env] fixes what the program cannot
    choose: the temp directory, the random values, the I/O faults of each
    file operation, and the behaviour of each external process.

    A process is run on one file, the last argument of its command line:
    [env_exec name args content] is what the process does when that file
    holds [content] ([None] when it is missing); it reports how it ended,
    its standard output and error, and the content it left in the file
    ([None] when it did not write it).  A process killed at the deadline
    ends with a signal.  The functions of [os] and [os/exec] the code calls
    are modelled here with their Go error texts. *)

From S2P Require Import Prelude GoLib.

(** [os.ProcessState]: how a process ended. *)
Inductive ProcEnd :=
| Exited (code : Z)
| Signaled (signal : string).

(** [ProcessState.ExitCode()]: -1 for a process killed by a signal. *)
Definition ExitCode (st : ProcEnd) : Z :=
  match st with Exited c => c | Signaled _ => -1 end.

(** [ProcessState.String()], the text of an [*exec.ExitError]. *)
Definition ProcessState_String (st : ProcEnd) : string :=
  match st with
  | Exited c => "exit status " +:+ Itoa c
  | Signaled s => "signal: " +:+ s
  end.

Inductive ProcOutcome :=
| ProcRan (st : ProcEnd) (stdout stderr : string) (written : option string)
| ProcStartFailed (err : string).

Inductive FsOp := OpCreate | OpRename | OpWrite | OpRead.

Record Env := {
  env_tmpdir : string;
  env_rand : nat -> N;
  env_fault : FsOp -> string -> option string;
  env_exec : string -> list string -> option string -> ProcOutcome
}.

Record World := {
  fs : gmap string string;
  rng : nat;
  stdout : list string;
  stderr : list string
}.

(** A process start: no file, the random stream at its beginning, nothing
    written. *)
Definition empty_world : World := {| fs := ∅; rng := 0; stdout := []; stderr := [] |}.

Definition set_fs (f : gmap string string -> gmap string string) (w : World) : World :=
  {| fs := f (fs w); rng := rng w; stdout := stdout w; stderr := stderr w |}.

Definition next_rng (w : World) : World :=
  {| fs := fs w; rng := S (rng w); stdout := stdout w; stderr := stderr w |}.

(** One write to [os.Stderr] or [os.Stdout] ([fmt.Fprintf],
    [fmt.Fprintln]): the text of each write, in order. *)
Definition write_stderr (text : string) : ST World unit :=
  st_modify (fun w => {| fs := fs w; rng := rng w; stdout := stdout w; stderr := stderr w ++ [text] |}).

Definition write_stdout (text : string) : ST World unit :=
  st_modify (fun w => {| fs := fs w; rng := rng w; stdout := stdout w ++ [text]; stderr := stderr w |}).

(** [w'] differs from [w] at most in the file [t]. *)
Definition fs_except (t : string) (w w' : World) : Prop :=
  forall p, p <> t -> fs w' !! p = fs w !! p.

#[export] Instance fs_except_preorder t : PreOrder (fs_except t).
Proof.
  split.
  - by intros w p _.
  - intros w1 w2 w3 H12 H23 p Hp. by rewrite H23, H12.
Qed.

(** [w'] has written nothing more to standard output than [w]. *)
Definition stdout_same (w w' : World) : Prop := stdout w' = stdout w.

#[export] Instance stdout_same_preorder : PreOrder stdout_same.
Proof. split; [by intros w|intros w1 w2 w3 H12 H23; unfold stdout_same in *; congruence]. Qed.

Module os.
Section WithEnv.
Context (env : Env).

(** [os.TempDir()] joined with a name: [joinPath] of os/tempfile.go. *)
Definition joinPath (dir name : string) : string :=
  if Strings.HasSuffix dir "/" then dir +:+ name else dir +:+ "/" +:+ name.

(** [nextRandom()]: [strconv.Itoa(int(uint32(runtime_rand())))]. *)
Definition nextRandom (r : N) : string := pretty (r mod 2 ^ 32)%N.

(** The [O_CREATE|O_EXCL] loop of [os.CreateTemp]: at most 10000
    names are tried; [tries] counts those left. *)
Fixpoint create_temp_loop (tries : nat) (prefix suffix : string) : ST World string :=
  fun w =>
    let name := prefix +:+ nextRandom (env_rand env (rng w)) +:+ suffix in
    let w' := next_rng w in
    match fs w' !! name with
    | Some _ =>
        match tries with
        | S (S _ as t) => create_temp_loop t prefix suffix w'
        | _ => (w', Err ("createtemp " +:+ prefix +:+ "*" +:+ suffix +:+ ": file already exists"))
        end
    | None =>
        match env_fault env OpCreate name with
        | Some e => (w', Err ("open " +:+ name +:+ ": " +:+ e))
        | None => (set_fs (<[name := ""]>) w', Ok name)
        end
    end.

(** The bound on attempts of [os.CreateTemp]. *)
Definition createTempTries : nat := 10000.

(** [prefixAndSuffix(pattern)]: split at the last ['*'], the whole
    pattern being the prefix when there is none. *)
Definition prefixAndSuffix (pattern : string) : string * string :=
  let r := rev (bytes pattern) in
  match drop_while (fun c => bool_decide (c <> "*"%char)) r with
  | _ :: p => (of_bytes (rev p),
               of_bytes (rev (take_while (fun c => bool_decide (c <> "*"%char)) r)))
  | [] => (pattern, "")
  end.

(** [os.CreateTemp("", pattern)]: the random string replaces the last
    ['*']; a pattern with a separator is refused. *)
Definition CreateTemp (pattern : string) : ST World string :=
  if decide ("/"%char ∈ bytes pattern) then
    st_throw ("createtemp " +:+ pattern +:+ ": pattern contains path separator")
  else
    let '(prefix, suffix) := prefixAndSuffix pattern in
    create_temp_loop createTempTries (joinPath (env_tmpdir env) prefix) suffix.

(** [os.Rename(old, new)]: replaces [new]. *)
Definition Rename (old new : string) : ST World unit :=
  fun w =>
    match fs w !! old with
    | None => (w, Err ("rename " +:+ old +:+ " " +:+ new +:+ ": no such file or directory"))
    | Some c =>
        match env_fault env OpRename new with
        | Some e => (w, Err ("rename " +:+ old +:+ " " +:+ new +:+ ": " +:+ e))
        | None => (set_fs (fun m => <[new := c]> (delete old m)) w, Ok tt)
        end
    end.

(** [os.WriteFile(name, data, 0600)]. *)
Definition WriteFile (name data : string) : ST World unit :=
  fun w =>
    match env_fault env OpWrite name with
    | Some e => (w, Err ("open " +:+ name +:+ ": " +:+ e))
    | None => (set_fs (<[name := data]>) w, Ok tt)
    end.

(** [os.ReadFile(name)]. *)
Definition ReadFile (name : string) : ST World string :=
  fun w =>
    match env_fault env OpRead name, fs w !! name with
    | Some e, _ => (w, Err ("open " +:+ name +:+ ": " +:+ e))
    | None, None => (w, Err ("open " +:+ name +:+ ": no such file or directory"))
    | None, Some c => (w, Ok c)
    end.

(** [os.Remove(name)]; the code ignores its error. *)
Definition Remove (name : string) : ST World unit :=
  st_modify (set_fs (delete name)).

(** ** Lemmas *)

Lemma joinPath_app dir name x : joinPath dir (name +:+ x) = joinPath dir name +:+ x.
Proof. unfold joinPath. case_match; by rewrite ?string_app_assoc. Qed.

Lemma create_temp_loop_ok tries prefix suffix w w' name :
  create_temp_loop tries prefix suffix w = (w', Ok name) ->
  exists r, name = prefix +:+ nextRandom r +:+ suffix /\ fs w !! name = None /\
            fs w' = <[name := ""]> (fs w).
Proof.
  revert w. induction tries as [|tries IH]; intros w Heq;
    cbn [create_temp_loop] in Heq;
    destruct (fs (next_rng w) !! _) eqn:E.
  - discriminate Heq.
  - destruct (env_fault env OpCreate _); [discriminate Heq|].
    injection Heq as <- <-. eexists. split; [reflexivity|]. by split.
  - destruct tries as [|tries']; [discriminate Heq|]. by apply IH in Heq.
  - destruct (env_fault env OpCreate _); [discriminate Heq|].
    injection Heq as <- <-. eexists. split; [reflexivity|]. by split.
Qed.

Lemma create_temp_loop_err tries prefix suffix w w' e :
  create_temp_loop tries prefix suffix w = (w', Err e) -> fs w' = fs w.
Proof.
  revert w. induction tries as [|tries IH]; intros w Heq;
    cbn [create_temp_loop] in Heq;
    destruct (fs (next_rng w) !! _) eqn:E.
  - by injection Heq as <- _.
  - destruct (env_fault env OpCreate _); [by injection Heq as <- _|discriminate Heq].
  - destruct tries as [|tries']; [by injection Heq as <- _|]. by apply IH in Heq.
  - destruct (env_fault env OpCreate _); [by injection Heq as <- _|discriminate Heq].
Qed.

(** The pattern [base+".*"] of [createTempFile]. *)
Lemma prefixAndSuffix_dot_star b : prefixAndSuffix (b +:+ ".*") = (b +:+ ".", "").
Proof.
  unfold prefixAndSuffix. rewrite bytes_app, rev_app_distr. simpl.
  rewrite rev_involutive, of_bytes_app, of_bytes_bytes. done.
Qed.

Lemma CreateTemp_dot_star b :
  "/"%char ∉ bytes b ->
  CreateTemp (b +:+ ".*") =
    create_temp_loop createTempTries (joinPath (env_tmpdir env) (b +:+ ".")) "".
Proof.
  intros Hb. unfold CreateTemp. rewrite decide_False.
  - by rewrite prefixAndSuffix_dot_star.
  - rewrite bytes_app, elem_of_app. intros [?|Hs]; [done|].
    apply list_elem_of_In in Hs. simpl in Hs. naive_solver.
Qed.

Lemma CreateTemp_err pattern w w' e :
  CreateTemp pattern w = (w', Err e) -> fs w' = fs w.
Proof.
  unfold CreateTemp. case_decide.
  - by intros [= <- _].
  - destruct (prefixAndSuffix pattern). apply create_temp_loop_err.
Qed.

End WithEnv.
End os.

(** ** Frame conditions of the file operations *)

Lemma write_stderr_frame t text : st_preserves (fs_except t) (write_stderr text).
Proof. by intros w p _. Qed.

Lemma write_stdout_frame t text : st_preserves (fs_except t) (write_stdout text).
Proof. by intros w p _. Qed.

Lemma WriteFile_frame env t data : st_preserves (fs_except t) (os.WriteFile env t data).
Proof.
  intros w p Hp. unfold os.WriteFile. destruct (env_fault env OpWrite t); simpl; [done|].
  by rewrite lookup_insert_ne.
Qed.

Lemma ReadFile_frame env t t' : st_preserves (fs_except t) (os.ReadFile env t').
Proof.
  intros w p _. unfold os.ReadFile.
  by destruct (env_fault env OpRead t'), (fs w !! t').
Qed.

Lemma Remove_frame t : st_preserves (fs_except t) (os.Remove t).
Proof. intros w p Hp. simpl. by rewrite lookup_delete_ne. Qed.

#[export] Hint Resolve write_stderr_frame write_stdout_frame WriteFile_frame ReadFile_frame
  Remove_frame : frame.

(** A computation that ends with [os.Remove t] leaves no file at [t]. *)
Lemma fs_remove_last {A} t (m : ST World A) w :
  st_total m -> fs ((let* r := m in os.Remove t ;;; st_ret r) w).1 !! t = None.
Proof.
  intros Hm. destruct (Hm w) as (w1 & a & E). unfold st_bind. rewrite E. simpl.
  apply lookup_delete_eq.
Qed.

(** A computation that changes nothing but [t] and then deletes it. *)
Lemma fs_except_deleted t w w' :
  fs_except t w w' -> fs w' !! t = None -> fs w' = delete t (fs w).
Proof.
  intros Hf Ht. apply map_eq. intros p. destruct (decide (p = t)) as [->|Hp].
  - by rewrite lookup_delete_eq.
  - rewrite lookup_delete_ne by done. by apply Hf.
Qed.

(** Writing texts one after the other to [os.Stderr]. *)
Lemma st_for_write_stderr (l : list string) w :
  st_for l write_stderr w =
    ({| fs := fs w; rng := rng w; stdout := stdout w; stderr := stderr w ++ l |}, Ok tt).
Proof.
  revert w. induction l as [|x l IH]; intros w; simpl.
  - rewrite app_nil_r. by destruct w.
  - unfold st_bind. simpl. rewrite IH. simpl. by rewrite <- app_assoc.
Qed.

(** ** The file operations do not write to standard output *)

Lemma write_stderr_stdout text : st_preserves stdout_same (write_stderr text).
Proof. by intros w. Qed.

Lemma WriteFile_stdout env t data : st_preserves stdout_same (os.WriteFile env t data).
Proof. intros w. unfold os.WriteFile. by destruct (env_fault env OpWrite t). Qed.

Lemma ReadFile_stdout env t : st_preserves stdout_same (os.ReadFile env t).
Proof. intros w. unfold os.ReadFile. by destruct (env_fault env OpRead t), (fs w !! t). Qed.

Lemma Rename_stdout env a b : st_preserves stdout_same (os.Rename env a b).
Proof.
  intros w. unfold os.Rename. by destruct (fs w !! a), (env_fault env OpRename b).
Qed.

Lemma Remove_stdout t : st_preserves stdout_same (os.Remove t).
Proof. by intros w. Qed.

Lemma create_temp_loop_stdout env tries prefix suffix :
  st_preserves stdout_same (os.create_temp_loop env tries prefix suffix).
Proof.
  induction tries as [|tries IH]; intros w; cbn [os.create_temp_loop];
    destruct (fs (next_rng w) !! _); try destruct tries;
    try destruct (env_fault env OpCreate _); try done; exact (IH (next_rng w)).
Qed.

Lemma CreateTemp_stdout env pattern : st_preserves stdout_same (os.CreateTemp env pattern).
Proof.
  intros w. unfold os.CreateTemp. case_decide; [done|].
  destruct (os.prefixAndSuffix pattern). apply create_temp_loop_stdout.
Qed.

#[export] Hint Resolve write_stderr_stdout WriteFile_stdout ReadFile_stdout Rename_stdout
  Remove_stdout CreateTemp_stdout : frame.

