(* ===== verification/Config.v ===== *)
(** * Config: the four configuration paths of config/config.go

    [Load] reads them from the environment once, at process start;
    [os.Getenv] of an unset variable is the empty string, which the tools
    read as "use the tool's defaults". *)

From S2P Require Import Prelude.

Module Config.

Record Config := {
  BiomeConfigPath : string;
  RuffConfigPath : string;
  PyrightConfigPath : string;
  MarkdownlintConfigPath : string
}.

(** [Load()], given [os.Getenv]. *)
Definition Load (getenv : string -> string) : Config :=
  {| BiomeConfigPath := getenv "BIOME_CONFIG_PATH";
     RuffConfigPath := getenv "RUFF_CONFIG_PATH";
     PyrightConfigPath := getenv "PYRIGHT_CONFIG_PATH";
     MarkdownlintConfigPath := getenv "MARKDOWNLINT_CONFIG_PATH" |}.

End Config.
