(* ===== verification/Hook.v ===== *)
(** * Hook: the hook payload of hook/hook.go

    The JSON object a PostToolUse hook receives on standard input.
    [ParseHookData] reads it and decodes it; reading standard input and
    [json.Unmarshal] are given by the caller as their results (the decoder
    is Go's library), and the model keeps the code's error wrapping.  The
    accessors decide what is validated: an ["Edit"] validates its
    [new_string] and has no full content, anything else validates its
    [content] as a whole file. *)

From S2P Require Import Prelude.

Module Hook.

(** [type ToolInput struct]; the field names are the JSON tags. *)
Record ToolInput := {
  file_path : string;
  old_string : string;
  new_string : string;
  content : string
}.

(** [type HookData struct { ToolName; ToolInput }] *)
Record HookData := {
  tool_name : string;
  tool_input : ToolInput
}.

(** [ParseHookData(r)]: [io.ReadAll(r)] gave [data], and [unmarshal] is
    [json.Unmarshal] into a [HookData]. *)
Definition ParseHookData (data : res string) (unmarshal : string -> res HookData)
    : res HookData :=
  match data with
  | Err e => Err ("failed to read hook data: " +:+ e)
  | Ok d =>
      match unmarshal d with
      | Err e => Err ("failed to parse hook JSON: " +:+ e)
      | Ok h => Ok h
      end
  end.

Definition GetValidationContent (h : HookData) : string :=
  if decide (tool_name h = "Edit") then new_string (tool_input h) else content (tool_input h).

Definition GetFullContent (h : HookData) : string :=
  if decide (tool_name h = "Edit") then "" else content (tool_input h).

Definition IsEditOperation (h : HookData) : bool := bool_decide (tool_name h = "Edit").

Definition IsWriteOperation (h : HookData) : bool := bool_decide (tool_name h = "Write").

End Hook.
