(* ===== verification/Linters.v ===== *)
(** * Linters: the tool registry and command runner of validator/linters.go

    The [Linter] and [Formatter] interfaces of the code have a fixed set of
    implementations, each a struct holding the configuration; they are the
    constructors of [Linter] and [Formatter], and the interface methods
    ([linter_Name], [linter_Applies], [linter_Run], [formatter_Format])
    dispatch to one definition per Go method ([BiomeLinter_Run], ...), each
    building its command line; [runCommand] classifies the outcome of the
    process.  A tool is run on the staged file's content
    and returns what it left in the file, so that the validator can run
    tools in sequence or interleave them.  The class [LinterInterface] is
    the Go interface as its clients use it; [LinterLaws] states what the
    validator relies on (a run reports under the linter's name, and a run
    that does not pass says why), and the instances for [Linter] discharge
    it.  The linter group of [Validator] is written against the class. *)

From S2P Require Import Prelude GoLib Os Config.
Import Config.

Module Linters.

(** [type LintResult struct { Name; Passed; Output; Error error }];
    a nil error is [None]. *)
Record LintResult := {
  Name : string;
  Passed : bool;
  Output : string;
  Error : option string
}.

(** The zero value [LintResult{}]. *)
Definition zero_LintResult : LintResult :=
  {| Name := ""; Passed := false; Output := ""; Error := None |}.

Inductive Linter :=
| BiomeLinter (cfg : Config)
| RuffLinter (cfg : Config)
| PyrightLinter (cfg : Config)
| MarkdownlintLinter (cfg : Config).

Inductive Formatter :=
| RuffFormatter (cfg : Config).

(** [NewBiomeLinter(cfg)] and the other constructors: the struct holding
    the configuration. *)
Definition NewBiomeLinter (cfg : Config) : Linter := BiomeLinter cfg.
Definition NewRuffLinter (cfg : Config) : Linter := RuffLinter cfg.
Definition NewPyrightLinter (cfg : Config) : Linter := PyrightLinter cfg.
Definition NewMarkdownlintLinter (cfg : Config) : Linter := MarkdownlintLinter cfg.
Definition NewRuffFormatter (cfg : Config) : Formatter := RuffFormatter cfg.

(** [runCommand(ctx, name, args)]: combined output trimmed; exit status
    0 passes; any other end is an [*exec.ExitError] ("exited with code");
    a process that could not start is "failed to run". *)
Definition runCommand (env : Env) (name : string) (args : list string)
    (content : option string) : LintResult * option string :=
  match env_exec env name args content with
  | ProcRan st out err written =>
      let output := Strings.TrimSpace (out +:+ String "010" err) in
      match st with
      | Exited 0 =>
          ({| Name := name; Passed := true; Output := output; Error := None |}, written)
      | _ =>
          ({| Name := name; Passed := false; Output := output;
              Error := Some (name +:+ " exited with code " +:+ Itoa (ExitCode st)) |},
           written)
      end
  | ProcStartFailed e =>
      ({| Name := name; Passed := false; Output := Strings.TrimSpace (String "010" "");
          Error := Some ("failed to run " +:+ name +:+ ": " +:+ e) |}, None)
  end.

(** ** The methods of each linter *)

Definition BiomeLinter_Name : string := "biome".

Definition BiomeLinter_Applies (ext : string) : bool :=
  bool_decide (ext ∈ ["js"; "jsx"; "ts"; "tsx"; "mjs"; "cjs"]).

Definition BiomeLinter_Run (env : Env) (cfg : Config) (filePath : string)
    (content : option string) : LintResult * option string :=
  let cfgArgs :=
    if decide (BiomeConfigPath cfg = "") then []
    else
      let configPath :=
        if decide (Filepath.Ext (BiomeConfigPath cfg) = ".json")
        then Filepath.Dir (BiomeConfigPath cfg) else BiomeConfigPath cfg in
      ["--config-path=" +:+ configPath] in
  runCommand env "biome"
    (["check"; "--write"] ++ cfgArgs ++ ["--vcs-use-ignore-file=false"; filePath]) content.

Definition RuffLinter_Name : string := "ruff".

Definition RuffLinter_Applies (ext : string) : bool := bool_decide (ext = "py").

Definition RuffLinter_Run (env : Env) (cfg : Config) (filePath : string)
    (content : option string) : LintResult * option string :=
  let cfgArgs :=
    if decide (RuffConfigPath cfg = "") then [] else ["--config=" +:+ RuffConfigPath cfg] in
  runCommand env "ruff" (["check"; "--fix"] ++ cfgArgs ++ [filePath]) content.

Definition PyrightLinter_Name : string := "pyright".

Definition PyrightLinter_Applies (ext : string) : bool := bool_decide (ext = "py").

Definition PyrightLinter_Run (env : Env) (cfg : Config) (filePath : string)
    (content : option string) : LintResult * option string :=
  let cfgArgs :=
    if decide (PyrightConfigPath cfg = "") then []
    else ["--project=" +:+ Filepath.Dir (PyrightConfigPath cfg)] in
  runCommand env "pyright" (cfgArgs ++ [filePath]) content.

Definition MarkdownlintLinter_Name : string := "markdownlint".

Definition MarkdownlintLinter_Applies (ext : string) : bool :=
  bool_decide (ext = "md" \/ ext = "markdown").

Definition MarkdownlintLinter_Run (env : Env) (cfg : Config) (filePath : string)
    (content : option string) : LintResult * option string :=
  let cfgArgs :=
    if decide (MarkdownlintConfigPath cfg = "") then []
    else ["-c"; MarkdownlintConfigPath cfg] in
  runCommand env "markdownlint" (cfgArgs ++ [filePath]) content.

(** ** The [Linter] interface: dispatch on the implementation *)

Definition linter_Name (l : Linter) : string :=
  match l with
  | BiomeLinter _ => BiomeLinter_Name
  | RuffLinter _ => RuffLinter_Name
  | PyrightLinter _ => PyrightLinter_Name
  | MarkdownlintLinter _ => MarkdownlintLinter_Name
  end.

Definition linter_Applies (l : Linter) (ext : string) : bool :=
  match l with
  | BiomeLinter _ => BiomeLinter_Applies ext
  | RuffLinter _ => RuffLinter_Applies ext
  | PyrightLinter _ => PyrightLinter_Applies ext
  | MarkdownlintLinter _ => MarkdownlintLinter_Applies ext
  end.

(** [linter.Run(ctx, filePath)] on a file holding [content]. *)
Definition linter_Run (env : Env) (l : Linter) (filePath : string) (content : option string)
    : LintResult * option string :=
  match l with
  | BiomeLinter cfg => BiomeLinter_Run env cfg filePath content
  | RuffLinter cfg => RuffLinter_Run env cfg filePath content
  | PyrightLinter cfg => PyrightLinter_Run env cfg filePath content
  | MarkdownlintLinter cfg => MarkdownlintLinter_Run env cfg filePath content
  end.

(** The [Linter] interface as its clients see it: the validator's linter
    group is written against these three methods, for any type of
    linters. *)
Class LinterInterface (L : Type) := {
  lName : L -> string;
  lApplies : L -> string -> bool;
  lRun : Env -> L -> string -> option string -> LintResult * option string
}.

(** What the group and the report rely on: a run reports under the
    linter's name, and a run that does not pass says why. *)
Class LinterLaws (L : Type) `{!LinterInterface L} : Prop := {
  lRun_Name env l filePath c : Name (lRun env l filePath c).1 = lName l;
  lRun_failed env l filePath c :
    Passed (lRun env l filePath c).1 = false -> exists e, Error (lRun env l filePath c).1 = Some e
}.

#[export] Instance Linter_interface : LinterInterface Linter :=
  {| lName := linter_Name; lApplies := linter_Applies; lRun := linter_Run |}.

Definition RuffFormatter_Name : string := "ruff-format".

Definition RuffFormatter_Applies (ext : string) : bool := bool_decide (ext = "py").

(** [RuffFormatter.Format(ctx, filePath)]: [cmd.Run()] with the output
    discarded; the error is [None] for exit status 0. *)
Definition RuffFormatter_Format (env : Env) (cfg : Config) (filePath : string)
    (content : option string) : option string * option string :=
  let cfgArgs :=
    if decide (RuffConfigPath cfg = "") then [] else ["--config=" +:+ RuffConfigPath cfg] in
  match env_exec env "ruff" (["format"] ++ cfgArgs ++ [filePath]) content with
  | ProcRan (Exited 0) _ _ written => (None, written)
  | ProcRan st _ _ written => (Some (ProcessState_String st), written)
  | ProcStartFailed e => (Some e, None)
  end.

Definition formatter_Name (f : Formatter) : string :=
  match f with RuffFormatter _ => RuffFormatter_Name end.

Definition formatter_Applies (f : Formatter) (ext : string) : bool :=
  match f with RuffFormatter _ => RuffFormatter_Applies ext end.

Definition formatter_Format (env : Env) (f : Formatter) (filePath : string)
    (content : option string) : option string * option string :=
  match f with RuffFormatter cfg => RuffFormatter_Format env cfg filePath content end.

(** The registries, in declaration order, and their filters. *)
Definition allFormatters (cfg : Config) : list Formatter := [NewRuffFormatter cfg].

Definition allLinters (cfg : Config) : list Linter :=
  [NewBiomeLinter cfg; NewRuffLinter cfg; NewPyrightLinter cfg; NewMarkdownlintLinter cfg].

Definition GetApplicableFormatters (ext : string) (cfg : Config) : list Formatter :=
  filter (fun f => formatter_Applies f ext = true) (allFormatters cfg).

Definition GetApplicableLinters (ext : string) (cfg : Config) : list Linter :=
  filter (fun l => linter_Applies l ext = true) (allLinters cfg).

(** ** Lemmas *)

Lemma runCommand_Name env name args content :
  Name (runCommand env name args content).1 = name.
Proof. unfold runCommand. by repeat case_match. Qed.

(** C20: the command runner's classification.  The result is named after
    the command; it passes exactly when the process exited with status 0,
    and then exactly when it carries no error; a non-zero exit or a signal
    is reported with the exit code ([-1] for a signal), a process that did
    not start with the launch error. *)
Theorem runCommand_spec env name args content :
  let r := (runCommand env name args content).1 in
  Name r = name /\
  (Passed r = true <-> Error r = None) /\
  match env_exec env name args content with
  | ProcRan (Exited 0) _ _ _ => Passed r = true
  | ProcRan st _ _ _ => Error r = Some (name +:+ " exited with code " +:+ Itoa (ExitCode st))
  | ProcStartFailed e => Error r = Some ("failed to run " +:+ name +:+ ": " +:+ e)
  end.
Proof.
  unfold runCommand. destruct (env_exec env name args content) as [st o e w|e].
  - destruct st as [[|p|p]|sig]; simpl; repeat split; try done; intros [=].
  - simpl. repeat split; try done; intros [=].
Qed.

Lemma linter_Run_Name env l filePath c :
  Name (linter_Run env l filePath c).1 = linter_Name l.
Proof. destruct l; apply runCommand_Name. Qed.

(** A run that does not pass always says why. *)
Lemma runCommand_failed env name args content :
  Passed (runCommand env name args content).1 = false ->
  exists e, Error (runCommand env name args content).1 = Some e.
Proof. unfold runCommand. repeat case_match; simpl; by eauto. Qed.

Lemma linter_Run_failed env l filePath c :
  Passed (linter_Run env l filePath c).1 = false -> exists e, Error (linter_Run env l filePath c).1 = Some e.
Proof. destruct l; apply runCommand_failed. Qed.

(** The four implementations keep the laws. *)
#[export] Instance Linter_laws : LinterLaws Linter.
Proof. split; [apply linter_Run_Name|apply linter_Run_failed]. Qed.

(** C21: an extension that no tool declares gets no formatter and no
    linter; matching is exact, so ["MD"] or ["PY"] get none either. *)
Theorem GetApplicable_unknown ext cfg :
  ext ∉ ["js"; "jsx"; "ts"; "tsx"; "mjs"; "cjs"; "py"; "md"; "markdown"] ->
  GetApplicableLinters ext cfg = [] /\ GetApplicableFormatters ext cfg = [].
Proof.
  intros Hext. unfold GetApplicableLinters, GetApplicableFormatters; simpl.
  unfold linter_Applies, formatter_Applies, BiomeLinter_Applies, RuffLinter_Applies,
    PyrightLinter_Applies, MarkdownlintLinter_Applies, RuffFormatter_Applies.
  rewrite !bool_decide_eq_false_2; [done|..]; set_solver.
Qed.

Lemma GetApplicable_unknown_witness :
  GetApplicableLinters "MD" (Config.Load (fun _ => "")) = [] /\
  GetApplicableFormatters "MD" (Config.Load (fun _ => "")) = [].
Proof.
  apply GetApplicable_unknown. apply (bool_decide_unpack _). vm_compute. reflexivity.
Defined.

(** C23: every tool is run on the file it is given, as the last argument
    of its command line, under its own name: a linter through
    [runCommand], the formatter through [exec.CommandContext]. *)
Theorem tools_run_on_file env l f filePath c :
  (exists args, linter_Run env l filePath c = runCommand env (linter_Name l) args c /\
                last args = Some filePath) /\
  (exists args, formatter_Format env f filePath c =
                  match env_exec env "ruff" args c with
                  | ProcRan (Exited 0) _ _ written => (None, written)
                  | ProcRan st _ _ written => (Some (ProcessState_String st), written)
                  | ProcStartFailed e => (Some e, None)
                  end /\ last args = Some filePath).
Proof.
  split.
  - destruct l; (eexists; split; [reflexivity|]); rewrite ?app_assoc, ?last_app; done.
  - destruct f. eexists. split; [reflexivity|]. by rewrite ?app_assoc, ?last_app.
Qed.

End Linters.
