(* ===== verification/Staging.v ===== *)
(** * Staging: [createTempFile] of validator/validator.go

    The staged copy of a file is created with [os.CreateTemp("", base+".*")]
    and then renamed so that its name ends with the original extension:
    [strings.TrimSuffix(tmpName, filepath.Ext(tmpName)) + ext].  The random
    part that [CreateTemp] put after the last dot is exactly what
    [filepath.Ext(tmpName)] returns, so the rename drops it: the staged path
    is [TempDir/base + ext] whatever the random value ([staged_path]).  On
    each error path the files created so far are removed. *)

From S2P Require Import Prelude GoLib Os.

Module Staging.

(** A concrete environment: temp directory [/tmp], the i-th random value
    [i + 7], no I/O fault, and no external tool. *)
Definition example_env : Env :=
  {| env_tmpdir := "/tmp"; env_rand := fun i => N.of_nat (i + 7);
     env_fault := fun _ _ => None; env_exec := fun _ _ _ => ProcStartFailed "not found" |}.

Definition example_world : World := empty_world.

Section WithEnv.
Context (env : Env).

Definition createTempFile (originalPath content : string) : ST World string :=
  let ext := Filepath.Ext originalPath in
  let filename := Filepath.Base originalPath in
  let base := Strings.TrimSuffix filename ext in
  let* tmp0 := st_wrap "failed to create temp file: " (os.CreateTemp env (base +:+ ".*")) in
  let* tmpName :=
    (if decide (ext = "") then st_ret tmp0
     else
       let newName := Strings.TrimSuffix tmp0 (Filepath.Ext tmp0) +:+ ext in
       st_catch (os.Rename env tmp0 newName ;;; st_ret newName)
                (fun e => os.Remove tmp0 ;;; st_throw ("failed to rename temp file: " +:+ e))) in
  st_catch (os.WriteFile env tmpName content ;;; st_ret tmpName)
           (fun e => os.Remove tmpName ;;; st_throw ("failed to write temp file: " +:+ e)).

(** The path the staged file ends up at. *)
Definition staged_path (originalPath : string) : string :=
  let ext := Filepath.Ext originalPath in
  os.joinPath (env_tmpdir env) (Strings.TrimSuffix (Filepath.Base originalPath) ext) +:+ ext.

(** ** Lemmas *)

Lemma createTempFile_unfold originalPath content w :
  createTempFile originalPath content w =
    let ext := Filepath.Ext originalPath in
    let base := Strings.TrimSuffix (Filepath.Base originalPath) ext in
      match os.CreateTemp env (base +:+ ".*") w with
      | (w1, Err e) => (w1, Err ("failed to create temp file: " +:+ e))
      | (w1, Ok tmp0) =>
          let newName := Strings.TrimSuffix tmp0 (Filepath.Ext tmp0) +:+ ext in
          match (if decide (ext = "") then (w1, Ok tmp0)
                 else match os.Rename env tmp0 newName w1 with
                      | (w2, Ok _) => (w2, Ok newName)
                      | (w2, Err e) =>
                          (set_fs (delete tmp0) w2, Err ("failed to rename temp file: " +:+ e))
                      end) with
          | (w2, Err e) => (w2, Err e)
          | (w2, Ok tmpName) =>
              match os.WriteFile env tmpName content w2 with
              | (w3, Ok _) => (w3, Ok tmpName)
              | (w3, Err e) =>
                  (set_fs (delete tmpName) w3, Err ("failed to write temp file: " +:+ e))
              end
          end
      end.
Proof.
  unfold createTempFile. cbv [st_bind st_wrap st_catch st_ret st_throw os.Remove st_modify].
  destruct (os.CreateTemp env _ w) as [w1 [tmp0|e]]; [|done].
  case_decide; [|destruct (os.Rename env _ _ w1) as [w2 [[]|e]]]; try done;
    by destruct (os.WriteFile env _ _ _) as [w3 [[]|e]].
Qed.

(** The rename target computed from the name [CreateTemp] returned. *)
Lemma rename_target base ext r :
  let tmp0 := os.joinPath (env_tmpdir env) (base +:+ ".") +:+ os.nextRandom r +:+ "" in
  Strings.TrimSuffix tmp0 (Filepath.Ext tmp0) +:+ ext
    = os.joinPath (env_tmpdir env) base +:+ ext.
Proof.
  cbv zeta. rewrite string_app_nil_r, os.joinPath_app, string_app_assoc.
  change ("." +:+ os.nextRandom r) with (String "." (os.nextRandom r)).
  rewrite Ext_dot_suffix by apply pretty_N_plain. by rewrite TrimSuffix_app.
Qed.

(** The outcome of [createTempFile] on each branch. *)
Lemma createTempFile_outcome originalPath content w :
  Filepath.Ext originalPath <> "" ->
  let '(w', r) := createTempFile originalPath content w in
  (r = Ok (staged_path originalPath) /\
   fs w' = <[staged_path originalPath := content]> (fs w)) \/
  (exists e, r = Err e /\
   (fs w' = fs w \/ fs w' = delete (staged_path originalPath) (fs w))).
Proof.
  intros Hext. rewrite createTempFile_unfold. cbv zeta.
  set (ext := Filepath.Ext originalPath) in *.
  set (base := Strings.TrimSuffix (Filepath.Base originalPath) ext).
  unfold staged_path. fold ext. fold base.
  destruct (decide ("/"%char ∈ bytes base)) as [Hsep|Hsep].
  { unfold os.CreateTemp. rewrite decide_True by (rewrite bytes_app; set_solver).
    right. eauto. }
  rewrite os.CreateTemp_dot_star by done.
  destruct (os.create_temp_loop env _ _ _ w) as [w1 [tmp0|e]] eqn:E1.
  2:{ right. eexists. split; [done|]. left. by eapply os.create_temp_loop_err. }
  destruct (os.create_temp_loop_ok env _ _ _ _ _ _ E1) as (r & -> & Hfresh & Hfs1).
  rewrite decide_False by done. rewrite (rename_target base ext r).
  set (new := os.joinPath (env_tmpdir env) base +:+ ext).
  unfold os.Rename. rewrite Hfs1, lookup_insert_eq.
  destruct (env_fault env OpRename new) as [e|].
  { right. eexists. split; [done|]. left. simpl.
    rewrite Hfs1, delete_insert_eq. by apply delete_id. }
  unfold os.WriteFile. destruct (env_fault env OpWrite new) as [e|]; simpl.
  - right. eexists. split; [done|]. right.
    by rewrite delete_insert_eq, Hfs1, delete_insert_eq, (delete_id _ _ Hfresh).
  - left. split; [done|].
    by rewrite insert_insert_eq, Hfs1, delete_insert_eq, (delete_id _ _ Hfresh).
Qed.

(** C8: the functional behaviour of [createTempFile] on every branch, for
    a path with an extension.  Either it succeeds, returns [staged_path]
    (the temp directory joined with the base name and the original
    extension, for every value of the random source) and the only change
    to the file system is that path now holding the content; or it fails
    and the file system is unchanged, except that the write-failure path
    removes [staged_path], which [os.Rename] had created or replaced. *)
Theorem createTempFile_spec originalPath content w :
  Filepath.Ext originalPath <> "" ->
  let '(w', r) := createTempFile originalPath content w in
  (r = Ok (staged_path originalPath) /\
   fs w' = <[staged_path originalPath := content]> (fs w)) \/
  (exists e, r = Err e /\
   (fs w' = fs w \/ fs w' = delete (staged_path originalPath) (fs w))).
Proof. apply createTempFile_outcome. Qed.

Lemma createTempFile_stdout originalPath content :
  st_preserves stdout_same (createTempFile originalPath content).
Proof. unfold createTempFile. solve_frame. Qed.

End WithEnv.

Lemma createTempFile_spec_witness :
  let '(w', r) := createTempFile example_env "/home/u/a.md" "hello" example_world in
  (r = Ok (staged_path example_env "/home/u/a.md") /\
   fs w' = <[staged_path example_env "/home/u/a.md" := "hello"]> (fs example_world)) \/
  (exists e, r = Err e /\
   (fs w' = fs example_world \/
    fs w' = delete (staged_path example_env "/home/u/a.md") (fs example_world))).
Proof. apply createTempFile_spec. vm_compute. discriminate. Defined.

End Staging.

#[export] Hint Resolve Staging.createTempFile_stdout : frame.
