(* ===== verification/Validator.v ===== *)
(** * Validator: [Validator.Validate] of validator/validator.go

    One validation pass: the markdown check of the changed text, the
    short-circuits (no path, no extension, edit operation, empty content),
    the staged copy ([Staging.createTempFile]), the formatters in registry
    order, the linters under an [errgroup], the read-back of the staged
    file, and the deferred [os.Remove].

    The linters run concurrently: each goroutine reads the staged file when
    its process starts and may write it when the process ends (biome runs
    with [--write], ruff with [--fix]).  A run of the group is a schedule,
    a list of [Start i] and [Finish i] events; [lint_step] executes one
    event on [LintState] (the file's content, the state of each task, the
    [results] slice).  [g.Wait()] returns once every task is [Done]: the
    schedules of the Go program are the [complete] ones.  Each goroutine
    writes only [results[i]] and returns [nil], so [g.Wait()] never fails:
    the ["linter execution failed"] branch of the code is unreachable and is
    not a case of the model. *)

From S2P Require Import Prelude GoLib Os Config Markdown Linters Staging.
Import Config Markdown Linters.

Module Validator.

(** [type ValidationInput struct { ... }] *)
Record ValidationInput := {
  FilePath : string;
  ChangeContent : string;
  FullContent : string;
  IsEditOperation : bool
}.

(** [type ValidationResult struct { ... }]; [FormattedContent] is [""]
    unless [WasFormatted]. *)
Record ValidationResult := {
  MarkdownIssues : list MarkdownIssue;
  LintResults : list LintResult;
  HasErrors : bool;
  FormattedContent : string;
  WasFormatted : bool
}.

(** [type Validator struct { cfg *config.Config }] and [New(cfg)]. *)
Record Validator := { cfg : Config }.
Definition New (c : Config) : Validator := {| cfg := c |}.

Definition empty_result : ValidationResult :=
  {| MarkdownIssues := []; LintResults := []; HasErrors := false;
     FormattedContent := ""; WasFormatted := false |}.

(** ** The linter group *)

Inductive Event := Start (i : nat) | Finish (i : nat).

Inductive Task :=
| Pending
| Running (snapshot : option string)
| Done.

Record LintState := {
  content : option string;
  tasks : list Task;
  results : list LintResult
}.

(** [results := make([]LintResult, len(linters))], every task pending. *)
Definition lint_init (n : nat) (c0 : option string) : LintState :=
  {| content := c0; tasks := replicate n Pending; results := replicate n zero_LintResult |}.

Section Group.
Context {L : Type} `{!LinterInterface L} (env : Env) (tempFile : string) (linters : list L).

(** One event.  [Start i]: the process of linter [i] reads the file.
    [Finish i]: it ends, [results[i] = linter.Run(...)] is stored, and what
    it wrote becomes the file's content.  An event that does not apply
    (a task started twice, finished before it started) changes nothing. *)
Definition lint_step (st : LintState) (ev : Event) : LintState :=
  match ev with
  | Start i =>
      match tasks st !! i with
      | Some Pending =>
          {| content := content st; tasks := <[i := Running (content st)]> (tasks st);
             results := results st |}
      | _ => st
      end
  | Finish i =>
      match tasks st !! i, linters !! i with
      | Some (Running snap), Some l =>
          let '(r, written) := lRun env l tempFile snap in
          {| content := match written with Some c => Some c | None => content st end;
             tasks := <[i := Done]> (tasks st);
             results := <[i := r]> (results st) |}
      | _, _ => st
      end
  end.

Definition run_group (sched : list Event) (c0 : option string) : LintState :=
  foldl lint_step (lint_init (length linters) c0) sched.

(** [g.Wait()] has returned: every goroutine has finished. *)
Definition complete (st : LintState) : Prop := Forall (fun t => t = Done) (tasks st).

(** Every finished task has stored the result of its linter, run on some
    content of the file. *)
Definition group_inv (st : LintState) : Prop :=
  length (tasks st) = length linters /\ length (results st) = length linters /\
  forall i, tasks st !! i = Some Done ->
    exists l s, linters !! i = Some l /\ results st !! i = Some (lRun env l tempFile s).1.

(** The linters leave the file as they found it. *)
Definition read_only (c0 : option string) : Prop :=
  forall i l, linters !! i = Some l ->
    (lRun env l tempFile c0).2 = None \/ (lRun env l tempFile c0).2 = c0.

Definition ro_inv (c0 : option string) (st : LintState) : Prop :=
  content st = c0 /\ length (tasks st) = length linters /\
  length (results st) = length linters /\
  forall i t, tasks st !! i = Some t ->
    (forall s, t = Running s -> s = c0) /\
    (t = Done -> exists l, linters !! i = Some l /\
                           results st !! i = Some (lRun env l tempFile c0).1).

End Group.

(** ** The pass *)

Section WithEnv.
Context (env : Env).

(** One formatter on the staged file; its failure is a warning on stderr. *)
Definition run_formatter (tempFile : string) (f : Formatter) : ST World unit :=
  fun w =>
    let '(err, written) := formatter_Format env f tempFile (fs w !! tempFile) in
    let w1 := match written with Some c => set_fs (<[tempFile := c]>) w | None => w end in
    match err with
    | Some e => write_stderr ("Warning: " +:+ formatter_Name f +:+ " formatting failed: "
                              +:+ e +:+ String "010" "") w1
    | None => (w1, Ok tt)
    end.

(** The group on the staged file: it starts from the file's content and
    leaves the content of the last write. *)
Definition run_linters (tempFile : string) (ls : list Linter) (sched : list Event)
    : ST World (list LintResult) :=
  fun w =>
    let st := run_group env tempFile ls sched (fs w !! tempFile) in
    let w' := match content st with
              | Some c => set_fs (<[tempFile := c]>) w
              | None => w
              end in
    (w', Ok (results st)).

(** [formattedContent, err := os.ReadFile(tempFile); if err == nil &&
    string(formattedContent) != input.FullContent { ... }] *)
Definition read_back (tempFile full : string) (r : ValidationResult)
    : ST World ValidationResult :=
  fun w =>
    match os.ReadFile env tempFile w with
    | (w', Ok fc) =>
        if decide (fc <> full) then
          (w', Ok {| MarkdownIssues := MarkdownIssues r; LintResults := LintResults r;
                     HasErrors := HasErrors r; FormattedContent := fc; WasFormatted := true |})
        else (w', Ok r)
    | (w', Err _) => (w', Ok r)
    end.

(** [for _, lr := range results { append; if !lr.Passed { HasErrors = true } }] *)
Definition add_lint_results (r : ValidationResult) (lrs : list LintResult) : ValidationResult :=
  {| MarkdownIssues := MarkdownIssues r; LintResults := LintResults r ++ lrs;
     HasErrors := HasErrors r || existsb (fun lr => negb (Passed lr)) lrs;
     FormattedContent := FormattedContent r; WasFormatted := WasFormatted r |}.

(** The markdown check of lines 59-66. *)
Definition markdown_step (ext : string) (input : ValidationInput) : ValidationResult :=
  if decide ((ext = "md" \/ ext = "markdown") /\ ChangeContent input <> "") then
    let issues := CheckMarkdownBold (ChangeContent input) in
    if decide (0 < length issues) then
      {| MarkdownIssues := issues; LintResults := []; HasErrors := true;
         FormattedContent := ""; WasFormatted := false |}
    else empty_result
  else empty_result.

(** The part of [Validate] that follows [createTempFile]: the formatters,
    the linter group, the read-back, and the deferred [os.Remove]. *)
Definition after_staging (v : Validator) (sched : list Event) (ext : string)
    (input : ValidationInput) (tempFile : string) : ST World ValidationResult :=
  let result := markdown_step ext input in
  let* r :=
    (st_for (GetApplicableFormatters ext (cfg v)) (run_formatter tempFile) ;;;
     let linters := GetApplicableLinters ext (cfg v) in
     if decide (linters = []) then read_back tempFile (FullContent input) result
     else
       let* lrs := run_linters tempFile linters sched in
       read_back tempFile (FullContent input) (add_lint_results result lrs)) in
  os.Remove tempFile ;;;
  st_ret r.

(** [v.Validate(ctx, input)], with the schedule of its linter group. *)
Definition Validate (v : Validator) (sched : list Event) (input : ValidationInput)
    : ST World ValidationResult :=
  if decide (FilePath input = "") then st_ret empty_result else
  let ext := Strings.TrimPrefix (Filepath.Ext (FilePath input)) "." in
  if decide (ext = "") then st_ret empty_result else
  let result := markdown_step ext input in
  if IsEditOperation input then st_ret result else
  if decide (FullContent input = "") then st_ret result else
  let* tempFile := st_wrap "failed to create temp file: "
                     (Staging.createTempFile env (FilePath input) (FullContent input)) in
  after_staging v sched ext input tempFile.

End WithEnv.

(** [HasErrors] says that the result holds a finding: a markdown issue or
    a lint result that did not pass. *)
Definition findings_flagged (r : ValidationResult) : Prop :=
  HasErrors r = true <-> MarkdownIssues r <> [] \/ Exists (fun lr => Passed lr = false) (LintResults r).

(** ** Concrete environments for the examples *)

Definition default_config : Config := Config.Load (fun _ => "").

(** ruff and pyright on ["x=1"]: [ruff check --fix] reports E225, fixes
    the file to ["x = 1"] and exits 1; pyright flags ["x=1"] and accepts
    anything else. *)
Definition py_exec (name : string) (args : list string) (c : option string) : ProcOutcome :=
  if decide (name = "ruff" /\ head args = Some "check") then
    if decide (c = Some "x=1") then ProcRan (Exited 1) "E225 missing whitespace" "" (Some "x = 1")
    else ProcRan (Exited 0) "" "" None
  else if decide (name = "pyright") then
    if decide (c = Some "x=1") then ProcRan (Exited 1) "style error" "" None
    else ProcRan (Exited 0) "0 errors" "" None
  else ProcRan (Exited 0) "" "" None.

Definition py_env : Env :=
  {| env_tmpdir := "/tmp"; env_rand := fun i => N.of_nat (i + 7);
     env_fault := fun _ _ => None; env_exec := py_exec |}.

(** The same tools, run without [--fix]: nothing writes the file. *)
Definition py_ro_env : Env :=
  {| env_tmpdir := "/tmp"; env_rand := fun i => N.of_nat (i + 7);
     env_fault := fun _ _ => None;
     env_exec := fun n a c => match py_exec n a c with
                              | ProcRan st o e _ => ProcRan st o e None
                              | p => p
                              end |}.

(** A temp directory where creating files is refused. *)
Definition readonly_tmp_env : Env :=
  {| env_tmpdir := "/tmp"; env_rand := fun i => N.of_nat (i + 7);
     env_fault := fun op _ => match op with OpCreate => Some "permission denied" | _ => None end;
     env_exec := py_exec |}.

Definition py_input : ValidationInput :=
  {| FilePath := "/p/a.py"; ChangeContent := "x=1"; FullContent := "x=1";
     IsEditOperation := false |}.

(** ruff runs, then pyright. *)
Definition py_sched0 : list Event := [Start 0; Finish 0; Start 1; Finish 1].


(** * Properties *)

Section GroupLemmas.
Context {L : Type} `{!LinterInterface L, !LinterLaws L} (env : Env) (tempFile : string)
  (linters : list L).

Lemma lint_step_inv st ev : group_inv env tempFile linters st -> group_inv env tempFile linters (lint_step env tempFile linters st ev).
Proof.
  intros (Ht & Hr & Hd). unfold group_inv. destruct ev as [i|i]; simpl.
  - destruct (tasks st !! i) as [[]|] eqn:E; try (split; [done|split; done]).
    simpl. rewrite length_insert. split; [done|split; [done|]].
    intros j Hj. destruct (decide (i = j)) as [->|Hne].
    + rewrite list_lookup_insert_eq in Hj by (apply lookup_lt_Some in E; lia). discriminate.
    + rewrite list_lookup_insert_ne in Hj by done. by apply Hd.
  - destruct (tasks st !! i) as [[|snap|]|] eqn:E; try (split; [done|split; done]).
    destruct (linters !! i) as [l|] eqn:El; [|split; [done|split; done]].
    destruct (lRun env l tempFile snap) as [r written] eqn:Er. simpl.
    rewrite !length_insert. split; [done|split; [done|]].
    intros j Hj. destruct (decide (i = j)) as [->|Hne].
    + exists l, snap. split; [done|].
      rewrite list_lookup_insert_eq by (apply lookup_lt_Some in El; lia). by rewrite Er.
    + rewrite list_lookup_insert_ne in Hj by done. rewrite list_lookup_insert_ne by done.
      by apply Hd.
Qed.

Lemma run_group_inv sched c0 : group_inv env tempFile linters (run_group env tempFile linters sched c0).
Proof.
  unfold run_group. cut (group_inv env tempFile linters (lint_init (length linters) c0)).
  - generalize (lint_init (length linters) c0). induction sched as [|ev sched IH]; intros st Hst;
      simpl; [done|]. apply IH. by apply lint_step_inv.
  - unfold lint_init, group_inv; simpl. rewrite !length_replicate. split; [done|split; [done|]].
    intros i Hi. apply lookup_replicate in Hi as [? _]. discriminate.
Qed.

Lemma complete_lookup st i :
  complete st -> i < length (tasks st) -> tasks st !! i = Some Done.
Proof.
  intros Hc Hi. destruct (lookup_lt_is_Some_2 _ _ Hi) as [t Ht].
  rewrite Ht. f_equal. by eapply (Forall_lookup_1 _ _ _ _ Hc).
Qed.

(** C3: when [g.Wait()] has returned, in whatever order the goroutines
    ran, [results] has one entry per applicable linter, in registry order:
    entry [i] carries linter [i]'s name and is the result of running that
    linter on some content of the staged file. *)
Theorem group_results_registry_order sched c0 :
  complete (run_group env tempFile linters sched c0) ->
  map Name (results (run_group env tempFile linters sched c0)) = map lName linters /\
  forall i l, linters !! i = Some l ->
    exists s, results (run_group env tempFile linters sched c0) !! i = Some (lRun env l tempFile s).1.
Proof.
  intros Hc. destruct (run_group_inv sched c0) as (Ht & Hr & Hd). split.
  - apply list_eq. intros i. rewrite !list_lookup_fmap.
    destruct (decide (i < length linters)) as [Hi|Hi].
    + destruct (Hd i (complete_lookup _ i Hc ltac:(lia))) as (l & s & El & Er).
      by rewrite El, Er; simpl; rewrite lRun_Name.
    + rewrite !lookup_ge_None_2 by lia. done.
  - intros i l El. assert (i < length linters) by (by apply lookup_lt_Some in El).
    destruct (Hd i (complete_lookup _ i Hc ltac:(lia))) as (l' & s & El' & Er).
    rewrite El in El'. injection El' as <-. eauto.
Qed.

Lemma lint_step_ro c0 st ev : read_only env tempFile linters c0 -> ro_inv env tempFile linters c0 st -> ro_inv env tempFile linters c0 (lint_step env tempFile linters st ev).
Proof.
  intros Hro (Hc & Ht & Hr & Hi). unfold ro_inv. destruct ev as [i|i]; simpl.
  - destruct (tasks st !! i) as [[]|] eqn:E; try exact (conj Hc (conj Ht (conj Hr Hi))).
    simpl. rewrite length_insert. split; [done|split; [done|split; [done|]]].
    intros j t Hj. destruct (decide (i = j)) as [->|Hne].
    + rewrite list_lookup_insert_eq in Hj by (apply lookup_lt_Some in E; lia).
      injection Hj as <-. split; [intros s [= <-]; done|discriminate].
    + rewrite list_lookup_insert_ne in Hj by done. by apply Hi.
  - destruct (tasks st !! i) as [[|snap|]|] eqn:E; try exact (conj Hc (conj Ht (conj Hr Hi))).
    destruct (linters !! i) as [l|] eqn:El; [|exact (conj Hc (conj Ht (conj Hr Hi)))].
    pose proof (proj1 (Hi i _ E) snap eq_refl) as Hs; subst snap.
    destruct (lRun env l tempFile c0) as [r written] eqn:Er. simpl.
    rewrite !length_insert. split.
    { destruct (Hro i l El) as [Hw|Hw]; rewrite Er in Hw; simpl in Hw; rewrite Hw; [done|by destruct c0]. }
    split; [done|split; [done|]].
    intros j t Hj. destruct (decide (i = j)) as [->|Hne].
    + rewrite list_lookup_insert_eq in Hj by (apply lookup_lt_Some in El; lia).
      injection Hj as <-. split; [done|]. intros _. exists l. split; [done|].
      rewrite list_lookup_insert_eq by (apply lookup_lt_Some in El; lia). by rewrite Er.
    + rewrite list_lookup_insert_ne in Hj by done. rewrite list_lookup_insert_ne by done.
      by apply Hi.
Qed.

(** C4: when no linter writes the file, the interleaving does not
    matter: every complete schedule gives the results of running the
    linters one after the other in registry order, and leaves the file
    unchanged. *)
Theorem group_order_independent sched c0 :
  read_only env tempFile linters c0 -> complete (run_group env tempFile linters sched c0) ->
  results (run_group env tempFile linters sched c0) = map (fun l => (lRun env l tempFile c0).1) linters /\
  content (run_group env tempFile linters sched c0) = c0.
Proof.
  intros Hro Hc.
  assert (Hinv : ro_inv env tempFile linters c0 (run_group env tempFile linters sched c0)).
  { clear Hc. unfold run_group. cut (ro_inv env tempFile linters c0 (lint_init (length linters) c0)).
    - generalize (lint_init (length linters) c0).
      induction sched as [|ev sched IH]; intros st Hst; simpl; [done|].
      apply IH. by apply lint_step_ro.
    - unfold lint_init, ro_inv; simpl. rewrite !length_replicate.
      split; [done|split; [done|split; [done|]]].
      intros i t Hi. apply lookup_replicate in Hi as [Ht0 _]. subst t. split; [intros s [=]|discriminate]. }
  destruct Hinv as (Hcont & Ht & Hr & Hi). split; [|done].
  apply list_eq. intros i. rewrite list_lookup_fmap.
  destruct (decide (i < length linters)) as [Hlt|Hge].
  - destruct (proj2 (Hi i Done (complete_lookup _ i Hc ltac:(lia))) eq_refl) as (l & El & Er).
    by rewrite Er, El.
  - rewrite !lookup_ge_None_2 by lia. done.
Qed.

(** Once [g.Wait()] has returned, every entry of [results] is the result
    of one of the linters, run on some content of the staged file. *)
Lemma complete_results sched c0 lr :
  complete (run_group env tempFile linters sched c0) ->
  lr ∈ results (run_group env tempFile linters sched c0) ->
  exists l s, l ∈ linters /\ lr = (lRun env l tempFile s).1.
Proof.
  intros Hc (i & Hi)%list_elem_of_lookup.
  destruct (run_group_inv sched c0) as (Ht & Hr & Hd).
  assert (i < length linters) by (rewrite <-Hr; by eapply lookup_lt_Some).
  destruct (Hd i (complete_lookup _ i Hc ltac:(lia))) as (l & s & El & Er).
  exists l, s. split; [by eapply list_elem_of_lookup_2|]. congruence.
Qed.

(** The file's content is lost by no event: once some content is there,
    some content stays. *)
Lemma run_group_content_None sched c0 :
  content (run_group env tempFile linters sched c0) = None -> c0 = None.
Proof.
  unfold run_group. cut (forall st, content (foldl (lint_step env tempFile linters) st sched) = None ->
                                   content st = None); [intros H; apply H|].
  induction sched as [|ev sched IH]; intros st; simpl; [done|]. intros Hc%IH.
  destruct ev as [i|i]; simpl in Hc; repeat case_match; simplify_eq/=; done.
Qed.

End GroupLemmas.

Section ValidateLemmas.
Context (env : Env).

(** ** The steps after staging never fail *)

Lemma run_formatter_total tempFile f : st_total (run_formatter env tempFile f).
Proof.
  intros w. unfold run_formatter.
  destruct (formatter_Format env f tempFile _) as [[e|] [c|]]; eexists; eexists; done.
Qed.

Lemma run_linters_total tempFile ls sched : st_total (run_linters env tempFile ls sched).
Proof. intros w. eexists; eexists; done. Qed.

Lemma read_back_total tempFile full r : st_total (read_back env tempFile full r).
Proof.
  intros w. unfold read_back.
  destruct (os.ReadFile env tempFile w) as [w' [fc|e]]; [case_decide|]; eexists; eexists; done.
Qed.

#[local] Hint Resolve run_formatter_total run_linters_total read_back_total : go_hints.

Lemma after_staging_total v sched ext input tempFile :
  st_total (after_staging env v sched ext input tempFile).
Proof. unfold after_staging, os.Remove. solve_total. Qed.

(** [Validate] on a whole-file write with an extension. *)
Lemma Validate_staging v sched input w :
  FilePath input <> "" ->
  Strings.TrimPrefix (Filepath.Ext (FilePath input)) "." <> "" ->
  IsEditOperation input = false -> FullContent input <> "" ->
  Validate env v sched input w =
    st_bind (st_wrap "failed to create temp file: "
               (Staging.createTempFile env (FilePath input) (FullContent input)))
            (after_staging env v sched (Strings.TrimPrefix (Filepath.Ext (FilePath input)) ".") input)
            w.
Proof.
  intros H1 H2 H3 H4. unfold Validate.
  rewrite decide_False by done. cbv zeta. rewrite decide_False by done.
  rewrite H3, decide_False by done. reflexivity.
Qed.

(** C1: the only error [Validate] returns is a staging failure: its text
    is ["failed to create temp file: "] followed by the error of
    [createTempFile], and the world is the one [createTempFile] left.  A
    linter that fails, exits non-zero or is killed at the deadline is a
    [LintResult], never an error of the pass. *)
Theorem Validate_error v sched input w w' e :
  Validate env v sched input w = (w', Err e) ->
  exists e', e = "failed to create temp file: " +:+ e' /\
             Staging.createTempFile env (FilePath input) (FullContent input) w = (w', Err e').
Proof.
  destruct (decide (FilePath input = "")) as [H1|H1].
  { unfold Validate. rewrite decide_True by done. discriminate. }
  set (ext := Strings.TrimPrefix (Filepath.Ext (FilePath input)) ".").
  destruct (decide (ext = "")) as [H2|H2].
  { unfold Validate. rewrite decide_False by done. cbv zeta. fold ext.
    rewrite decide_True by done. discriminate. }
  destruct (IsEditOperation input) eqn:H3.
  { unfold Validate. rewrite decide_False by done. cbv zeta. fold ext.
    rewrite decide_False, H3 by done. discriminate. }
  destruct (decide (FullContent input = "")) as [H4|H4].
  { unfold Validate. rewrite decide_False by done. cbv zeta. fold ext.
    rewrite decide_False, H3, decide_True by done. discriminate. }
  rewrite Validate_staging by done. fold ext.
  unfold st_bind, st_wrap, st_catch, st_throw.
  destruct (Staging.createTempFile env _ _ w) as [w1 [t|e1]].
  - destruct (after_staging_total v sched ext input t w1) as (w2 & r & ->). discriminate.
  - intros [= <- <-]. by exists e1.
Qed.

Lemma Validate_edit v sched input w :
  IsEditOperation input = true ->
  Validate env v sched input w =
    (w, Ok (if decide (FilePath input = "") then empty_result
            else if decide (Strings.TrimPrefix (Filepath.Ext (FilePath input)) "." = "")
            then empty_result
            else markdown_step (Strings.TrimPrefix (Filepath.Ext (FilePath input)) ".") input)).
Proof.
  intros He. unfold Validate. case_decide; [done|]. cbv zeta. case_decide; [done|].
  by rewrite He.
Qed.

(** ** Cleanup of the staged file *)

Lemma run_formatter_frame tempFile f :
  st_preserves (fs_except tempFile) (run_formatter env tempFile f).
Proof.
  intros w p Hp. unfold run_formatter.
  destruct (formatter_Format env f tempFile _) as [[e|] [c|]]; simpl;
    rewrite ?lookup_insert_ne; done.
Qed.

Lemma run_linters_frame tempFile ls sched :
  st_preserves (fs_except tempFile) (run_linters env tempFile ls sched).
Proof.
  intros w p Hp. unfold run_linters. simpl.
  destruct (content _); simpl; rewrite ?lookup_insert_ne; done.
Qed.

Lemma read_back_frame tempFile full r :
  st_preserves (fs_except tempFile) (read_back env tempFile full r).
Proof.
  intros w. unfold read_back. pose proof (ReadFile_frame env tempFile tempFile w) as Hr.
  destruct (os.ReadFile env tempFile w) as [w' [fc|e]]; [case_decide|]; exact Hr.
Qed.

#[local] Hint Resolve run_formatter_frame run_linters_frame read_back_frame : frame.

(** After staging, the pass touches only the staged file and deletes it. *)
Lemma after_staging_cleanup v sched ext input tempFile w :
  fs (after_staging env v sched ext input tempFile w).1 = delete tempFile (fs w).
Proof.
  apply fs_except_deleted.
  - revert w. change (st_preserves (fs_except tempFile)
                        (after_staging env v sched ext input tempFile)).
    unfold after_staging. solve_frame.
  - unfold after_staging. apply fs_remove_last. solve_total.
Qed.

Lemma Ext_of_TrimPrefix path :
  Strings.TrimPrefix (Filepath.Ext path) "." <> "" -> Filepath.Ext path <> "".
Proof. intros H E. apply H. by rewrite E. Qed.

(** Every run of [Validate] changes the file system at most at the staged
    path; a run that staged the file and returned a result has deleted it. *)
Lemma Validate_fs v sched input w :
  (fs (Validate env v sched input w).1 = fs w \/
   fs (Validate env v sched input w).1 = delete (Staging.staged_path env (FilePath input)) (fs w)) /\
  (FilePath input <> "" -> Strings.TrimPrefix (Filepath.Ext (FilePath input)) "." <> "" ->
   IsEditOperation input = false -> FullContent input <> "" ->
   is_ok (Validate env v sched input w).2 = true ->
   fs (Validate env v sched input w).1 = delete (Staging.staged_path env (FilePath input)) (fs w)).
Proof.
  destruct (decide (FilePath input <> "" /\
              Strings.TrimPrefix (Filepath.Ext (FilePath input)) "." <> "" /\
              IsEditOperation input = false /\ FullContent input <> ""))
    as [(H1 & H2 & H3 & H4)|Hno].
  - rewrite Validate_staging by done.
    pose proof (Staging.createTempFile_outcome env (FilePath input) (FullContent input) w
                  (Ext_of_TrimPrefix _ H2)) as Hc.
    unfold st_bind, st_wrap, st_catch, st_throw.
    destruct (Staging.createTempFile env _ _ w) as [w1 [t|e]];
      destruct Hc as [[[= ->] Hfs]|(e' & [=] & Hfs)].
    + rewrite after_staging_cleanup, Hfs, delete_insert_eq. split; [by right|done].
    + simpl. split; [done|]. intros _ _ _ _ [=].
  - split; [|intros; exfalso; apply Hno; auto].
    left. unfold Validate. case_decide as H1; [done|]. cbv zeta. case_decide as H2; [done|].
    destruct (IsEditOperation input) eqn:H3; [done|]. case_decide as H4; [done|].
    exfalso. apply Hno. auto.
Qed.

(** C2: the deferred [os.Remove(tempFile)] and the removals of
    [createTempFile] clean up on every path: a run of [Validate], whatever
    its outcome, schedule or tools, leaves the file system as it found it
    except that the staged path may have been deleted. *)
Theorem Validate_cleanup v sched input w :
  fs (Validate env v sched input w).1 = fs w \/
  fs (Validate env v sched input w).1 = delete (Staging.staged_path env (FilePath input)) (fs w).
Proof. apply Validate_fs. Qed.

(** C18: a pass that staged the content and returned a result has deleted
    the staged path: nothing of the pass is left in the temp directory, and
    a file that was at that path before the pass is gone too. *)
Theorem Validate_removes_staged_file v sched input w w' r :
  FilePath input <> "" -> Strings.TrimPrefix (Filepath.Ext (FilePath input)) "." <> "" ->
  IsEditOperation input = false -> FullContent input <> "" ->
  Validate env v sched input w = (w', Ok r) ->
  fs w' = delete (Staging.staged_path env (FilePath input)) (fs w).
Proof.
  intros H1 H2 H3 H4 E. pose proof (proj2 (Validate_fs v sched input w) H1 H2 H3 H4) as H.
  rewrite E in H. by apply H.
Qed.

(** ** The pass writes nothing to standard output *)

Lemma run_formatter_stdout tempFile f : st_preserves stdout_same (run_formatter env tempFile f).
Proof.
  intros w. unfold run_formatter.
  by destruct (formatter_Format env f tempFile _) as [[e|] [c|]].
Qed.

Lemma run_linters_stdout tempFile ls sched :
  st_preserves stdout_same (run_linters env tempFile ls sched).
Proof. intros w. unfold run_linters. simpl. by destruct (content _). Qed.

Lemma read_back_stdout tempFile full r : st_preserves stdout_same (read_back env tempFile full r).
Proof.
  intros w. unfold read_back. pose proof (ReadFile_stdout env tempFile w) as Hr.
  destruct (os.ReadFile env tempFile w) as [w' [fc|e]]; [case_decide|]; exact Hr.
Qed.

#[local] Hint Resolve run_formatter_stdout run_linters_stdout read_back_stdout : frame.

Lemma after_staging_stdout v sched ext input tempFile :
  st_preserves stdout_same (after_staging env v sched ext input tempFile).
Proof. unfold after_staging. solve_frame. Qed.

#[local] Hint Resolve after_staging_stdout : frame.

Lemma Validate_stdout v sched input : st_preserves stdout_same (Validate env v sched input).
Proof. unfold Validate. cbv zeta. solve_frame. Qed.

(** ** [HasErrors] *)

Lemma markdown_step_flagged ext input : findings_flagged (markdown_step ext input).
Proof.
  unfold markdown_step, findings_flagged. repeat case_decide; simpl.
  - split; [|done]. intros _. left. intros E. rewrite E in *. simpl in *. lia.
  - split; [done|]. intros [E|E]; [|by apply Exists_nil in E].
    destruct (CheckMarkdownBold _); [done|]. simpl in *. lia.
  - split; [done|]. intros [E|E]; [done|by apply Exists_nil in E].
Qed.

Lemma add_lint_results_flagged r lrs :
  findings_flagged r -> findings_flagged (add_lint_results r lrs).
Proof.
  unfold findings_flagged, add_lint_results. simpl. intros Hr.
  rewrite orb_true_iff, Hr, Exists_app, existsb_exists, (Exists_exists _ lrs).
  setoid_rewrite negb_true_iff. setoid_rewrite list_elem_of_In. tauto.
Qed.

Lemma read_back_flagged tempFile full r :
  findings_flagged r -> st_post findings_flagged (read_back env tempFile full r).
Proof.
  intros Hr w w' r'. unfold read_back.
  destruct (os.ReadFile env tempFile w) as [w1 [fc|e]]; [case_decide|]; by intros [= _ <-].
Qed.

Lemma after_staging_flagged v sched ext input tempFile :
  st_post findings_flagged (after_staging env v sched ext input tempFile).
Proof.
  unfold after_staging. apply (st_post_bind findings_flagged).
  - apply st_post_bind_any. intros _. case_decide.
    + apply read_back_flagged, markdown_step_flagged.
    + apply st_post_bind_any. intros lrs.
      apply read_back_flagged, add_lint_results_flagged, markdown_step_flagged.
  - intros r Hr. apply st_post_bind_any. intros _. by apply st_post_ret.
Qed.

Lemma Validate_post_flagged v sched input : st_post findings_flagged (Validate env v sched input).
Proof.
  unfold Validate. case_decide.
  { apply st_post_ret. unfold findings_flagged. simpl. split; [done|]. intros [?|?%Exists_nil]; done. }
  cbv zeta. case_decide.
  { apply st_post_ret. unfold findings_flagged. simpl. split; [done|]. intros [?|?%Exists_nil]; done. }
  destruct (IsEditOperation input); [apply st_post_ret, markdown_step_flagged|].
  case_decide; [apply st_post_ret, markdown_step_flagged|].
  apply st_post_bind_any. intros t. apply after_staging_flagged.
Qed.

(** C5: [HasErrors] is set exactly when the result holds a finding: a
    markdown issue or a lint result that did not pass (a linter that
    failed to start included). *)
Theorem Validate_flags_findings v sched input w w' r :
  Validate env v sched input w = (w', Ok r) ->
  HasErrors r = true <-> MarkdownIssues r <> [] \/ Exists (fun lr => Passed lr = false) (LintResults r).
Proof. exact (Validate_post_flagged v sched input w w' r). Qed.

Lemma markdown_step_LintResults ext input : LintResults (markdown_step ext input) = [].
Proof. unfold markdown_step. by repeat case_decide. Qed.

Lemma read_back_LintResults tempFile full r :
  st_post (fun r' => LintResults r' = LintResults r) (read_back env tempFile full r).
Proof.
  intros w w' r'. unfold read_back.
  destruct (os.ReadFile env tempFile w) as [w1 [fc|e]]; [case_decide|]; by intros [= _ <-].
Qed.

(** The lint results of a pass that staged [tempFile] are none, or the
    [results] of the group run on it. *)
Lemma after_staging_results v sched ext input tempFile :
  st_post (fun r => LintResults r = [] \/ exists c0,
             LintResults r = results (run_group env tempFile (GetApplicableLinters ext (cfg v)) sched c0))
    (after_staging env v sched ext input tempFile).
Proof.
  unfold after_staging. match goal with |- st_post ?P _ => apply (st_post_bind P P) end;
    [|intros r Hr; apply st_post_bind_any; intros _; by apply st_post_ret].
  apply st_post_bind_any. intros _. case_decide as Hl.
  - intros w w' r' Hr%read_back_LintResults. left. by rewrite Hr, markdown_step_LintResults.
  - intros w w' r'. unfold st_bind, run_linters.
    intros Hr%read_back_LintResults. right. eexists. by rewrite Hr; simpl; rewrite markdown_step_LintResults.
Qed.

Lemma Validate_lint_results v sched input w w' r :
  Validate env v sched input w = (w', Ok r) ->
  LintResults r = [] \/ exists tempFile c0,
    LintResults r = results (run_group env tempFile
      (GetApplicableLinters (Strings.TrimPrefix (Filepath.Ext (FilePath input)) ".") (cfg v)) sched c0).
Proof.
  unfold Validate. case_decide; [by intros [= _ <-]; left|]. cbv zeta. case_decide; [by intros [= _ <-]; left|].
  destruct (IsEditOperation input); [intros [= _ <-]; left; apply markdown_step_LintResults|].
  case_decide; [intros [= _ <-]; left; apply markdown_step_LintResults|].
  unfold st_bind. destruct (st_wrap _ _ w) as [w1 [t|e]]; [|done].
  intros [Ha|[c0 Ha]]%after_staging_results; [by left|]. right. eauto.
Qed.

(** C11: what [WasFormatted] reports.  After staging, with linters to
    run and the staged file readable, the pass reports the content as
    formatted exactly when the content the formatters and then the linter
    group leave in the staged file differs from [FullContent], and
    [FormattedContent] is that content.  Changes made by a linter's
    [--write] or [--fix] are reported as formatting. *)
Theorem after_staging_formatted v sched ext input tempFile w w' r :
  GetApplicableLinters ext (cfg v) <> [] ->
  env_fault env OpRead tempFile = None ->
  after_staging env v sched ext input tempFile w = (w', Ok r) ->
  let w1 := (st_for (GetApplicableFormatters ext (cfg v)) (run_formatter env tempFile) w).1 in
  let c := content (run_group env tempFile (GetApplicableLinters ext (cfg v)) sched
                      (fs w1 !! tempFile)) in
  (WasFormatted r = true <-> exists c', c = Some c' /\ c' <> FullContent input) /\
  (WasFormatted r = true -> c = Some (FormattedContent r)).
Proof.
  intros Hl Hread. unfold after_staging, st_bind.
  destruct (st_total_for (GetApplicableFormatters ext (cfg v)) _ (run_formatter_total tempFile) w)
    as (w1 & [] & E1).
  rewrite E1. simpl. rewrite decide_False by done. unfold run_linters.
  set (st := run_group env tempFile _ sched (fs w1 !! tempFile)).
  assert (Hmd : WasFormatted (markdown_step ext input) = false).
  { unfold markdown_step. by repeat case_decide. }
  unfold read_back, os.ReadFile. rewrite Hread.
  destruct (content st) as [c|] eqn:Ec; simpl.
  - rewrite lookup_insert_eq. case_decide as Hne; simpl; intros [= _ <-]; simpl.
    + split; [split; [intros _; eauto|done]|done].
    + simpl. rewrite Hmd. split; [split; [done|intros (c' & [= <-] & Hc'); done]|done].
  - apply run_group_content_None in Ec. rewrite Ec. simpl. intros [= _ <-].
    simpl. rewrite Hmd. split; [split; [done|intros (c' & [=] & _)]|done].
Qed.

End ValidateLemmas.

(** ** Witnesses and concrete runs *)

Lemma Validate_error_witness :
  match Validate readonly_tmp_env (New default_config) [] py_input empty_world with
  | (w', Err e) =>
      exists e', e = "failed to create temp file: " +:+ e' /\
                 Staging.createTempFile readonly_tmp_env (FilePath py_input)
                   (FullContent py_input) empty_world = (w', Err e')
  | _ => False
  end.
Proof.
  destruct (Validate readonly_tmp_env (New default_config) [] py_input empty_world)
    as [w' [r|e]] eqn:E.
  - vm_compute in E. discriminate E.
  - exact (Validate_error readonly_tmp_env _ _ _ _ _ _ E).
Defined.

Lemma group_results_registry_order_witness :
  map Name (results (run_group py_env "/tmp/a.py" (GetApplicableLinters "py" default_config)
                      [Start 1; Start 0; Finish 1; Finish 0] (Some "x=1")))
  = map linter_Name (GetApplicableLinters "py" default_config).
Proof.
  refine (proj1 (group_results_registry_order py_env "/tmp/a.py" _ _ (Some "x=1") _)).
  vm_compute. repeat constructor.
Defined.

Lemma group_order_independent_witness :
  results (run_group py_ro_env "/tmp/a.py" (GetApplicableLinters "py" default_config)
             [Start 1; Start 0; Finish 1; Finish 0] (Some "x=1"))
  = map (fun l => (linter_Run py_ro_env l "/tmp/a.py" (Some "x=1")).1)
        (GetApplicableLinters "py" default_config).
Proof.
  refine (proj1 (group_order_independent py_ro_env "/tmp/a.py" _ _ (Some "x=1") _ _)).
  - intros i l Hl. left.
    destruct i as [|[|i]]; vm_compute in Hl; [injection Hl as <-..|discriminate Hl];
      vm_compute; reflexivity.
  - vm_compute. repeat constructor.
Defined.

Lemma Validate_removes_staged_file_witness :
  match Validate py_env (New default_config) [Start 0; Finish 0; Start 1; Finish 1]
          py_input empty_world with
  | (w', Ok r) => fs w' = delete (Staging.staged_path py_env (FilePath py_input)) (fs empty_world)
  | _ => False
  end.
Proof.
  destruct (Validate py_env _ _ py_input empty_world) as [w' [r|e]] eqn:E.
  - refine (Validate_removes_staged_file py_env _ _ _ _ _ _ _ _ _ _ E); vm_compute; congruence.
  - vm_compute in E. discriminate E.
Defined.

Lemma Validate_flags_findings_witness :
  match Validate py_env (New default_config) [Start 1; Finish 1; Start 0; Finish 0]
          py_input empty_world with
  | (w', Ok r) => HasErrors r = true <->
      MarkdownIssues r <> [] \/ Exists (fun lr => Passed lr = false) (LintResults r)
  | _ => False
  end.
Proof.
  destruct (Validate py_env _ _ py_input empty_world) as [w' [r|e]] eqn:E.
  - exact (Validate_flags_findings py_env _ _ _ _ _ _ E).
  - vm_compute in E. discriminate E.
Defined.

(** ruff's [--fix] rewrites the staged ["x=1"]: the pass reports it as
    formatted. *)
Lemma after_staging_formatted_witness :
  let w0 := set_fs (<["/tmp/a.py" := "x=1"]>) empty_world in
  match after_staging py_env (New default_config) py_sched0 "py" py_input "/tmp/a.py" w0 with
  | (w', Ok r) =>
      let w1 := (st_for (GetApplicableFormatters "py" default_config)
                   (run_formatter py_env "/tmp/a.py") w0).1 in
      let c := content (run_group py_env "/tmp/a.py" (GetApplicableLinters "py" default_config)
                          py_sched0 (fs w1 !! "/tmp/a.py")) in
      (WasFormatted r = true <-> exists c', c = Some c' /\ c' <> FullContent py_input) /\
      (WasFormatted r = true -> c = Some (FormattedContent r))
  | _ => False
  end.
Proof.
  intros w0. destruct (after_staging py_env _ _ _ _ _ w0) as [w' [r|e]] eqn:E.
  - refine (after_staging_formatted py_env (New default_config) py_sched0 "py" py_input "/tmp/a.py"
              w0 w' r _ _ E); vm_compute; congruence.
  - vm_compute in E. discriminate E.
Defined.

End Validator.
