(* ===== verification/ErrGroup.v ===== *)
(** * ErrGroup: when [g.Wait()] returns

    [Validator.run_group] runs the linters of one pass along a schedule, a
    list of [Start i] / [Finish i] events.  [phases] keeps only where each
    goroutine is (pending, running, done); it depends on the schedule
    alone, not on what the tools print or write, and [schedule_completes]
    computes from it whether a schedule lets [g.Wait()] return
    ([schedule_completes_complete]).  [Response] uses it to state which
    passes its end-to-end theorem is about. *)

From S2P Require Import Prelude GoLib Os Config Markdown Linters Validator.
Import Linters Validator.

Module ErrGroup.

(** The bookkeeping of the group alone: where each goroutine is, whatever
    the tools print or write. *)
Inductive Phase := PPending | PRunning | PDone.

Definition phase (t : Task) : Phase :=
  match t with Pending => PPending | Running _ => PRunning | Done => PDone end.

(** [lint_step] on the phases of [n] goroutines. *)
Definition phase_step (n : nat) (ps : list Phase) (ev : Event) : list Phase :=
  match ev with
  | Start i => match ps !! i with Some PPending => <[i := PRunning]> ps | _ => ps end
  | Finish i =>
      match ps !! i with
      | Some PRunning => if decide (i < n) then <[i := PDone]> ps else ps
      | _ => ps
      end
  end.

Definition phases (n : nat) (sched : list Event) : list Phase :=
  foldl (phase_step n) (replicate n PPending) sched.

(** [g.Wait()] returns after [sched] on [n] goroutines. *)
Definition schedule_completes (n : nat) (sched : list Event) : bool :=
  forallb (fun p => match p with PDone => true | _ => false end) (phases n sched).

(** * Properties *)

Section PhaseLemmas.
Context {L : Type} `{!LinterInterface L} (env : Env) (tempFile : string) (linters : list L).

Lemma phase_lint_step st ev :
  phase <$> tasks (lint_step env tempFile linters st ev) =
    phase_step (length linters) (phase <$> tasks st) ev.
Proof.
  destruct ev as [i|i]; simpl; rewrite list_lookup_fmap;
    destruct (tasks st !! i) as [[]|] eqn:E; simpl; try done.
  - by rewrite list_fmap_insert.
  - destruct (linters !! i) eqn:El; case_decide as Hi.
    + destruct (lRun _ _ _ _). simpl. by rewrite list_fmap_insert.
    + apply lookup_lt_Some in El. lia.
    + apply lookup_ge_None in El. lia.
    + done.
Qed.

(** The phases of the goroutines depend on the schedule alone. *)
Lemma phases_run_group sched c0 :
  phase <$> tasks (run_group env tempFile linters sched c0) = phases (length linters) sched.
Proof.
  unfold run_group, phases.
  assert (Hgo : forall st, phase <$> tasks (foldl (lint_step env tempFile linters) st sched) =
                           foldl (phase_step (length linters)) (phase <$> tasks st) sched).
  { induction sched as [|ev sched IH]; intros st; simpl; [done|]. by rewrite IH, phase_lint_step. }
  rewrite Hgo. simpl. by rewrite fmap_replicate.
Qed.

Lemma schedule_completes_complete sched c0 :
  schedule_completes (length linters) sched = true -> complete (run_group env tempFile linters sched c0).
Proof.
  unfold schedule_completes. rewrite <-(phases_run_group sched c0), forallb_forall. intros H.
  apply Forall_forall. intros t Ht. apply (list_elem_of_fmap_2 phase), list_elem_of_In, H in Ht.
  by destruct t.
Qed.

End PhaseLemmas.

End ErrGroup.
