(* ===== verification/Response.v ===== *)
(** * Response: [BuildJSONResponse] of hook/response.go

    The report of a validation pass as the JSON object a PostToolUse hook
    returns.  [contextParts] is the list of report lines the code appends
    to [contextParts]; they are joined with newlines into
    [additionalContext].  The decision is ["approve"] on both branches:
    the hook informs and never blocks.  [json.MarshalIndent] of the response
    cannot fail on a struct of strings, so the error branch of the code is
    unreachable and [BuildJSONResponse] always returns [Ok].  The last
    theorem joins the pass to its report: a linter that fails in a pass
    whose group has finished is named in the report with its error. *)

From S2P Require Import Prelude GoLib GoJson Os Markdown Linters Validator ErrGroup.
Import Markdown Linters Validator ErrGroup.

Module Response.

(** [type HookSpecificOutput struct] with its JSON tags. *)
Record HookSpecificOutput := {
  HookEventName : string;
  Decision : string;
  Reason : string;
  AdditionalContext : string
}.

(** [type ClaudeCodeHookResponse struct { HookSpecificOutput }] *)
Record ClaudeCodeHookResponse := { hookSpecificOutput : HookSpecificOutput }.

Definition nl : string := String "010" "".

(** The fixed lines of the report. *)
Definition formattedLine : string := "✓ Content was auto-formatted".
Definition passedLine : string := "✓ All checks passed".
Definition markdownHeader : string := nl +:+ "Markdown validation errors:".
Definition separatorLine : string := "━━━━━━━━━━━━━━━━━━━━━━━━━━━━━━━━━━━━━━━━━━━━━━━━━━━━━━━━━━━━━━━━━━".
Definition warningLine : string := "⚠️  Validation issues found above - please review and address.".

(** [fmt.Sprintf("  Line %d, Col %d: %s", issue.Line, issue.Column, issue.Message)] *)
Definition issueLine (issue : MarkdownIssue) : string :=
  "  Line " +:+ Itoa (Z.of_nat (Line issue)) +:+ ", Col " +:+ Itoa (Z.of_nat (Column issue))
  +:+ ": " +:+ Message issue.

(** [for _, line := range strings.Split(lr.Output, "\n") { if line != "" {
    append("  " + line) } }] *)
Definition outputLines (output : string) : list string :=
  mjoin (map (fun line => if decide (line = "") then [] else ["  " +:+ line])
             (Strings.Split output "010"%char)).

(** The lines of one lint result: nothing when it passed. *)
Definition lintParts (lr : LintResult) : list string :=
  if Passed lr then []
  else [nl +:+ Name lr +:+ " errors:"]
       ++ (if decide (Output lr = "") then [] else outputLines (Output lr))
       ++ match Error lr with Some e => ["  Error: " +:+ e] | None => [] end.

Definition summaryParts : list string := [nl +:+ separatorLine; warningLine; separatorLine].

(** [contextParts] on each branch of [BuildJSONResponse]. *)
Definition contextParts (result : ValidationResult) : list string :=
  let formatted := if WasFormatted result then [formattedLine] else [] in
  if negb (HasErrors result) then
    formatted ++ (if WasFormatted result then [] else [passedLine])
  else
    formatted
    ++ (if decide (0 < length (MarkdownIssues result))
        then markdownHeader :: map issueLine (MarkdownIssues result) else [])
    ++ mjoin (map lintParts (LintResults result))
    ++ summaryParts.

(** The response value of each branch: [Reason] is left empty, hence
    omitted, on the success branch. *)
Definition buildResponse (result : ValidationResult) : ClaudeCodeHookResponse :=
  if negb (HasErrors result) then
    {| hookSpecificOutput :=
         {| HookEventName := "PostToolUse"; Decision := "approve"; Reason := "";
            AdditionalContext := Strings.Join (contextParts result) nl |} |}
  else
    {| hookSpecificOutput :=
         {| HookEventName := "PostToolUse"; Decision := "approve";
            Reason := "Validation completed with issues";
            AdditionalContext := Strings.Join (contextParts result) nl |} |}.

(** [json.MarshalIndent(response, "", "  ")]: the fields in declaration
    order, [decision], [reason] and [additionalContext] being [omitempty]. *)
Definition marshalResponse (resp : ClaudeCodeHookResponse) : string :=
  let o := hookSpecificOutput resp in
  json.object 0
    [("hookSpecificOutput",
      json.object 1 (json.struct_fields
        [{| json.fname := "hookEventName"; json.omitempty := false; json.fvalue := HookEventName o |};
         {| json.fname := "decision"; json.omitempty := true; json.fvalue := Decision o |};
         {| json.fname := "reason"; json.omitempty := true; json.fvalue := Reason o |};
         {| json.fname := "additionalContext"; json.omitempty := true;
            json.fvalue := AdditionalContext o |}]))].

Definition BuildJSONResponse (result : ValidationResult) : res string :=
  Ok (marshalResponse (buildResponse result)).

(** ** A concrete pass *)

(** ruff then pyright on ["x=1"]: ruff reports E225 and fixes the file. *)
Definition py_sched : list Event := [Start 0; Finish 0; Start 1; Finish 1].

Definition py_pass : ValidationResult :=
  match (Validate py_env (New default_config) py_sched py_input empty_world).2 with
  | Ok r => r
  | Err _ => empty_result
  end.

Definition ruff_failure : LintResult :=
  {| Name := "ruff"; Passed := false; Output := "E225 missing whitespace";
     Error := Some "ruff exited with code 1" |}.

(** ** Properties *)

Lemma contextParts_not_nil result : contextParts result <> [].
Proof.
  unfold contextParts, summaryParts.
  destruct (HasErrors result), (WasFormatted result); simpl; intros H; try discriminate.
  all: repeat match type of H with _ ++ _ = [] => apply app_eq_nil in H as [_ H] end;
    discriminate.
Qed.

(** The opening of every response: the event name and the decision. *)
Definition response_prefix : string :=
  "{" +:+ nl +:+ "  " +:+ json.quote "hookSpecificOutput" +:+ ": {" +:+ nl
  +:+ "    " +:+ json.quote "hookEventName" +:+ ": " +:+ json.quote "PostToolUse" +:+ "," +:+ nl
  +:+ "    " +:+ json.quote "decision" +:+ ": " +:+ json.quote "approve".

Lemma marshalResponse_prefix result :
  Strings.HasPrefix (marshalResponse (buildResponse result)) response_prefix = true.
Proof.
  unfold marshalResponse, buildResponse.
  generalize (Strings.Join (contextParts result) nl). intros ctx.
  destruct (decide (ctx = "")) as [->|Hne]; [destruct (HasErrors result); vm_compute; reflexivity|].
  destruct (HasErrors result); simpl; rewrite (bool_decide_eq_false_2 (ctx = "")) by done;
    vm_compute; reflexivity.
Qed.

(** C16: the response never fails to build and always opens with the
    PostToolUse event and the decision ["approve"]. *)
Theorem BuildJSONResponse_approve result :
  match BuildJSONResponse result with
  | Ok text => Strings.HasPrefix text response_prefix = true
  | Err _ => False
  end.
Proof. apply marshalResponse_prefix. Qed.

(** Every line of a failing lint result of a result with errors is in its
    report. *)
Lemma lintParts_context result lr x :
  HasErrors result = true -> lr ∈ LintResults result -> x ∈ lintParts lr -> x ∈ contextParts result.
Proof.
  intros Herr Hlr Hx. unfold contextParts. rewrite Herr. simpl. rewrite !elem_of_app.
  right; right; left. apply list_elem_of_join. exists (lintParts lr).
  split; [done|]. by apply list_elem_of_fmap_2.
Qed.

(** C17: what the report says.  A clean result is reported by one line,
    the formatting notice or the success line; a result with errors lists
    every markdown issue, and every failing lint result with its name and
    its error. *)
Theorem contextParts_report result :
  (HasErrors result = false ->
   contextParts result = [if WasFormatted result then formattedLine else passedLine]) /\
  (HasErrors result = true ->
   (forall issue, issue ∈ MarkdownIssues result -> issueLine issue ∈ contextParts result) /\
   (forall lr, lr ∈ LintResults result -> Passed lr = false ->
      (nl +:+ Name lr +:+ " errors:") ∈ contextParts result /\
      (forall e, Error lr = Some e -> ("  Error: " +:+ e) ∈ contextParts result))).
Proof.
  split; intros Herr.
  { unfold contextParts. rewrite Herr. by destruct (WasFormatted result). }
  pose proof (lintParts_context result) as Hlint.
  split.
  - intros issue Hi. unfold contextParts. rewrite Herr. simpl. rewrite decide_True.
    2:{ destruct (MarkdownIssues result); [by apply elem_of_nil in Hi|simpl; lia]. }
    rewrite !elem_of_app. right; left. apply elem_of_cons; right. by apply list_elem_of_fmap_2.
  - intros lr Hlr Hp. split; [|intros e He]; apply (Hlint lr); try done;
      unfold lintParts; rewrite Hp; [by left|rewrite He; set_solver].
Qed.

(** C25: every linter that fails in a pass is reported.  When [g.Wait()]
    returns after the pass's schedule, a lint result that did not pass is
    the result of one of the applicable linters and carries its name, and
    the report the JSON response carries names it in an ["errors:"]
    header and gives its error. *)
Theorem Validate_failures_reported env v sched input w w' r lr :
  Validate env v sched input w = (w', Ok r) ->
  schedule_completes (length (GetApplicableLinters
    (Strings.TrimPrefix (Filepath.Ext (FilePath input)) ".") (cfg v))) sched = true ->
  lr ∈ LintResults r -> Passed lr = false ->
  (exists l, l ∈ GetApplicableLinters (Strings.TrimPrefix (Filepath.Ext (FilePath input)) ".") (cfg v) /\
             Name lr = lName l) /\
  (nl +:+ Name lr +:+ " errors:") ∈ contextParts r /\
  exists e, Error lr = Some e /\ ("  Error: " +:+ e) ∈ contextParts r.
Proof.
  intros HV Hs Hlr Hp.
  assert (Herr : HasErrors r = true).
  { apply (Validate_post_flagged env v sched input w w' r HV). right. apply Exists_exists. eauto. }
  destruct (Validate_lint_results _ _ _ _ _ _ _ HV) as [E|(t & c0 & E)];
    rewrite E in Hlr; [by apply elem_of_nil in Hlr|].
  destruct (complete_results env t _ sched c0 lr (schedule_completes_complete env t _ sched c0 Hs) Hlr)
    as (l & s & Hl & ->).
  rewrite <-E in Hlr. destruct (lRun_failed env l t s Hp) as [e He].
  split; [exists l; split; [done|apply (lRun_Name env l t s)]|].
  split; [|exists e; split; [done|]]; apply (lintParts_context r _ _ Herr Hlr);
    unfold lintParts; rewrite Hp; [by left|rewrite He; set_solver].
Qed.

Lemma Validate_failures_reported_witness :
  (exists l, l ∈ GetApplicableLinters (Strings.TrimPrefix (Filepath.Ext (FilePath py_input)) ".")
                   (cfg (New default_config)) /\ Name ruff_failure = lName l) /\
  (nl +:+ Name ruff_failure +:+ " errors:") ∈ contextParts py_pass /\
  exists e, Error ruff_failure = Some e /\ ("  Error: " +:+ e) ∈ contextParts py_pass.
Proof.
  apply (Validate_failures_reported py_env (New default_config) py_sched py_input empty_world
           (Validate py_env (New default_config) py_sched py_input empty_world).1).
  - vm_compute. reflexivity.
  - vm_compute. reflexivity.
  - apply list_elem_of_In. vm_compute. left. reflexivity.
  - reflexivity.
Defined.

End Response.
