(* ===== verification/SimpleUI.v ===== *)
(** * SimpleUI: [SimpleUI.DisplayResult] of ui/simple.go

    The plain-text report written to a writer ([os.Stderr] in [main]).
    Each [fmt.Fprintln] or [fmt.Fprintf] call is one write; [writes] lists
    the texts of a result in the order the code writes them, and
    [DisplayResult] performs them through the writer.  The report carries
    the same lines as the JSON response's [additionalContext]
    ([Response.contextParts]), each ended by a newline. *)

From S2P Require Import Prelude GoLib Os Markdown Linters Validator Response.
Import Markdown Linters Validator Response.

Module SimpleUI.

(** [type SimpleUI struct { writer io.Writer }]: a write of one text. *)
Record SimpleUI := { writer : string -> ST World unit }.

Definition NewSimpleUI (w : string -> ST World unit) : SimpleUI := {| writer := w |}.

(** The writes for one lint result. *)
Definition lintWrites (lr : LintResult) : list string :=
  if Passed lr then []
  else [nl +:+ Name lr +:+ " errors:" +:+ nl]
       ++ (if decide (Output lr = "") then []
           else mjoin (map (fun line => if decide (line = "") then [] else ["  " +:+ line +:+ nl])
                           (Strings.Split (Output lr) "010"%char)))
       ++ match Error lr with Some e => ["  Error: " +:+ e +:+ nl] | None => [] end.

(** The texts [DisplayResult] writes, on each of its branches. *)
Definition writes (result : ValidationResult) : list string :=
  (if WasFormatted result then [formattedLine +:+ nl] else [])
  ++ if negb (HasErrors result) then
       (if WasFormatted result then [] else [passedLine +:+ nl])
     else
       (if decide (0 < length (MarkdownIssues result))
        then (markdownHeader +:+ nl) :: map (fun issue => issueLine issue +:+ nl) (MarkdownIssues result)
        else [])
       ++ mjoin (map lintWrites (LintResults result))
       ++ [nl +:+ separatorLine +:+ nl; warningLine +:+ nl; separatorLine +:+ nl].

Definition DisplayResult (s : SimpleUI) (result : ValidationResult) : ST World unit :=
  st_for (writes result) (writer s).

(** ** The plain report and the JSON report *)

Lemma lintWrites_parts lr : lintWrites lr = map (fun p => p +:+ nl) (lintParts lr).
Proof.
  unfold lintWrites, lintParts. destruct (Passed lr); [done|]. rewrite !map_app. simpl.
  f_equal; [by rewrite !string_app_assoc|]. f_equal.
  - case_decide; [done|]. unfold outputLines. rewrite map_mjoin, map_map. f_equal.
    apply map_ext. intros line. case_decide; [done|]. simpl. by rewrite string_app_assoc.
  - destruct (Error lr); simpl; [by rewrite string_app_assoc|done].
Qed.

Lemma writes_parts result : writes result = map (fun p => p +:+ nl) (contextParts result).
Proof.
  assert (Hl : mjoin (map lintWrites (LintResults result))
               = map (fun p => p +:+ nl) (mjoin (map lintParts (LintResults result)))).
  { rewrite map_mjoin, map_map. f_equal. apply map_ext. intros. apply lintWrites_parts. }
  unfold writes, contextParts, summaryParts.
  destruct (WasFormatted result), (HasErrors result); simpl; try done.
  all: rewrite !map_app, Hl; simpl; case_decide; simpl; rewrite ?map_map, ?string_app_assoc;
    reflexivity.
Qed.

(** C15: the plain-text report and the JSON report say the same: what
    [DisplayResult] writes to [os.Stderr] is, write after write, the
    [additionalContext] of the response followed by a newline. *)
Theorem DisplayResult_matches_response result w :
  DisplayResult (NewSimpleUI write_stderr) result w =
    ({| fs := fs w; rng := rng w; stdout := stdout w; stderr := stderr w ++ writes result |}, Ok tt) /\
  foldr String.append "" (writes result)
    = AdditionalContext (hookSpecificOutput (buildResponse result)) +:+ nl.
Proof.
  split; [apply st_for_write_stderr|].
  rewrite writes_parts, concat_map_sep by apply contextParts_not_nil.
  unfold buildResponse. by destruct (HasErrors result).
Qed.

End SimpleUI.
