(* ===== verification/Styles.v ===== *)
(** * Styles: the lipgloss styles and status icons of ui/styles.go

    Each style of the source is a constructor of [Style]; [style_spec]
    gives the attributes its builder chain sets (foreground colour, bold,
    rounded border and its colour, padding, bottom margin).  What a style
    does to a text on a terminal is lipgloss's; the views take it as a
    parameter [render : Style -> string -> string]. *)

From S2P Require Import Prelude.

Module Styles.

Definition colorSuccess : string := "#04B575".
Definition colorError : string := "#FF4545".
Definition colorWarning : string := "#FFAA00".
Definition colorInfo : string := "#00AAFF".
Definition colorMuted : string := "#888888".

Inductive Style :=
| SuccessStyle | ErrorStyle | WarningStyle | InfoStyle | MutedStyle | BoxStyle
| ErrorBoxStyle | HeaderStyle | LinterNameStyle.

(** The attributes [lipgloss.NewStyle()] and its setters give a style. *)
Record StyleSpec := {
  foreground : option string;
  bold : bool;
  rounded_border : bool;
  border_foreground : option string;
  padding : nat * nat;
  margin_bottom : nat
}.

Definition fg (c : string) (b : bool) : StyleSpec :=
  {| foreground := Some c; bold := b; rounded_border := false;
     border_foreground := None; padding := (0, 0); margin_bottom := 0 |}.

Definition box (c : string) : StyleSpec :=
  {| foreground := None; bold := false; rounded_border := true;
     border_foreground := Some c; padding := (0, 1); margin_bottom := 0 |}.

Definition style_spec (s : Style) : StyleSpec :=
  match s with
  | SuccessStyle => fg colorSuccess true
  | ErrorStyle => fg colorError true
  | WarningStyle => fg colorWarning true
  | InfoStyle => fg colorInfo false
  | MutedStyle => fg colorMuted false
  | BoxStyle => box colorInfo
  | ErrorBoxStyle => box colorError
  | HeaderStyle =>
      {| foreground := Some colorInfo; bold := true; rounded_border := false;
         border_foreground := None; padding := (0, 0); margin_bottom := 1 |}
  | LinterNameStyle => fg colorInfo true
  end.

Definition IconSuccess : string := "✓".
Definition IconError : string := "✗".
Definition IconPending : string := "○".
Definition IconRunning : string := "◉".

End Styles.
