(* ===== verification/Tui.v ===== *)
(** * Tui: the interactive terminal UI of ui/tui.go

    A Bubble Tea program: the [Model] of the code, its [Update] function
    on the three messages it handles (a key, the completion of the
    validation, a spinner tick), and its [View].  Rendering with lipgloss
    is given by [render], which applies a style to a text; the spinner is
    its frame counter, and its picture is given by [spinnerView].

    [Run] is the program's event loop with the validation command
    ([runValidation]) running beside it.  That command is the whole of
    [Validate]; the program can stop at any point of it.  The model cuts
    it where the file system matters: [EvStage] runs the part up to
    [createTempFile], and [EvFinish] runs the rest
    ([Validator.after_staging], with the deferred [os.Remove]) and delivers
    [validationCompleteMsg]; an input that does not stage runs whole at
    [EvStage].  [Run_refines_Validate] shows the two steps together are
    [Validate].  When the user quits between them, [Run] returns and [main]
    exits: the deferred removal never runs.

    Bubble Tea's renderer writes the program's [View] to standard output
    at its own pace: the first frame, frames at its frame rate, and the
    last frame when the program stops.  Each such write is an [EvRender]
    event of the run, which appends the current view to [stdout]; the
    cursor-control sequences around a frame are not modelled. *)

From S2P Require Import Prelude GoLib Os Config Markdown Linters Staging Validator Styles.
Import Config Markdown Linters Validator Styles.

Module Tui.

Inductive linterState := statePending | stateRunning | stateDone | stateFailed.

#[export] Instance linterState_eq_dec : EqDecision linterState.
Proof. solve_decision. Defined.

(** [type linterStatus struct { name; state; result *LintResult }] *)
Record linterStatus := {
  name : string;
  state : linterState;
  lresult : option LintResult
}.

(** [type Model struct]; [spinner] is the spinner's frame. *)
Record Model := {
  validator : Validator;
  input : ValidationInput;
  spinner : nat;
  linters : list linterStatus;
  markdownIssues : list MarkdownIssue;
  validationDone : bool;
  validationError : option string;
  result : option ValidationResult;
  quitting : bool
}.

Inductive Msg :=
| KeyMsg (key : string)
| validationCompleteMsg (r : option ValidationResult) (err : option string)
| TickMsg.

(** The commands [Update] returns: [tea.Quit], the
    [tea.Tick(500*time.Millisecond, ... tea.Quit())] sequence, the
    spinner's next tick, or none. *)
Inductive Cmd := NoCmd | QuitCmd | QuitAfterTick | SpinnerTick.

#[export] Instance Cmd_eq_dec : EqDecision Cmd.
Proof. solve_decision. Defined.

(** [NewModel(cfg, input, linterNames)] *)
Definition NewModel (cfg : Config) (inp : ValidationInput) (linterNames : list string) : Model :=
  {| validator := New cfg; input := inp; spinner := 0;
     linters := map (fun n => {| name := n; state := statePending; lresult := None |}) linterNames;
     markdownIssues := []; validationDone := false; validationError := None;
     result := None; quitting := false |}.

(** [m.linters[i].result = &lr] and its state from [lr.Passed]. *)
Definition set_result (st : linterStatus) (lr : LintResult) : linterStatus :=
  {| name := name st; state := if Passed lr then stateDone else stateFailed; lresult := Some lr |}.

(** One iteration of [for i, lr := range msg.result.LintResults]: the
    status at [i], when there is one ([i < len(m.linters)]), is updated. *)
Definition apply_lint_result (ls : list linterStatus) (ilr : nat * LintResult) : list linterStatus :=
  let '(i, lr) := ilr in
  match ls !! i with
  | Some st => <[i := set_result st lr]> ls
  | None => ls
  end.

Definition update_linters (ls : list linterStatus) (lrs : list LintResult) : list linterStatus :=
  foldl apply_lint_result ls (imap pair lrs).

(** [m.Update(msg)] *)
Definition Update (m : Model) (msg : Msg) : Model * Cmd :=
  match msg with
  | KeyMsg k =>
      if decide (k = "q" \/ k = "ctrl+c") then
        ({| validator := validator m; input := input m; spinner := spinner m;
            linters := linters m; markdownIssues := markdownIssues m;
            validationDone := validationDone m; validationError := validationError m;
            result := result m; quitting := true |}, QuitCmd)
      else (m, NoCmd)
  | validationCompleteMsg r err =>
      let '(issues, ls) :=
        match r with
        | Some res => (MarkdownIssues res, update_linters (linters m) (LintResults res))
        | None => (markdownIssues m, linters m)
        end in
      ({| validator := validator m; input := input m; spinner := spinner m;
          linters := ls; markdownIssues := issues; validationDone := true;
          validationError := err; result := r; quitting := quitting m |}, QuitAfterTick)
  | TickMsg =>
      ({| validator := validator m; input := input m; spinner := S (spinner m);
          linters := linters m; markdownIssues := markdownIssues m;
          validationDone := validationDone m; validationError := validationError m;
          result := result m; quitting := quitting m |}, SpinnerTick)
  end.

(** A status is well formed when it has a result exactly when it is no
    longer pending, and its state is the one [lr.Passed] gives
    ([stateRunning] is declared by the source and never set). *)
Definition status_wf (st : linterStatus) : Prop :=
  match lresult st with
  | None => state st = statePending
  | Some lr => state st = if Passed lr then stateDone else stateFailed
  end.

(** The model of a run started on [names]: one well-formed status per name,
    in order. *)
Definition model_wf (names : list string) (m : Model) : Prop :=
  map name (linters m) = names /\ Forall status_wf (linters m).

(** ** [View] *)

Definition nl : string := String "010" "".

(** The texts as the source file holds them. *)
Definition headerText : string := "ðŸ” Validating file changes...".
Definition markdownFailedText : string := "âœ— Markdown validation failed".
Definition issuesFoundText : string := "âš ï¸  Validation issues found - please review".
Definition allPassedText : string := "âœ“ All checks passed".

(** The number of output lines shown under a failed linter. *)
Definition maxLines : nat := 5.

Section View.
Context (render : Style -> string -> string) (spinnerView : nat -> string).

(** The output lines shown: the first [maxLines], and a truncation
    notice when there are more. *)
Definition shownOutput (output : string) : list string :=
  let outputLines := Strings.Split output "010"%char in
  if decide (maxLines < length outputLines)
  then take maxLines outputLines ++ [render MutedStyle "  ... (truncated)"]
  else outputLines.

(** [m.renderLinterStatus(ls)] *)
Definition renderLinterStatus (m : Model) (ls : linterStatus) : string :=
  let '(icon, status) :=
    match state ls with
    | statePending => (render MutedStyle IconPending, render MutedStyle "pending")
    | stateRunning => (spinnerView (spinner m), render InfoStyle "running")
    | stateDone => (render SuccessStyle IconSuccess, render SuccessStyle "passed")
    | stateFailed => (render ErrorStyle IconError, render ErrorStyle "failed")
    end in
  let line := "  " +:+ icon +:+ " " +:+ render LinterNameStyle (name ls) +:+ " " +:+ status in
  match state ls, lresult ls with
  | stateFailed, Some r =>
      if decide (Output r = "") then line
      else line +:+ nl +:+
           foldr String.append ""
             (map (fun ol => if decide (ol = "") then ""
                             else render MutedStyle ("    " +:+ ol) +:+ nl)
                  (shownOutput (Output r)))
  | _, _ => line
  end.

(** [m.View()] *)
Definition View (m : Model) : string :=
  if quitting m then "" else
  render HeaderStyle headerText +:+ nl +:+ nl
  +:+ (if decide (0 < length (markdownIssues m)) then
         render ErrorStyle markdownFailedText +:+ nl
         +:+ foldr String.append ""
               (map (fun issue => "  Line " +:+ Itoa (Z.of_nat (Line issue)) +:+ ", Col "
                                  +:+ Itoa (Z.of_nat (Column issue)) +:+ ": " +:+ Message issue +:+ nl)
                    (markdownIssues m))
         +:+ nl
       else "")
  +:+ (if decide (0 < length (linters m)) then
         "Linters:" +:+ nl
         +:+ foldr String.append "" (map (fun ls => renderLinterStatus m ls +:+ nl) (linters m))
       else "")
  +:+ match validationError m with
      | Some e => nl +:+ render ErrorBoxStyle ("Error: " +:+ e) +:+ nl
      | None => ""
      end
  +:+ match validationDone m, result m with
      | true, Some r =>
          nl +:+ (if HasErrors r then render ErrorBoxStyle issuesFoundText
                  else render BoxStyle allPassedText) +:+ nl
      | _, _ => ""
      end.

End View.

(** Texts that are frames of the view, as the renderer writes them. *)
Definition frames (render : Style -> string -> string) (spinnerView : nat -> string)
    (out : list string) : Prop :=
  Forall (fun t => exists m, t = View render spinnerView m) out.

(** ** The program *)

(** The validation command: not started, staged (waiting to run the rest
    of the pass on the staged file), or done. *)
Inductive VThread := VIdle | VStaged (tempFile : string) | VFinished.

(** What happens next: a key, a spinner tick, the 500ms quit timer, a
    step of the validation command, a flush of the renderer, or a failure
    of the terminal that ends [p.Run()] with an error. *)
Inductive TeaEvent :=
| EvKey (k : string) | EvSpin | EvTimer | EvStage | EvFinish | EvRender
| EvFail (err : string).

(** The running program; [pfail] is the error [p.Run()] returns. *)
Record Prog := {
  pmodel : Model;
  pthread : VThread;
  pworld : World;
  ptimer : bool;
  pdone : bool;
  pfail : option string
}.

(** The inputs that reach [createTempFile] in [Validate]. *)
Definition stages (inp : ValidationInput) : bool :=
  bool_decide (FilePath inp <> "") &&
  bool_decide (Strings.TrimPrefix (Filepath.Ext (FilePath inp)) "." <> "") &&
  negb (IsEditOperation inp) && bool_decide (FullContent inp <> "").

Definition set_thread (th : VThread) (w : World) (p : Prog) : Prog :=
  {| pmodel := pmodel p; pthread := th; pworld := w; ptimer := ptimer p; pdone := pdone p;
     pfail := pfail p |}.

(** [Update] on a message, and what the runtime does with its command. *)
Definition handle (p : Prog) (msg : Msg) : Prog :=
  let '(m', cmd) := Update (pmodel p) msg in
  {| pmodel := m'; pthread := pthread p; pworld := pworld p;
     ptimer := ptimer p || bool_decide (cmd = QuitAfterTick);
     pdone := pdone p || bool_decide (cmd = QuitCmd); pfail := pfail p |}.

(** [runValidation] returns [validationCompleteMsg{result, err}]. *)
Definition complete_msg (r : res ValidationResult) : Msg :=
  match r with
  | Ok res => validationCompleteMsg (Some res) None
  | Err e => validationCompleteMsg None (Some e)
  end.

Section Program.
Context (env : Env) (sched : list Event)
  (render : Style -> string -> string) (spinnerView : nat -> string).

Definition tea_step (p : Prog) (ev : TeaEvent) : Prog :=
  if pdone p then p else
  let m := pmodel p in
  match ev with
  | EvKey k => handle p (KeyMsg k)
  | EvSpin => handle p TickMsg
  | EvTimer =>
      if ptimer p then
        {| pmodel := m; pthread := pthread p; pworld := pworld p; ptimer := true; pdone := true;
           pfail := pfail p |}
      else p
  | EvRender => set_thread (pthread p) (write_stdout (View render spinnerView m) (pworld p)).1 p
  | EvFail e =>
      {| pmodel := m; pthread := pthread p; pworld := pworld p; ptimer := ptimer p; pdone := true;
         pfail := Some e |}
  | EvStage =>
      match pthread p with
      | VIdle =>
          if stages (input m) then
            match st_wrap "failed to create temp file: "
                    (Staging.createTempFile env (FilePath (input m)) (FullContent (input m)))
                    (pworld p) with
            | (w', Ok t) => set_thread (VStaged t) w' p
            | (w', Err e) => handle (set_thread VFinished w' p) (complete_msg (Err e))
            end
          else
            let '(w', r) := Validate env (validator m) sched (input m) (pworld p) in
            handle (set_thread VFinished w' p) (complete_msg r)
      | _ => p
      end
  | EvFinish =>
      match pthread p with
      | VStaged t =>
          let '(w', r) := after_staging env (validator m) sched
                            (Strings.TrimPrefix (Filepath.Ext (FilePath (input m))) ".")
                            (input m) t (pworld p) in
          handle (set_thread VFinished w' p) (complete_msg r)
      | _ => p
      end
  end.

Definition tea_init (cfg : Config) (inp : ValidationInput) (linterNames : list string) (w : World) : Prog :=
  {| pmodel := NewModel cfg inp linterNames; pthread := VIdle; pworld := w;
     ptimer := false; pdone := false; pfail := None |}.

(** [ui.Run(cfg, input, linterNames)] on a run of events: [None] while the
    program has not stopped; then ["TUI error: "] and the error of
    [p.Run()], or the final model's result or its validation error, and
    the world. *)
Definition Run (cfg : Config) (inp : ValidationInput) (linterNames : list string)
    (events : list TeaEvent) (w : World) : option ((option ValidationResult * option string) * World) :=
  let p := foldl tea_step (tea_init cfg inp linterNames w) events in
  if pdone p then
    Some (match pfail p, validationError (pmodel p) with
          | Some e, _ => (None, Some ("TUI error: " +:+ e))
          | None, Some e => (None, Some e)
          | None, None => (result (pmodel p), None)
          end, pworld p)
  else None.

End Program.

(** ** Properties of [Update] *)

Lemma apply_lint_result_lookup ls i lr j :
  apply_lint_result ls (i, lr) !! j =
    if decide (i = j) then (fun st => set_result st lr) <$> ls !! j else ls !! j.
Proof.
  simpl. destruct (ls !! i) as [st|] eqn:E; case_decide; subst.
  - rewrite list_lookup_insert_eq by (by apply lookup_lt_Some in E). by rewrite E.
  - by rewrite list_lookup_insert_ne.
  - by rewrite E.
  - done.
Qed.

Lemma update_linters_go_lookup ls lrs k j :
  foldl apply_lint_result ls (imap (fun i lr => (k + i, lr)) lrs) !! j =
    match ls !! j with
    | Some st =>
        Some (match (if decide (k <= j) then lrs !! (j - k) else None) with
              | Some lr => set_result st lr
              | None => st
              end)
    | None => None
    end.
Proof.
  revert ls k. induction lrs as [|lr lrs IH]; intros ls k; cbn [foldl imap].
  - destruct (ls !! j); [|done]. case_decide; [|done]. by rewrite lookup_nil.
  - rewrite Nat.add_0_r.
    rewrite (imap_ext _ (fun i x => (S k + i, x))) by (intros; simpl; f_equal; lia).
    rewrite IH, apply_lint_result_lookup.
    destruct (decide (k = j)) as [<-|Hne].
    + destruct (ls !! k); simpl; [|done].
      repeat case_decide; try lia. by rewrite Nat.sub_diag.
    + destruct (ls !! j); [|done]. f_equal.
      destruct (decide (S k <= j)), (decide (k <= j)); try lia; [|done].
      by replace (j - k) with (S (j - S k)) by lia.
Qed.

(** The loop over the lint results, index by index: a status whose index
    has a result gets it, the others are unchanged. *)
Lemma update_linters_lookup ls lrs j :
  update_linters ls lrs !! j =
    match ls !! j, lrs !! j with
    | Some st, Some lr => Some (set_result st lr)
    | o, _ => o
    end.
Proof.
  unfold update_linters. rewrite (imap_ext _ (fun i lr => (0 + i, lr))) by done.
  rewrite update_linters_go_lookup, decide_True, Nat.sub_0_r by lia.
  by destruct (ls !! j), (lrs !! j).
Qed.

Lemma update_linters_names ls lrs : map name (update_linters ls lrs) = map name ls.
Proof.
  apply list_eq. intros i. rewrite !list_lookup_fmap, update_linters_lookup.
  by destruct (ls !! i), (lrs !! i).
Qed.

(** C19: [Update] keeps the list of linter statuses, in order and by name;
    the completion message gives each status whose index has a lint result
    that result, and the state [stateDone] or [stateFailed] from its
    [Passed]; the other messages leave the statuses unchanged. *)
Theorem Update_linter_states m msg :
  map name (linters (Update m msg).1) = map name (linters m) /\
  match msg with
  | validationCompleteMsg (Some res) _ =>
      forall i, linters (Update m msg).1 !! i =
        match linters m !! i, LintResults res !! i with
        | Some st, Some lr =>
            Some {| name := name st; state := if Passed lr then stateDone else stateFailed;
                    lresult := Some lr |}
        | o, _ => o
        end
  | _ => linters (Update m msg).1 = linters m
  end.
Proof.
  destruct msg as [k|[res|] err|]; simpl; [case_decide; simpl| | |]; split; try done.
  - apply update_linters_names.
  - intros i. apply update_linters_lookup.
Qed.

Lemma update_linters_wf ls lrs : Forall status_wf ls -> Forall status_wf (update_linters ls lrs).
Proof.
  rewrite !Forall_lookup. intros H i st. rewrite update_linters_lookup.
  destruct (ls !! i) eqn:E, (lrs !! i); intros; simplify_eq; [done|by eapply H..].
Qed.

Lemma Update_wf names m msg : model_wf names m -> model_wf names (Update m msg).1.
Proof.
  intros [Hn Hw]. destruct msg as [k|[res|] err|]; simpl; [case_decide|..];
    split; simpl; rewrite ?update_linters_names; auto using update_linters_wf.
Qed.

(** C22: Well-formedness of the model: from [NewModel] on a list of
    linter names, any sequence of messages given to [Update] leaves one
    status per name, in order, each with a result exactly when it is no
    longer pending and with the state its result's [Passed] gives. *)
Theorem Update_model_wf cfg inp names msgs :
  model_wf names (foldl (fun m msg => (Update m msg).1) (NewModel cfg inp names) msgs).
Proof.
  cut (forall m, model_wf names m -> model_wf names (foldl (fun m msg => (Update m msg).1) m msgs)).
  { intros H. apply H. split; simpl.
    - rewrite map_map. apply map_id.
    - apply Forall_map, Forall_true. done. }
  induction msgs as [|msg msgs IH]; intros m Hm; simpl; [done|]. by apply IH, Update_wf.
Qed.

Lemma stages_spec inp :
  stages inp = true <->
  FilePath inp <> "" /\ Strings.TrimPrefix (Filepath.Ext (FilePath inp)) "." <> "" /\
  IsEditOperation inp = false /\ FullContent inp <> "".
Proof.
  unfold stages. rewrite !andb_true_iff, negb_true_iff, !bool_decide_eq_true. tauto.
Qed.

(** C24: a failed linter shows at most [maxLines] lines of its output and
    the truncation notice; an output of at most [maxLines] lines is shown
    whole. *)
Theorem shownOutput_bound render output :
  length (shownOutput render output) <= S maxLines /\
  (length (Strings.Split output "010"%char) <= maxLines ->
   shownOutput render output = Strings.Split output "010"%char).
Proof.
  unfold shownOutput, maxLines. case_decide as H; split; try lia; try done.
  rewrite length_app, length_take. cbn [length]. lia.
Qed.

Section RunLemmas.
Context (env : Env) (sched : list Event)
  (render : Style -> string -> string) (spinnerView : nat -> string).

(** C9: without a key press, the TUI's run is [Validate]: the two steps of
    the validation command leave the world [Validate] leaves, and
    [ui.Run] returns its result, or its error. *)
Theorem Run_refines_Validate cfg inp names w :
  Run env sched render spinnerView cfg inp names [EvStage; EvFinish; EvTimer] w =
    Some (match (Validate env (New cfg) sched inp w).2 with
          | Ok r => (Some r, None)
          | Err e => (None, Some e)
          end, (Validate env (New cfg) sched inp w).1).
Proof.
  unfold Run, tea_init. cbn [foldl]. unfold tea_step.
  cbn -[st_wrap Staging.createTempFile after_staging Validate].
  destruct (stages inp) eqn:Hs.
  - pose proof Hs as (H1 & H2 & H3 & H4)%stages_spec.
    rewrite Validate_staging by done. unfold st_bind.
    destruct (st_wrap _ _ w) as [w1 [t|e]]; [|reflexivity].
    destruct (after_staging_total env (New cfg) sched
                (Strings.TrimPrefix (Filepath.Ext (FilePath inp)) ".") inp t w1) as (w2 & r & Ha).
    cbn -[st_wrap Staging.createTempFile after_staging Validate]. rewrite Ha. reflexivity.
  - by destruct (Validate env (New cfg) sched inp w) as [w' [r|e]].
Qed.

(** C10: quitting the TUI while the validation runs leaves the staged file
    behind.  When the user presses [q] after [createTempFile] and before the
    rest of the pass, [ui.Run] returns no result and no error, [main] exits
    with 0, and the deferred [os.Remove] never runs: the temp directory
    keeps [TempDir/base+ext] with the content. *)
Theorem Run_quit_leaves_staged_file cfg inp names w :
  stages inp = true ->
  match st_wrap "failed to create temp file: "
          (Staging.createTempFile env (FilePath inp) (FullContent inp)) w with
  | (w1, Ok t) =>
      Run env sched render spinnerView cfg inp names [EvStage; EvKey "q"] w = Some ((None, None), w1) /\
      t = Staging.staged_path env (FilePath inp) /\ fs w1 !! t = Some (FullContent inp)
  | (_, Err _) => True
  end.
Proof.
  intros Hs. pose proof Hs as (_ & H2 & _)%stages_spec.
  pose proof (Staging.createTempFile_outcome env (FilePath inp) (FullContent inp) w
                (Ext_of_TrimPrefix _ H2)) as Hc.
  unfold Run, tea_init. cbn [foldl]. unfold tea_step.
  cbn -[st_wrap Staging.createTempFile after_staging Validate]. rewrite Hs.
  destruct (st_wrap _ _ w) as [w1 [t|e]] eqn:E1; [|done].
  unfold st_wrap, st_catch in E1.
  destruct (Staging.createTempFile env _ _ w) as [w1' [t'|e]]; [injection E1 as <- <-|discriminate E1].
  destruct Hc as [[[= ->] Hfs]|(? & [=] & _)]. split; [reflexivity|split; [done|]].
  rewrite Hfs. apply lookup_insert_eq.
Qed.

Lemma handle_world p msg : pworld (handle p msg) = pworld p.
Proof. unfold handle. by destruct (Update _ _). Qed.

(** Only the renderer writes to standard output. *)
Lemma tea_step_stdout p ev :
  ev <> EvRender ->
  stdout (pworld (tea_step env sched render spinnerView p ev)) = stdout (pworld p).
Proof.
  intros Hev. unfold tea_step. destruct (pdone p); [done|].
  destruct ev; try (rewrite handle_world; done); try (by destruct (ptimer p)); try done.
  - destruct (pthread p); try done. destruct (stages _).
    + pose proof (st_preserves_wrap stdout_same "failed to create temp file: " _
        (Staging.createTempFile_stdout env (FilePath (input (pmodel p)))
           (FullContent (input (pmodel p)))) (pworld p)) as H.
      destruct (st_wrap _ _ _) as [w' [t|e]]; rewrite ?handle_world; exact H.
    + pose proof (Validate_stdout env (validator (pmodel p)) sched (input (pmodel p)) (pworld p)) as H.
      destruct (Validate _ _ _ _ _) as [w' r]. rewrite handle_world. exact H.
  - destruct (pthread p) as [|t|]; try done.
    pose proof (after_staging_stdout env (validator (pmodel p)) sched
      (Strings.TrimPrefix (Filepath.Ext (FilePath (input (pmodel p)))) ".") (input (pmodel p)) t
      (pworld p)) as H.
    destruct (after_staging _ _ _ _ _ _ _) as [w' r]. rewrite handle_world. exact H.
Qed.

Lemma tea_step_frames p ev :
  exists fr, stdout (pworld (tea_step env sched render spinnerView p ev)) = stdout (pworld p) ++ fr /\
             frames render spinnerView fr.
Proof.
  destruct ev; try (exists []; rewrite app_nil_r; split; [by apply tea_step_stdout|constructor]).
  unfold tea_step. destruct (pdone p).
  - exists []. rewrite app_nil_r. split; [done|constructor].
  - exists [View render spinnerView (pmodel p)]. split; [reflexivity|]. repeat constructor. eauto.
Qed.

(** What a run of the TUI writes to standard output is frames of its view. *)
Lemma Run_frames cfg inp names evs w r w' :
  Run env sched render spinnerView cfg inp names evs w = Some (r, w') ->
  exists fr : list string, stdout w' = stdout w ++ fr /\ frames render spinnerView fr.
Proof.
  unfold Run.
  assert (Hf : forall p, exists fr : list string,
    stdout (pworld (foldl (tea_step env sched render spinnerView) p evs)) = stdout (pworld p) ++ fr /\
    frames render spinnerView fr).
  { induction evs as [|ev evs IH]; intros p; simpl; [exists []; rewrite app_nil_r; split; [done|constructor]|].
    destruct (tea_step_frames p ev) as (fr1 & E1 & F1).
    destruct (IH (tea_step env sched render spinnerView p ev)) as (fr2 & E2 & F2).
    exists (fr1 ++ fr2). rewrite E2, E1, app_assoc. split; [done|]. by apply Forall_app. }
  destruct (pdone _); [|done]. intros [= _ <-]. apply Hf.
Qed.

End RunLemmas.

Lemma Run_quit_leaves_staged_file_witness :
  match st_wrap "failed to create temp file: "
          (Staging.createTempFile py_env (FilePath py_input) (FullContent py_input)) empty_world with
  | (w1, Ok t) =>
      Run py_env [] (fun _ s => s) (fun _ => "") default_config py_input ["ruff"; "pyright"] [EvStage; EvKey "q"] empty_world
        = Some ((None, None), w1) /\
      t = Staging.staged_path py_env (FilePath py_input) /\ fs w1 !! t = Some (FullContent py_input)
  | (_, Err _) => True
  end.
Proof. apply Run_quit_leaves_staged_file. reflexivity. Defined.

End Tui.
