(* ===== verification/Main.v ===== *)
(** * Main: [run] of main.go

    One invocation of the hook: parse the payload, return 0 when it names
    no file, build the [ValidationInput] from the payload, and either run
    the TUI (on a terminal, for a write with linters) or run [Validate],
    print the JSON response on standard output and the plain report on
    standard error.  The exit code is [exitError] only when the payload
    cannot be parsed or the pass returns an error.

    The process's inputs are a [Process]: what [io.ReadAll(os.Stdin)]
    returned, [json.Unmarshal], the environment variables, whether
    standard output is a terminal, the schedule of the linter group, and
    the events the TUI program sees.  [run] is [None] when the TUI has not
    stopped on those events. *)

From S2P Require Import Prelude GoLib GoJson Os Config Hook Markdown Linters Staging Validator Response SimpleUI Styles Tui.
Import Config Linters Validator Response SimpleUI.

Module Main.

Definition exitSuccess : Z := 0.
Definition exitError : Z := 1.

(** What [run] gets from its process: the bytes of stdin (or the read
    error), [json.Unmarshal], the environment, whether stdout is a
    terminal, the interleaving of the linter goroutines, the events of the
    TUI's run, and how lipgloss and the spinner draw on this terminal. *)
Record Process := {
  stdin : res string;
  unmarshal : string -> res Hook.HookData;
  getenv : string -> string;
  isTTY : bool;
  schedule : list Event;
  tui_events : list Tui.TeaEvent;
  tui_render : Styles.Style -> string -> string;
  tui_spinner : nat -> string
}.

(** The [input := validator.ValidationInput{...}] of [run]. *)
Definition validation_input (h : Hook.HookData) : ValidationInput :=
  {| FilePath := Hook.file_path (Hook.tool_input h);
     ChangeContent := Hook.GetValidationContent h;
     FullContent := Hook.GetFullContent h;
     IsEditOperation := Hook.IsEditOperation h |}.

(** The simple mode: [v.Validate], the JSON response on stdout, the plain
    report on stderr. *)
Definition simple_mode (env : Env) (p : Process) (cfg : Config) (input : ValidationInput)
    : ST World Z :=
  st_try (Validate env (New cfg) (schedule p) input)
    (fun err => write_stderr ("Validation error: " +:+ err +:+ nl) ;;; st_ret exitError)
    (fun result =>
       st_try (fun w => (w, BuildJSONResponse result))
         (fun err => write_stderr ("Error building JSON response: " +:+ err +:+ nl) ;;;
                     st_ret exitError)
         (fun jsonResponse =>
            write_stdout (jsonResponse +:+ nl) ;;;
            DisplayResult (NewSimpleUI write_stderr) result ;;;
            st_ret exitSuccess)).

(** [run()] *)
Definition run (env : Env) (p : Process) (w : World) : option (World * Z) :=
  match Hook.ParseHookData (stdin p) (unmarshal p) with
  | Err e => Some ((write_stderr ("Error parsing hook data: " +:+ e +:+ nl) w).1, exitError)
  | Ok hookData =>
      if decide (Hook.file_path (Hook.tool_input hookData) = "") then Some (w, exitSuccess) else
      let cfg := Config.Load (getenv p) in
      let input := validation_input hookData in
      let ext := Strings.TrimPrefix (Filepath.Ext (FilePath input)) "." in
      let linters := GetApplicableLinters ext cfg in
      let linterNames := map linter_Name linters in
      if isTTY p && negb (IsEditOperation input) && bool_decide (0 < length linters) then
        match Tui.Run env (schedule p) (tui_render p) (tui_spinner p) cfg input linterNames (tui_events p) w with
        | None => None
        | Some ((_, Some err), w') =>
            Some ((write_stderr ("Validation error: " +:+ err +:+ nl) w').1, exitError)
        | Some ((_, None), w') => Some (w', exitSuccess)
        end
      else
        let '(w', r) := simple_mode env p cfg input w in
        match r with Ok code => Some (w', code) | Err _ => None end
  end.

(** ** A concrete invocation *)

(** A [Write] of ["/p/a.py"] with content ["x=1"], piped. *)
Definition py_payload : Hook.HookData :=
  {| Hook.tool_name := "Write";
     Hook.tool_input := {| Hook.file_path := "/p/a.py"; Hook.old_string := "";
                           Hook.new_string := ""; Hook.content := "x=1" |} |}.

Definition py_process : Process :=
  {| stdin := Ok "{}"; unmarshal := fun _ => Ok py_payload; getenv := fun _ => "";
     isTTY := false; schedule := [Start 0; Finish 0; Start 1; Finish 1]; tui_events := [];
     tui_render := fun _ s => s; tui_spinner := fun _ => "" |}.

(** An [Edit] of a markdown file, from a terminal. *)
Definition edit_process : Process :=
  {| stdin := Ok "{}";
     unmarshal := fun _ => Ok {| Hook.tool_name := "Edit";
                                 Hook.tool_input := {| Hook.file_path := "/p/README.md";
                                                       Hook.old_string := "a";
                                                       Hook.new_string := "**b**";
                                                       Hook.content := "" |} |};
     getenv := fun _ => ""; isTTY := true; schedule := []; tui_events := [];
     tui_render := fun _ s => s; tui_spinner := fun _ => "" |}.

(** ** Hook mode *)

(** C7: the hook's whole run when standard output is not a terminal: a
    pass that returns a result prints the JSON response as one line on
    standard output, writes the plain report to standard error, and exits
    with 0; a pass that fails writes ["Validation error: "] and the error
    to standard error, prints nothing, and exits with 1.  Nothing else is
    written and the file system is the one [Validate] left. *)
Theorem run_simple_mode env p w h :
  Hook.ParseHookData (stdin p) (unmarshal p) = Ok h ->
  Hook.file_path (Hook.tool_input h) <> "" ->
  isTTY p = false ->
  run env p w = Some
    match Validate env (New (Config.Load (getenv p))) (schedule p) (validation_input h) w with
    | (w1, Ok r) =>
        ({| fs := fs w1; rng := rng w1;
            stdout := stdout w1 ++ [marshalResponse (buildResponse r) +:+ nl];
            stderr := stderr w1 ++ writes r |}, exitSuccess)
    | (w1, Err e) =>
        ({| fs := fs w1; rng := rng w1; stdout := stdout w1;
            stderr := stderr w1 ++ ["Validation error: " +:+ e +:+ nl] |}, exitError)
    end.
Proof.
  intros Hp Hf Htty. unfold run. rewrite Hp, decide_False by done. cbv zeta. rewrite Htty.
  simpl andb. cbv iota. unfold simple_mode, st_try.
  destruct (Validate _ _ _ _ w) as [w1 [r|e]]; [|reflexivity].
  unfold st_bind, BuildJSONResponse, DisplayResult. simpl. rewrite st_for_write_stderr.
  reflexivity.
Qed.

Lemma run_simple_mode_witness :
  run py_env py_process empty_world = Some
    match Validate py_env (New (Config.Load (getenv py_process))) (schedule py_process)
            (validation_input py_payload) empty_world with
    | (w1, Ok r) =>
        ({| fs := fs w1; rng := rng w1;
            stdout := stdout w1 ++ [marshalResponse (buildResponse r) +:+ nl];
            stderr := stderr w1 ++ writes r |}, exitSuccess)
    | (w1, Err e) =>
        ({| fs := fs w1; rng := rng w1; stdout := stdout w1;
            stderr := stderr w1 ++ ["Validation error: " +:+ e +:+ nl] |}, exitError)
    end.
Proof. apply run_simple_mode; [reflexivity|discriminate|reflexivity]. Defined.

(** C26: an [Edit] never touches the file system: in either mode, the
    hook leaves every file and the random stream as they were, and exits
    with 0. *)
Theorem run_edit_no_io env p w h w' code :
  Hook.ParseHookData (stdin p) (unmarshal p) = Ok h ->
  Hook.tool_name h = "Edit" ->
  run env p w = Some (w', code) ->
  fs w' = fs w /\ rng w' = rng w /\ code = exitSuccess.
Proof.
  intros Hp He. unfold run. rewrite Hp. case_decide; [by intros [= <- <-]|]. cbv zeta.
  assert (Hedit : IsEditOperation (validation_input h) = true).
  { simpl. unfold Hook.IsEditOperation. by rewrite bool_decide_eq_true. }
  rewrite Hedit, andb_false_r. simpl andb. cbv iota. unfold simple_mode, st_try.
  rewrite Validate_edit by done.
  unfold st_bind, BuildJSONResponse, DisplayResult. simpl. rewrite st_for_write_stderr.
  by intros [= <- <-].
Qed.

Lemma run_edit_no_io_witness :
  match run py_env edit_process empty_world with
  | Some (w', code) => fs w' = fs empty_world /\ rng w' = rng empty_world /\ code = exitSuccess
  | None => False
  end.
Proof.
  destruct (run py_env edit_process empty_world) as [[w' code]|] eqn:E.
  - exact (run_edit_no_io py_env edit_process empty_world _ w' code eq_refl eq_refl E).
  - vm_compute in E. discriminate E.
Defined.

(** ** What reaches standard output *)

(** C6: whatever the payload, the mode and the outcome of the pass, the
    hook's standard output receives either at most one text, a response
    whose decision is ["approve"] (the simple mode), or, when it is a
    terminal, only frames of the TUI's view: no run prints a response
    that blocks the operation. *)
Theorem run_stdout env p w w' code :
  run env p w = Some (w', code) ->
  exists out, stdout w' = stdout w ++ out /\
    ((length out <= 1 /\ Forall (fun text => Strings.HasPrefix text response_prefix = true) out) \/
     (isTTY p = true /\ Tui.frames (tui_render p) (tui_spinner p) out)).
Proof.
  assert (Hnone : forall w1, stdout w1 = stdout w ->
            exists out, stdout w1 = stdout w ++ out /\
              ((length out <= 1 /\ Forall (fun text => Strings.HasPrefix text response_prefix = true) out) \/
               (isTTY p = true /\ Tui.frames (tui_render p) (tui_spinner p) out))).
  { intros w1 H. exists []. rewrite app_nil_r. split; [done|left; split; [simpl; lia|constructor]]. }
  unfold run. destruct (Hook.ParseHookData _ _) as [h|e].
  2:{ intros [= <- _]. by apply Hnone. }
  case_decide. { intros [= <- _]. by apply Hnone. }
  cbv zeta. case_if.
  - apply andb_prop in E as [[Htty _]%andb_prop _].
    destruct (Tui.Run _ _ _ _ _ _ _ _ w) as [[[r [err|]] w1]|] eqn:Erun; intros Hr; try discriminate;
      injection Hr as <- _; destruct (Tui.Run_frames _ _ _ _ _ _ _ _ _ _ _ Erun) as (fr & Efr & Ffr);
      exists fr; (split; [exact Efr|right; by split]).
  - unfold simple_mode, st_try.
    pose proof (Validate_stdout env (New (Config.Load (getenv p))) (schedule p)
                  (validation_input h) w) as Hv.
    destruct (Validate _ _ _ _ w) as [w1 [r|err]]; unfold stdout_same in Hv; simpl in Hv.
    + unfold st_bind, DisplayResult. simpl. rewrite st_for_write_stderr.
      intros [= <- _]. simpl. eexists. split; [by rewrite Hv|]. left. split; [simpl; lia|].
      repeat constructor. apply HasPrefix_app, marshalResponse_prefix.
    + intros [= <- _]. by apply Hnone.
Qed.

Lemma run_stdout_witness :
  match run py_env py_process empty_world with
  | Some (w', code) =>
      exists out, stdout w' = stdout empty_world ++ out /\
        ((length out <= 1 /\ Forall (fun text => Strings.HasPrefix text response_prefix = true) out) \/
         (isTTY py_process = true /\ Tui.frames (tui_render py_process) (tui_spinner py_process) out))
  | None => False
  end.
Proof.
  destruct (run py_env py_process empty_world) as [[w' code]|] eqn:E.
  - exact (run_stdout py_env py_process empty_world w' code E).
  - vm_compute in E. discriminate E.
Defined.

End Main.
